(** * Portfolio analytics engine (src/src/portfolioAnalysis.py)

    A shallow embedding of [PortfolioAnalyzer] and of the pandas operations
    it calls, followed by the properties of the engine.

    Conventions of the embedding.
    - Python [str] values are byte strings; [lower] and [strip] act on the
      ASCII range.
    - A float is an exact rational ([Qc]), a missing value (NaN, [None])
      or, for the result of a division, an infinity; rounding and signed
      zeros are not represented.  Cell values are finite or missing.
    - A dataframe is an ordered list of named, typed columns (float64,
      object, datetime64, category) of one length; column labels are taken
      to be distinct, as [pd.read_csv] makes them.
    - A dataframe lives in a store of objects; [df.copy()] allocates, and
      a method works on the object [self.df] refers to.  Each assignment
      [df[name] = ...] is put on record, so that what a call computes anew
      can be told from what it reuses.
    - What [pd.to_numeric] and [pd.to_datetime] read out of a text cell,
      and the evaluation date [pd.Timestamp.today()] (in nanoseconds since
      the epoch), are parameters. *)

From Stdlib Require Import QArith Qcanon Ascii String Permutation Lqa.
From stdpp Require Import gmap strings list fin_maps sorting.

Open Scope Qc_scope.

(** ** Python strings *)

Module Py.

Definition code (c : ascii) : nat := nat_of_ascii c.

Definition isupper (c : ascii) : bool :=
  Nat.leb 65 (code c) && Nat.leb (code c) 90.

Definition lower_char (c : ascii) : ascii :=
  if isupper c then ascii_of_nat (code c + 32) else c.

(** [s.lower()] *)
Fixpoint lower (s : string) : string :=
  match s with
  | EmptyString => EmptyString
  | String c r => String (lower_char c) (lower r)
  end.

(** [c.isspace()] on ASCII: tab, line feed, vertical tab, form feed,
    carriage return, the four separators 28..31 and the space. *)
Definition isspace (c : ascii) : bool :=
  (Nat.leb 9 (code c) && Nat.leb (code c) 13)
  || (Nat.leb 28 (code c) && Nat.leb (code c) 32).

Fixpoint lstrip (s : string) : string :=
  match s with
  | EmptyString => EmptyString
  | String c r => if isspace c then lstrip r else s
  end.

Fixpoint rstrip (s : string) : string :=
  match s with
  | EmptyString => EmptyString
  | String c r =>
      match rstrip r with
      | EmptyString => if isspace c then EmptyString else String c EmptyString
      | r' => String c r'
      end
  end.

(** [s.strip()] *)
Definition strip (s : string) : string := rstrip (lstrip s).

Fixpoint startswith (p s : string) : bool :=
  match p, s with
  | EmptyString, _ => true
  | String a p', String b s' => bool_decide (a = b) && startswith p' s'
  | String _ _, EmptyString => false
  end.

(** [needle in hay] on strings *)
Fixpoint contains (needle hay : string) : bool :=
  startswith needle hay
  || match hay with
     | EmptyString => false
     | String _ t => contains needle t
     end.

(** Truth value of an optional string: [None] and the empty string are
    false. *)
Definition truthy (o : option string) : bool :=
  match o with
  | Some s => negb (bool_decide (s = EmptyString))
  | None => false
  end.

End Py.

(** ** Outcomes of a call: a value or a raised exception *)

Inductive outcome (A : Type) : Type :=
  | Ok (a : A)
  | KeyError (key : string)
  | TypeError.
Arguments Ok {A} a.
Arguments KeyError {A} key.
Arguments TypeError {A}.

Definition obind {A B} (m : outcome A) (k : A → outcome B) : outcome B :=
  match m with
  | Ok a => k a
  | KeyError key => KeyError key
  | TypeError => TypeError
  end.

Notation "x ←! m ; k" := (obind m (fun x => k))
  (at level 100, m at next level, right associativity, only parsing).

Definition raised {A} (m : outcome A) : bool :=
  match m with Ok _ => false | _ => true end.

(** ** pandas *)

Module pd.

(** *** Floats *)

Inductive float64 : Type :=
  | Fin (q : Qc)
  | Inf (negative : bool)
  | NaN.

Definition negative (q : Qc) : bool := bool_decide (q < 0).

Definition fdiv (x y : float64) : float64 :=
  match x, y with
  | NaN, _ | _, NaN => NaN
  | Fin a, Fin b =>
      if bool_decide (b = 0)
      then (if bool_decide (a = 0) then NaN else Inf (negative a))
      else Fin (a / b)
  | Fin _, Inf _ => Fin 0
  | Inf s, Fin b => Inf (xorb s (negative b))
  | Inf _, Inf _ => NaN
  end.

Definition fmul (x y : float64) : float64 :=
  match x, y with
  | NaN, _ | _, NaN => NaN
  | Fin a, Fin b => Fin (a * b)
  | Fin a, Inf s | Inf s, Fin a =>
      if bool_decide (a = 0) then NaN else Inf (xorb s (negative a))
  | Inf s, Inf t => Inf (xorb s t)
  end.

(** [Series.sum()] of a float64 column: missing values are skipped. *)
Definition sum (xs : list (option Qc)) : Qc :=
  foldr (fun x acc => default 0 x + acc) 0 xs.

(** *** Cells, columns, frames *)

(** A Python object held in an object column: a string, a float or a
    timestamp (nanoseconds since the epoch). *)
Inductive pyobj : Type :=
  | PStr (s : string)
  | PNum (q : Qc)
  | PTime (ns : Z).

(** A column with its dtype.  [None] is the missing value of the dtype
    (NaN, None, NaT, code -1). *)
Inductive column : Type :=
  | Float64 (xs : list (option Qc))
  | Object (xs : list (option pyobj))
  | Datetime64 (xs : list (option Z))
  | Categorical (categories : list string) (codes : list (option nat)).

Definition DataFrame : Type := list (string * column).

#[global] Instance pyobj_eq_dec : EqDecision pyobj.
Proof. solve_decision. Defined.
#[global] Instance column_eq_dec : EqDecision column.
Proof. solve_decision. Defined.
#[global] Instance float64_eq_dec : EqDecision float64.
Proof. solve_decision. Defined.

(** [df.columns] *)
Definition columns (df : DataFrame) : list string := df.*1.

(** [df[name]]; [None] when there is no such column (a [KeyError]). *)
Definition getitem (name : string) (df : DataFrame) : option column :=
  snd <$> List.find (fun p => bool_decide (p.1 = name)) df.

(** [df[name] = c]: an existing column is replaced where it stands, a new
    one is appended. *)
Definition setitem (name : string) (c : column) (df : DataFrame) : DataFrame :=
  if bool_decide (name ∈ columns df)
  then (fun p : string * column => if bool_decide (p.1 = name) then (p.1, c) else p) <$> df
  else df ++ [(name, c)].

(** The values of a column as Python objects. *)
Definition values (c : column) : list (option pyobj) :=
  match c with
  | Float64 xs => option_map PNum <$> xs
  | Object xs => xs
  | Datetime64 xs => option_map PTime <$> xs
  | Categorical cats codes =>
      (fun oc : option nat => oc ≫= fun i => option_map PStr (cats !! i)) <$> codes
  end.

(** The cell of column [name] in row [i]; missing when the column is not
    there. *)
Definition cell (df : DataFrame) (name : string) (i : nat) : option pyobj :=
  getitem name df ≫= fun c => mjoin (values c !! i).

Definition nrows (df : DataFrame) : nat :=
  match df with
  | [] => 0%nat
  | (_, c) :: _ => length (values c)
  end.

(** [df.select_dtypes(include="object").columns] *)
Definition object_columns (df : DataFrame) : list string :=
  (List.filter (fun p : string * column =>
     match p.2 with Object _ => true | _ => false end) df).*1.

(** *** Coercions

    What [pd.to_numeric] and [pd.to_datetime] make of one non-missing
    object is pandas' parsing; it is left open. *)

Section Coercions.
Variable numeric_of : pyobj → option Qc.
Variable datetime_of : pyobj → option Z.

(** [pd.to_numeric(c, errors="coerce")] *)
Definition to_numeric (c : column) : column :=
  match c with
  | Float64 xs => Float64 xs
  | _ => Float64 ((fun o => o ≫= numeric_of) <$> values c)
  end.

(** [pd.to_datetime(c, errors="coerce")] *)
Definition to_datetime (c : column) : list (option Z) :=
  match c with
  | Datetime64 xs => xs
  | _ => (fun o => o ≫= datetime_of) <$> values c
  end.

End Coercions.

(** [(ts - today).dt.days]: whole days, rounded down. *)
Definition day_ns : Z := 86400000000000.

Definition days (today : Z) (ts : option Z) : option Z :=
  (fun t => (t - today) `div` day_ns)%Z <$> ts.

(** *** Arithmetic on columns *)

Definition mul_float (x m : option Qc) : option Qc :=
  match x, m with
  | Some a, Some b => Some (a * b)
  | _, _ => None
  end.

(** One cell of an object column times a weight: only a pair of
    non-missing operands is multiplied, and a string or a timestamp times
    a float raises. *)
Definition mul_object (x : option pyobj) (m : option Qc) : outcome (option Qc) :=
  match x, m with
  | Some (PNum a), Some b => Ok (Some (a * b))
  | Some _, Some _ => TypeError
  | _, _ => Ok None
  end.

Fixpoint sequence {A} (l : list (outcome A)) : outcome (list A) :=
  match l with
  | [] => Ok []
  | m :: r => x ←! m; xs ←! sequence r; Ok (x :: xs)
  end.

(** [c * weights], the weights being a float64 column. *)
Definition mul (c : column) (weights : list (option Qc)) : outcome (list (option Qc)) :=
  match c with
  | Float64 xs => Ok (zip_with mul_float xs weights)
  | Object xs => sequence (zip_with mul_object xs weights)
  | Datetime64 _ | Categorical _ _ => TypeError
  end.

(** *** Labels and their order *)

(** A label of a result's index: an object, or a category with its code. *)
Inductive label : Type :=
  | Lab (o : pyobj)
  | Cat (code : nat) (s : string).

#[global] Instance label_eq_dec : EqDecision label.
Proof. solve_decision. Defined.

Definition kind (o : pyobj) : nat :=
  match o with PNum _ => 0 | PTime _ => 1 | PStr _ => 2 end%nat.

(** The order in which [groupby] lists its keys: keys of one kind in
    their own order (strings by code point); between kinds, numbers before
    timestamps before strings. *)
Definition pyobj_leb (x y : pyobj) : bool :=
  match x, y with
  | PNum a, PNum b => bool_decide (a <= b)
  | PTime a, PTime b => bool_decide (a ≤ b)%Z
  | PStr a, PStr b => String.leb a b
  | _, _ => Nat.ltb (kind x) (kind y)
  end.

Definition label_kind (l : label) : nat :=
  match l with Lab o => kind o | Cat _ _ => 3%nat end.

Definition label_leb (x y : label) : bool :=
  match x, y with
  | Lab a, Lab b => pyobj_leb a b
  | Cat i _, Cat j _ => Nat.leb i j
  | _, _ => Nat.ltb (label_kind x) (label_kind y)
  end.

(** Python orders two labels only when they are of one kind: sorting an
    index that mixes kinds raises a [TypeError]. *)
Definition comparable (ls : list label) : bool :=
  match ls with
  | [] => true
  | l :: r => forallb (fun x => Nat.eqb (label_kind x) (label_kind l)) r
  end.

(** Descending order of values, NaN last. *)
Definition float_geb (x y : float64) : bool :=
  match x, y with
  | _, NaN => true
  | NaN, _ => false
  | Inf false, _ => true
  | _, Inf false => false
  | _, Inf true => true
  | Inf true, _ => false
  | Fin a, Fin b => bool_decide (b <= a)
  end.

(** *** Series *)

Record Series : Type := mkSeries {
  name : option string;
  items : list (label * float64)
}.

#[global] Instance Series_eq_dec : EqDecision Series.
Proof. solve_decision. Defined.

(** [pd.Series()] and [pd.Series([], name=n)] *)
Definition empty : Series := mkSeries None [].
Definition empty_named (n : string) : Series := mkSeries (Some n) [].

Definition before {A} (leb : A → A → bool) : relation A :=
  fun x y => leb x y = true.

#[global] Instance before_dec {A} (leb : A → A → bool) x y :
  Decision (before leb x y).
Proof. unfold before. apply _. Defined.

(** A stable sort by a boolean order. *)
Definition sort_by {A} (leb : A → A → bool) (l : list A) : list A :=
  merge_sort (before leb) l.

(** [s.sort_index()] *)
Definition sort_index (s : Series) : outcome Series :=
  if comparable (items s).*1
  then Ok (mkSeries (name s) (sort_by (fun p q => label_leb p.1 q.1) (items s)))
  else TypeError.

(** [s.sort_values(ascending=False)] *)
Definition sort_values_desc (s : Series) : Series :=
  mkSeries (name s) (sort_by (fun p q => float_geb p.2 q.2) (items s)).

(** [s.head(n)] *)
Definition head (n : Z) (s : Series) : Series :=
  mkSeries (name s)
    (if bool_decide (0 ≤ n)%Z then take (Z.to_nat n) (items s)
     else take (length (items s) - Z.to_nat (- n)) (items s)).

(** [s.nlargest(n)] *)
Definition nlargest (n : Z) (s : Series) : Series :=
  if bool_decide (n ≤ 0)%Z then mkSeries (name s) []
  else head n (sort_values_desc s).

(** [s.sum()] of a result: missing values are skipped, opposite infinities
    add up to NaN. *)
Definition total (s : Series) : float64 :=
  foldr (fun p acc =>
           match p.2, acc with
           | NaN, _ => acc
           | _, NaN => NaN
           | Fin a, Fin b => Fin (a + b)
           | Inf s, Inf t => if bool_decide (s = t) then Inf s else NaN
           | Inf s, Fin _ | Fin _, Inf s => Inf s
           end) (Fin 0) (items s).

(** *** groupby(...)["Market Value"].sum() *)

(** The weights of the rows whose key is [k]. *)
Definition rows_of {K} `{EqDecision K} (keys : list (option K))
    (weights : list (option Qc)) (k : K) : list (option Qc) :=
  (filter (fun p : option K * option Qc => p.1 = Some k) (zip keys weights)).*2.

(** The groups of a key column with the sum of their weights: rows with a
    missing key are dropped, the keys come in their order; for a
    categorical key every category is listed. *)
Definition group_sums (key : column) (weights : list (option Qc)) : list (label * Qc) :=
  match key with
  | Categorical cats codes =>
      imap (fun i c => (Cat i c, sum (rows_of codes weights i))) cats
  | _ =>
      (fun k => (Lab k, sum (rows_of (values key) weights k)))
        <$> sort_by pyobj_leb (remove_dups (omap id (values key)))
  end.

(** [dist / dist.sum() * 100] *)
Definition percent (dist : list (label * Qc)) : list (label * float64) :=
  let grand := foldr Qcplus 0 dist.*2 in
  (fun p => (p.1, fmul (fdiv (Fin p.2) (Fin grand)) (Fin (Q2Qc 100)))) <$> dist.

(** *** pd.cut(x, bins, right=False) *)

(** [bins.searchsorted(x, side="right")] for increasing bins *)
Definition searchsorted_right (bins : list Qc) (x : Qc) : nat :=
  length (filter (fun b => b <= x) bins).

Definition cut (bins : list Qc) (x : option Qc) : option nat :=
  x ≫= fun v =>
    let i := searchsorted_right bins v in
    if Nat.eqb i 0 || Nat.eqb i (length bins) then None else Some (i - 1)%nat.

(** *** The result of df.apply(f, axis=1)

    pandas infers the dtype of the new column from the values returned. *)
Definition is_num (o : option pyobj) : bool :=
  match o with Some (PNum _) | None => true | _ => false end.
Definition is_time (o : option pyobj) : bool :=
  match o with Some (PTime _) | None => true | _ => false end.
Definition as_num (o : option pyobj) : option Qc :=
  match o with Some (PNum q) => Some q | _ => None end.
Definition as_time (o : option pyobj) : option Z :=
  match o with Some (PTime t) => Some t | _ => None end.

Definition infer_column (xs : list (option pyobj)) : column :=
  if forallb (fun o => bool_decide (o = None)) xs
  then (if bool_decide (xs = []) then Float64 [] else Object xs)
  else if forallb is_num xs then Float64 (as_num <$> xs)
  else if forallb is_time xs then Datetime64 (as_time <$> xs)
  else Object xs.

End pd.

(** ** The store and the methods' effects *)

Definition loc : Type := positive.

(** The objects of the program and the column assignments
    [df[name] = ...] executed so far, oldest first. *)
Record world : Type := mkWorld {
  heap : gmap loc pd.DataFrame;
  trace : list (loc * string)
}.

(** A method body runs on the dataframe [self.df] refers to: it returns a
    value or raises, leaves a dataframe, and lists the columns it
    assigned.  What was assigned before an exception stays assigned. *)
Definition Method (R : Type) : Type :=
  pd.DataFrame → outcome R * pd.DataFrame * list string.

Definition ret {R} (r : R) : Method R := fun d => (Ok r, d, []).

Definition lift {R} (m : outcome R) : Method R := fun d => (m, d, []).

Definition bind {A B} (m : Method A) (k : A → Method B) : Method B :=
  fun d =>
    let '(r, d1, w1) := m d in
    match r with
    | Ok a => let '(r2, d2, w2) := k a d1 in (r2, d2, w1 ++ w2)
    | KeyError key => (KeyError key, d1, w1)
    | TypeError => (TypeError, d1, w1)
    end.

(** [self.df] read as a value *)
Definition read : Method pd.DataFrame := fun d => (Ok d, d, []).

(** [self.df[name] = c] *)
Definition assign (name : string) (c : pd.column) : Method unit :=
  fun d => (Ok tt, pd.setitem name c d, [name]).

Notation "x ←$ m ; k" := (bind m (fun x => k))
  (at level 100, m at next level, right associativity, only parsing).
Notation "m ;$ k" := (bind m (fun _ => k))
  (at level 100, right associativity, only parsing).

(** ** PortfolioAnalyzer *)

Record PortfolioAnalyzer : Type := mkAnalyzer {
  df : loc;
  name : string;
  rating_cols : list string;
  sector_col : option string;
  issuer_col : option string;
  currency_col : option string
}.

(** [self.alias_map] *)
Definition alias_map : gmap string (list string) :=
  list_to_map
    [ ("rating", ["Rating"; "Composite Rating"; "Moody"; "S&P"; "Fitch"; "MSCI"]);
      ("sector", ["Sector"; "Issuer Sector"; "Industry"; "GICS Sector"]);
      ("issuer", ["Issuer Name"; "Issuer"; "Security Name"; "Description"; "Ticker"]);
      ("currency", ["Currency"; "Ccy"; "Base Currency"; "Trade Currency"]) ].

(** [any(alias.lower() in c.lower() for alias in aliases)] *)
Definition matches (aliases : list string) (c : string) : bool :=
  existsb (fun alias => Py.contains (Py.lower alias) (Py.lower c)) aliases.

Definition _find_cols (d : pd.DataFrame) (category : string) : list string :=
  let aliases := default [] (alias_map !! category) in
  List.filter (matches aliases) (pd.columns d).

(** [cols[0] if cols else None] *)
Definition _get_primary_col (cols : list string) : option string :=
  match cols with
  | c :: _ => Some c
  | [] => None
  end.

(** [self.df["Market Value"]].  From [__init__] on the column is float64,
    so the last case is not reached (lemma [market_value_is_float]). *)
Definition market_value (d : pd.DataFrame) : outcome (list (option Qc)) :=
  match pd.getitem "Market Value" d with
  | None => KeyError "Market Value"
  | Some (pd.Float64 xs) => Ok xs
  | Some _ => TypeError
  end.

(** [self.df.groupby(col)["Market Value"].sum()] *)
Definition groupby_sum (d : pd.DataFrame) (col : string) : outcome (list (pd.label * Qc)) :=
  match pd.getitem col d with
  | None => KeyError col
  | Some key => mv ←! market_value d; Ok (pd.group_sums key mv)
  end.

(** The percentage distribution [dist / dist.sum() * 100] of the groups of
    [col], before it is ordered. *)
Definition distribution (d : pd.DataFrame) (col : string) : outcome pd.Series :=
  dist ←! groupby_sum d col;
  Ok (pd.mkSeries (Some "Market Value") (pd.percent dist)).

(** [(self.df[col] * self.df["Market Value"]).sum() / self.df["Market Value"].sum()] *)
Definition weighted_average (d : pd.DataFrame) (col : string) : outcome pd.float64 :=
  match pd.getitem col d with
  | None => KeyError col
  | Some c =>
      mv ←! market_value d;
      prod ←! pd.mul c mv;
      mv' ←! market_value d;
      Ok (pd.fdiv (pd.Fin (pd.sum prod)) (pd.Fin (pd.sum mv')))
  end.

(** A Python dict kept in insertion order: [results[k] = v]. *)
Definition dict_set {V} (k : string) (v : V) (dict : list (string * V)) : list (string * V) :=
  if bool_decide (k ∈ dict.*1)
  then (fun p : string * V => if bool_decide (p.1 = k) then (k, v) else p) <$> dict
  else dict ++ [(k, v)].

Definition priority : list string := ["Fitch"; "Moody"; "S&P"; "MSCI"].

Fixpoint first_some {A} (l : list (option A)) : option A :=
  match l with
  | [] => None
  | Some a :: _ => Some a
  | None :: r => first_some r
  end.

(** [pick_rating(row)]: the first hit of the two nested loops. *)
Definition pick_rating (cols : list string) (row : string → option pd.pyobj) : option pd.pyobj :=
  first_some
    (p ← priority;
     col ← cols;
     [if Py.contains (Py.lower p) (Py.lower col) then row col else None]).

(** The composite rating as the specification words it: the agencies in
    priority order, each scanning its own matching columns in column order
    for a first non-missing value. *)
Definition agency_columns (agency : string) (cols : list string) : list string :=
  List.filter (fun col => Py.contains (Py.lower agency) (Py.lower col)) cols.

Definition agency_rating (agency : string) (cols : list string)
    (row : string → option pd.pyobj) : option pd.pyobj :=
  first_some (row <$> agency_columns agency cols).

Definition spec_composite (cols : list string) (row : string → option pd.pyobj)
  : option pd.pyobj :=
  first_some ((fun agency => agency_rating agency cols row) <$> priority).

Definition bins : list Qc := Q2Qc <$> [0; 3; 5; 10; 30; 100]%Q.
Definition labels : list string := ["0-3y"; "3-5y"; "5-10y"; "10-30y"; "30y+"].

(** [days / 365.0] *)
Definition years (d : option Z) : option Qc :=
  (fun n => Q2Qc (inject_Z n) / Q2Qc 365) <$> d.

Record Summary : Type := mkSummary {
  Portfolio : string;
  Total_Market_Value : Qc;
  Weighted_Yield_to_Worst : option pd.float64;
  Average_Maturity : option pd.float64
}.

Record Duration : Type := mkDuration {
  duration_Portfolio : string;
  Weighted_Duration : option pd.float64
}.

(** [s.mean()] of whole days, missing ones skipped; NaN when none is left. *)
Definition mean_days (ds : list (option Z)) : pd.float64 :=
  let present := omap id ds in
  pd.fdiv (pd.Fin (Q2Qc (inject_Z (foldr Z.add 0%Z present))))
          (pd.Fin (Q2Qc (inject_Z (Z.of_nat (length present))))).

Section Engine.

Variable numeric_of : pd.pyobj → option Qc.
Variable datetime_of : pd.pyobj → option Z.

(** The body of [__init__] on the copy [self.df], which lives at [l]: the
    analyzer, the copy as the constructor leaves it, and the columns it
    assigned. *)
Definition init_body (l : loc) (portfolio : string) (d0 : pd.DataFrame)
  : PortfolioAnalyzer * pd.DataFrame * list string :=
  let d := (fun p : string * pd.column => (Py.strip p.1, p.2)) <$> d0 in
  let self :=
    mkAnalyzer l portfolio
      (_find_cols d "rating")
      (_get_primary_col (_find_cols d "sector"))
      (_get_primary_col (_find_cols d "issuer"))
      (_get_primary_col (_find_cols d "currency")) in
  match pd.getitem "Market Value" d with
  | Some c =>
      (self, pd.setitem "Market Value" (pd.to_numeric numeric_of c) d, ["Market Value"])
  | None => (self, d, [])
  end.

Definition summary (self : PortfolioAnalyzer) (today : Z) : Method Summary :=
  d ←$ read;
  mv ←$ lift (market_value d);
  let total_mv := pd.sum mv in
  weighted_yield ←$
    (if bool_decide ("Yield to Worst" ∈ pd.columns d)
     then lift (match pd.getitem "Yield to Worst" d with
                | None => KeyError "Yield to Worst"
                | Some c =>
                    mv' ←! market_value d;
                    prod ←! pd.mul c mv';
                    Ok (Some (pd.fdiv (pd.Fin (pd.sum prod)) (pd.Fin total_mv)))
                end)
     else ret None);
  avg_maturity ←$
    (if bool_decide ("Maturity" ∈ pd.columns d)
     then lift (match pd.getitem "Maturity" d with
                | None => KeyError "Maturity"
                | Some c =>
                    let ds := pd.days today <$> pd.to_datetime datetime_of c in
                    Ok (Some (pd.fdiv (mean_days ds) (pd.Fin (Q2Qc 365))))
                end)
     else ret None);
  ret (mkSummary (name self) total_mv weighted_yield avg_maturity).

(** [self.df.apply(pick_rating, axis=1)] *)
Definition apply_pick_rating (self : PortfolioAnalyzer) (d : pd.DataFrame) : pd.column :=
  pd.infer_column
    ((fun i => pick_rating (rating_cols self) (fun col => pd.cell d col i))
       <$> seq 0 (pd.nrows d)).

Definition combined_rating (self : PortfolioAnalyzer) : Method (option string) :=
  if bool_decide (rating_cols self = []) then ret None
  else
    d ←$ read;
    assign "Composite Rating" (apply_pick_rating self d) ;$
    ret (Some "Composite Rating").

Definition credit_distribution (self : PortfolioAnalyzer) : Method pd.Series :=
  comp_col ←$ combined_rating self;
  match comp_col with
  | Some col =>
      if Py.truthy comp_col
      then d ←$ read;
           lift (dist ←! distribution d col; pd.sort_index dist)
      else ret pd.empty
  | None => ret pd.empty
  end.

Definition rating_distributions (self : PortfolioAnalyzer) : Method (list (string * pd.Series)) :=
  d ←$ read;
  lift (foldl (fun results col =>
                 acc ←! results;
                 dist ←! distribution d col;
                 sorted ←! pd.sort_index dist;
                 Ok (dict_set col sorted acc))
              (Ok []) (rating_cols self)).

Definition sector_exposure (self : PortfolioAnalyzer) : Method pd.Series :=
  match sector_col self with
  | Some col =>
      if Py.truthy (sector_col self)
      then d ←$ read;
           lift (exp ←! distribution d col; Ok (pd.sort_values_desc exp))
      else ret pd.empty
  | None => ret pd.empty
  end.

Definition krd_profile (self : PortfolioAnalyzer) : Method pd.Series :=
  d ←$ read;
  let krd_cols := List.filter (Py.contains "KRD Contribution") (pd.columns d) in
  if bool_decide (krd_cols = []) then ret pd.empty
  else
    lift (mv ←! market_value d;
          krd_weighted ←!
            pd.sequence
              ((fun c => prod ←! match pd.getitem c d with
                                 | Some col => pd.mul col mv
                                 | None => KeyError c
                                 end;
                         Ok (c, pd.sum prod)) <$> krd_cols);
          mv' ←! market_value d;
          Ok (pd.mkSeries None
                ((fun p : string * Qc =>
                    (pd.Lab (pd.PStr p.1), pd.fdiv (pd.Fin p.2) (pd.Fin (pd.sum mv'))))
                   <$> krd_weighted))).

Definition top_holdings (self : PortfolioAnalyzer) (n : Z) : Method pd.Series :=
  match issuer_col self with
  | Some col =>
      if Py.truthy (issuer_col self)
      then d ←$ read;
           lift (sums ←! groupby_sum d col;
                 Ok (pd.nlargest n
                       (pd.mkSeries (Some "Market Value")
                          ((fun p : pd.label * Qc => (p.1, pd.Fin p.2)) <$> sums))))
      else ret (pd.empty_named "No Issuer Column Found")
  | None => ret (pd.empty_named "No Issuer Column Found")
  end.

Definition duration (self : PortfolioAnalyzer) : Method Duration :=
  d ←$ read;
  let dur_col := List.find (fun c => Py.contains "duration" (Py.lower c)) (pd.columns d) in
  match dur_col with
  | Some col =>
      if Py.truthy dur_col
      then weighted_dur ←$ lift (weighted_average d col);
           ret (mkDuration (name self) (Some weighted_dur))
      else ret (mkDuration (name self) None)
  | None => ret (mkDuration (name self) None)
  end.

Definition maturity_buckets (self : PortfolioAnalyzer) (today : Z) : Method pd.Series :=
  d ←$ read;
  match pd.getitem "Maturity" d with
  | None => ret (pd.empty_named "No Maturity Column Found")
  | Some maturity =>
      let dates := pd.to_datetime datetime_of maturity in
      assign "Maturity Date" (pd.Datetime64 dates) ;$
      let ytm := (fun t => years (pd.days today t)) <$> dates in
      assign "Years to Maturity" (pd.Float64 ytm) ;$
      assign "Maturity Bucket" (pd.Categorical labels (pd.cut bins <$> ytm)) ;$
      d' ←$ read;
      lift (dist ←! distribution d' "Maturity Bucket"; pd.sort_index dist)
  end.

Definition currency_exposure (self : PortfolioAnalyzer) : Method pd.Series :=
  match currency_col self with
  | Some col =>
      if Py.truthy (currency_col self)
      then d ←$ read;
           lift (exp ←! distribution d col; Ok (pd.sort_values_desc exp))
      else ret (pd.empty_named "No Currency Column Found")
  | None => ret (pd.empty_named "No Currency Column Found")
  end.

Definition categorical_breakdowns (self : PortfolioAnalyzer) (top_n : Z)
  : Method (list (string * pd.Series)) :=
  d ←$ read;
  lift (foldl (fun results col =>
                 acc ←! results;
                 if bool_decide (col ∈ ["Issuer Name"; "Description"]) then Ok acc
                 else
                   dist ←! distribution d col;
                   Ok (dict_set col (pd.head top_n (pd.sort_values_desc dist)) acc))
              (Ok []) (pd.object_columns d)).

(** *** The calls on the store *)

(** [PortfolioAnalyzer(df, portfolio)], [df] being the object at [caller]:
    [df.copy()] allocates the engine's own dataframe.  There is no result
    when [caller] is not an object of the store. *)
Definition __init__ (w : world) (caller : loc) (portfolio : string)
  : option (PortfolioAnalyzer * world) :=
  d0 ← heap w !! caller;
  let l := fresh (dom (heap w)) in
  let '(self, d, log) := init_body l portfolio d0 in
  Some (self, mkWorld (<[l := d]> (heap w)) (trace w ++ ((fun c => (l, c)) <$> log))).

(** A method call on [self]: the body runs on the object at [self.df],
    and what it assigned goes on record. *)
Definition call {R} (self : PortfolioAnalyzer) (m : Method R) (w : world)
  : option (outcome R * world) :=
  d ← heap w !! df self;
  let '(r, d', log) := m d in
  Some (r, mkWorld (<[df self := d']> (heap w))
                   (trace w ++ ((fun c => (df self, c)) <$> log))).

(** The query methods and what they return. *)
Inductive query : Type :=
  | q_summary (today : Z)
  | q_combined_rating
  | q_credit_distribution
  | q_rating_distributions
  | q_sector_exposure
  | q_krd_profile
  | q_top_holdings (n : Z)
  | q_duration
  | q_maturity_buckets (today : Z)
  | q_currency_exposure
  | q_categorical_breakdowns (top_n : Z).

Inductive answer : Type :=
  | a_summary (s : Summary)
  | a_column (c : option string)
  | a_series (s : pd.Series)
  | a_dict (r : list (string * pd.Series))
  | a_duration (r : Duration).

Definition returning {A B} (f : A → B) (m : Method A) : Method B :=
  x ←$ m; ret (f x).

Definition exec (self : PortfolioAnalyzer) (q : query) : Method answer :=
  match q with
  | q_summary today => returning a_summary (summary self today)
  | q_combined_rating => returning a_column (combined_rating self)
  | q_credit_distribution => returning a_series (credit_distribution self)
  | q_rating_distributions => returning a_dict (rating_distributions self)
  | q_sector_exposure => returning a_series (sector_exposure self)
  | q_krd_profile => returning a_series (krd_profile self)
  | q_top_holdings n => returning a_series (top_holdings self n)
  | q_duration => returning a_duration (duration self)
  | q_maturity_buckets today => returning a_series (maturity_buckets self today)
  | q_currency_exposure => returning a_series (currency_exposure self)
  | q_categorical_breakdowns top_n => returning a_dict (categorical_breakdowns self top_n)
  end.

(** The dataframe and the assignments a sequence of queries leaves
    behind, whatever each returns or raises. *)
Fixpoint after (self : PortfolioAnalyzer) (qs : list query) (d : pd.DataFrame)
  : pd.DataFrame * list string :=
  match qs with
  | [] => (d, [])
  | q :: rest =>
      let '(_, d1, w1) := exec self q d in
      let '(d2, w2) := after self rest d1 in
      (d2, w1 ++ w2)
  end.

(** A sequence of queries on [self], one call after the other; the answers
    are dropped. *)
Fixpoint session (self : PortfolioAnalyzer) (qs : list query) (w : world)
  : option world :=
  match qs with
  | [] => Some w
  | q :: rest => '(_, w') ← call self (exec self q) w; session self rest w'
  end.

End Engine.

(** ** Quantities the properties speak of *)

(** The weights of the rows whose key is not missing: the rows [groupby]
    keeps. *)
Definition kept (key : pd.column) (weights : list (option Qc)) : list (option Qc) :=
  (filter (fun p : option pd.pyobj * option Qc => p.1 ≠ None)
          (zip (pd.values key) weights)).*2.

(** The market value of the rows that [groupby(col)] keeps. *)
Definition grouped_market_value (d : pd.DataFrame) (col : string) : Qc :=
  match pd.getitem col d, market_value d with
  | Some key, Ok mv => pd.sum (kept key mv)
  | _, _ => 0
  end.

Definition is_finite (x : pd.float64) : Prop :=
  match x with pd.Fin _ => True | _ => False end.


(** The number of groups of a key column: its distinct non-missing
    values, or all its categories. *)
Definition distinct_values (key : pd.column) : nat :=
  match key with
  | pd.Categorical cats _ => length cats
  | _ => length (remove_dups (omap id (pd.values key)))
  end.

#[global] Instance outcome_eq_dec {A} `{EqDecision A} : EqDecision (outcome A).
Proof. solve_decision. Defined.
#[global] Instance PortfolioAnalyzer_eq_dec : EqDecision PortfolioAnalyzer.
Proof. solve_decision. Defined.
#[global] Instance Duration_eq_dec : EqDecision Duration.
Proof. solve_decision. Defined.

(** ** Sample portfolios *)

(** Coercions that read no text: a number is a number, a timestamp a
    timestamp. *)
Definition plain_numeric (o : pd.pyobj) : option Qc :=
  match o with pd.PNum q => Some q | _ => None end.
Definition plain_datetime (o : pd.pyobj) : option Z :=
  match o with pd.PTime t => Some t | _ => None end.

Definition num (n : Z) (d : positive) : option Qc := Some (Q2Qc (n # d)).
Definition text (x : string) : option pd.pyobj := Some (pd.PStr x).


(** Three holdings rated by two agencies, with sector, currency, a KRD
    tenor and a maturity in whole days from the epoch. *)
Definition rated : pd.DataFrame :=
  [ ("S&P Rating", pd.Object [text "A"; text "BBB"; None]);
    ("Fitch Rating", pd.Object [text "AA"; None; None]);
    ("Sector", pd.Object [text "Tech"; None; text "Fin"]);
    ("FX Currency Code", pd.Object [text "USD"; text "EUR"; text "USD"]);
    ("Market Value", pd.Float64 [num 100 1; num 300 1; num 50 1]);
    ("Maturity", pd.Datetime64 [Some (1460 * pd.day_ns)%Z; Some (-5)%Z;
                                Some (4000 * pd.day_ns)%Z]) ].

Definition rated_self : PortfolioAnalyzer :=
  (init_body plain_numeric 1%positive "Rated" rated).1.1.
Definition rated_df : pd.DataFrame :=
  (init_body plain_numeric 1%positive "Rated" rated).1.2.

(** The sum of each distribution of a dict. *)
Definition dict_totals (r : outcome (list (string * pd.Series)))
  : outcome (list (string * pd.float64)) :=
  x ←! r; Ok ((fun p : string * pd.Series => (p.1, pd.total p.2)) <$> x).

(** The share of the group [o] of a key column: the weight of its rows in
    that of the rows whose key is present, in percent. *)
Definition share (key : pd.column) (mv : list (option Qc)) (o : pd.pyobj) : pd.float64 :=
  pd.fmul (pd.fdiv (pd.Fin (pd.sum (pd.rows_of (pd.values key) mv o)))
                   (pd.Fin (pd.sum (kept key mv))))
          (pd.Fin (Q2Qc 100)).

Definition categorical (key : pd.column) : bool :=
  match key with pd.Categorical _ _ => true | _ => false end.

(** An entry of a distribution over [col] that stands for a value present
    in the column and carries its share. *)
Definition group_of_present_key (d : pd.DataFrame) (col : string)
    (item : pd.label * pd.float64) : Prop :=
  ∃ key mv o,
    pd.getitem col d = Some key ∧ market_value d = Ok mv
    ∧ item.1 = pd.Lab o ∧ Some o ∈ pd.values key
    ∧ item.2 = share key mv o.

(** The KRD tenor columns, and the number [sum(contribution_i * mv_i)]:
    the rows in which either factor is missing add nothing. *)
Definition krd_columns (d : pd.DataFrame) : list string :=
  List.filter (Py.contains "KRD Contribution") (pd.columns d).

Fixpoint weighted_sum (xs mv : list (option Qc)) : Qc :=
  match xs, mv with
  | Some x :: xs', Some m :: mv' => x * m + weighted_sum xs' mv'
  | _ :: xs', _ :: mv' => weighted_sum xs' mv'
  | _, _ => 0
  end.

(** The weighted contribution of tenor column [c], as the specification
    gives it. *)
Definition weighted_krd (d : pd.DataFrame) (mv : list (option Qc)) (c : string)
  : pd.label * pd.float64 :=
  (pd.Lab (pd.PStr c),
   match pd.getitem c d with
   | Some (pd.Float64 xs) => pd.fdiv (pd.Fin (weighted_sum xs mv)) (pd.Fin (pd.sum mv))
   | _ => pd.NaN
   end).

(** Two holdings with 2Y contributions 0.10 and 0.20 and market values
    100 and 300. *)
Definition two_tenors : pd.DataFrame :=
  [ ("Market Value", pd.Float64 [num 100 1; num 300 1]);
    ("KRD Contribution 2Y", pd.Float64 [num 10 100; num 20 100]) ].
Definition two_tenors_self : PortfolioAnalyzer :=
  (init_body plain_numeric 1%positive "KRD" two_tenors).1.1.
Definition two_tenors_df : pd.DataFrame :=
  (init_body plain_numeric 1%positive "KRD" two_tenors).1.2.

(** A 4-year holding of market value 100 and a 100-year holding of market
    value 300, the evaluation date being the epoch. *)
Definition century : pd.DataFrame :=
  [ ("Maturity", pd.Datetime64 [Some (1460 * pd.day_ns)%Z; Some (36500 * pd.day_ns)%Z]);
    ("Market Value", pd.Float64 [num 100 1; num 300 1]) ].
Definition century_self : PortfolioAnalyzer :=
  (init_body plain_numeric 1%positive "Century" century).1.1.
Definition century_df : pd.DataFrame :=
  (init_body plain_numeric 1%positive "Century" century).1.2.

(** A store in which the caller holds the sample portfolio at location 1. *)
Definition rated_world : world := mkWorld {[ 1%positive := rated ]} [].

(** The assignments on record after two calls of [credit_distribution] on
    a fresh analyzer of the sample portfolio. *)
Definition two_credit_calls : option (list (loc * string)) :=
  '(self, w1) ← __init__ plain_numeric rated_world 1%positive "Rated";
  '(_, w2) ← call self (credit_distribution self) w1;
  '(_, w3) ← call self (credit_distribution self) w2;
  Some (trace w3).

(** The columns the query methods assign. *)
Definition derived_columns : list string :=
  ["Composite Rating"; "Maturity Date"; "Years to Maturity"; "Maturity Bucket"].

(** A method body that leaves [self.df] as it found it. *)
Definition read_only {R} (m : Method R) : Prop :=
  ∀ d, (m d).1.2 = d ∧ (m d).2 = [].

(** A method body that assigns columns of [cols] only: every other column
    is left as it was and no column is removed. *)
Definition assigns_within {R} (cols : list string) (m : Method R) : Prop :=
  ∀ d, (∀ c, c ∉ cols → pd.getitem c (m d).1.2 = pd.getitem c d)
       ∧ (∀ c, c ∈ (m d).2 → c ∈ cols)
       ∧ (∀ c, c ∈ pd.columns d → c ∈ pd.columns (m d).1.2).

(** The columns an analyzer resolved are columns of the dataframe. *)
Definition resolved (self : PortfolioAnalyzer) (d : pd.DataFrame) : Prop :=
  (∀ c, c ∈ rating_cols self → c ∈ pd.columns d)
  ∧ (∀ c, sector_col self = Some c → c ∈ pd.columns d)
  ∧ (∀ c, issuer_col self = Some c → c ∈ pd.columns d)
  ∧ (∀ c, currency_col self = Some c → c ∈ pd.columns d).

(** An outcome that raises no [KeyError] but for a "Market Value" column
    the dataframe does not have. *)
Definition only_market_value {A} (d : pd.DataFrame) (m : outcome A) : Prop :=
  ∀ key, m = KeyError key →
         key = "Market Value" ∧ "Market Value" ∉ pd.columns d.


(** The bucket codes [maturity_buckets] derives from a maturity column,
    and the weights of the rows that get a bucket. *)
Definition bucket_codes (datetime_of : pd.pyobj → option Z) (today : Z)
    (maturity : pd.column) : list (option nat) :=
  (fun t => pd.cut bins (years (pd.days today t))) <$> pd.to_datetime datetime_of maturity.

Definition bucketed (codes : list (option nat)) (weights : list (option Qc))
  : list (option Qc) :=
  (filter (fun p : option nat * option Qc => p.1 ≠ None) (zip codes weights)).*2.

(** Four holdings of three issuers, with a duration and a yield. *)
Definition holdings : pd.DataFrame :=
  [ ("Issuer Name", pd.Object [text "Acme"; text "Bolt"; text "Acme"; text "Core"]);
    ("Currency", pd.Object [text "USD"; text "EUR"; text "USD"; text "USD"]);
    ("Modified Duration", pd.Float64 [num 2 1; num 4 1; num 6 1; num 8 1]);
    ("Yield to Worst", pd.Float64 [num 3 100; num 5 100; num 4 100; num 6 100]);
    ("Market Value", pd.Float64 [num 100 1; num 300 1; num 50 1; num 50 1]) ].
Definition holdings_self : PortfolioAnalyzer :=
  (init_body plain_numeric 1%positive "Holdings" holdings).1.1.
Definition holdings_df : pd.DataFrame :=
  (init_body plain_numeric 1%positive "Holdings" holdings).1.2.

(** A value that is a percentage: a number from 0 to 100. *)
Definition is_percentage (x : pd.float64) : Prop :=
  ∃ p, x = pd.Fin p ∧ 0 <= p ∧ p <= Q2Qc 100.

(** [xs.fillna(0)] *)
Definition fillna0 (xs : list (option Qc)) : list (option Qc) :=
  (fun x => Some (default 0 x)) <$> xs.

(** Two holdings of equal market value, the duration of the second one
    missing. *)
Definition gaps : pd.DataFrame :=
  [ ("Duration", pd.Float64 [num 4 1; None]);
    ("Market Value", pd.Float64 [num 100 1; num 100 1]) ].
Definition gaps_self : PortfolioAnalyzer :=
  (init_body plain_numeric 1%positive "Gaps" gaps).1.1.
Definition gaps_df : pd.DataFrame :=
  (init_body plain_numeric 1%positive "Gaps" gaps).1.2.


(** The bucket of a holding by its whole days to maturity, a year being
    365 days. *)
Definition bucket_of_days (n : Z) : option nat :=
  if decide (n < 0)%Z then None
  else if decide (n < 1095)%Z then Some 0%nat
  else if decide (n < 1825)%Z then Some 1%nat
  else if decide (n < 3650)%Z then Some 2%nat
  else if decide (n < 10950)%Z then Some 3%nat
  else if decide (n < 36500)%Z then Some 4%nat
  else None.

(** Two holdings rated in a column that names no agency. *)
Definition generic : pd.DataFrame :=
  [ ("Rating", pd.Object [text "A"; text "BBB"]);
    ("Market Value", pd.Float64 [num 100 1; num 300 1]) ].
Definition generic_self : PortfolioAnalyzer :=
  (init_body plain_numeric 1%positive "Generic" generic).1.1.
Definition generic_df : pd.DataFrame :=
  (init_body plain_numeric 1%positive "Generic" generic).1.2.

(** ** The loader's column labels (src/src/portfolioHoldingDataCleaning.py)

    [PortfolioLoader.load_and_clean] strips the labels of the sheet and
    renames the tenor columns ("6M", "2Y", ...) before it converts the
    cells.  The labels are taken to be strings; reading the sheet and
    converting the cells are not part of the embedding. *)

Module Loader.

(** [\d] on the ASCII range *)
Definition isdigit (c : ascii) : bool :=
  Nat.leb 48 (Py.code c) && Nat.leb (Py.code c) 57.

(** What may follow the first digit of [^\d+[MY]$]: more digits, then [M]
    or [Y] at the end of the string or before a line feed that ends it. *)
Fixpoint tenor_tail (s : string) : bool :=
  match s with
  | EmptyString => false
  | String c r =>
      if isdigit c then tenor_tail r
      else (bool_decide (c = "M"%char) || bool_decide (c = "Y"%char))
           && (bool_decide (r = EmptyString)
               || bool_decide (r = String "010"%char EmptyString))
  end.

(** [re.match(r"^\d+[MY]$", s)] as a truth value *)
Definition re_match (s : string) : bool :=
  match s with
  | EmptyString => false
  | String c r => isdigit c && tenor_tail r
  end.

(** [krd_cols] of [load_and_clean], the labels being stripped already *)
Definition krd_cols (d : pd.DataFrame) : list string :=
  List.filter (fun c => re_match (Py.strip c)) (pd.columns d).

Definition rename_map (d : pd.DataFrame) : gmap string string :=
  list_to_map ((fun c => (c, "KRD Contribution " +:+ c)) <$> krd_cols d).

(** [df.rename(columns=rename_map)] *)
Definition rename (m : gmap string string) (d : pd.DataFrame) : pd.DataFrame :=
  (fun p : string * pd.column => (default p.1 (m !! p.1), p.2)) <$> d.

(** The dataframe after the labels are stripped and the tenor columns
    renamed. *)
Definition clean_labels (d0 : pd.DataFrame) : pd.DataFrame :=
  let d := (fun p : string * pd.column => (Py.strip p.1, p.2)) <$> d0 in
  rename (rename_map d) d.

End Loader.

(** A sheet with two tenor columns. *)
Definition sheet : pd.DataFrame :=
  [ ("CUSIP ", pd.Object [text "A1"; text "B2"]);
    (" 6M", pd.Float64 [num 1 100; num 2 100]);
    ("2Y", pd.Float64 [num 10 100; num 20 100]);
    ("Market Value", pd.Float64 [num 100 1; num 300 1]) ].


(** The columns [maturity_buckets] assigns. *)
Definition maturity_columns : list string :=
  ["Maturity Date"; "Years to Maturity"; "Maturity Bucket"].

(** A dataframe [d'] in which the queries read what they read in [d]:
    the columns other than the maturity columns, the KRD columns, the
    duration column, the text columns and the number of rows. *)
Definition same_reading (d d' : pd.DataFrame) : Prop :=
  (∀ n, n ∉ maturity_columns → pd.getitem n d' = pd.getitem n d)
  ∧ krd_columns d' = krd_columns d
  ∧ List.find (fun c => Py.contains "duration" (Py.lower c)) (pd.columns d')
    = List.find (fun c => Py.contains "duration" (Py.lower c)) (pd.columns d)
  ∧ pd.object_columns d' = pd.object_columns d
  ∧ pd.nrows d' = pd.nrows d.

(** A method body whose result does not depend on the dataframe it runs
    on. *)
Definition constant_result {R} (m : Method R) : Prop :=
  ∀ d d', (m d).1.1 = (m d').1.1.

(** ** The export's file names (src/src/exportAnalysis.py)

    [export_analysis_results] writes the composite credit distribution to
    one file and the distribution of each rating column to a file named
    after the column.  The names are embedded, not the writing. *)

Module exportAnalysis.

(** [s.replace(' ', '_')] *)
Fixpoint replace_spaces (s : string) : string :=
  match s with
  | EmptyString => EmptyString
  | String c r =>
      String (if bool_decide (c = " "%char) then "_"%char else c) (replace_spaces r)
  end.

(** ["{}_credit_distribution.csv".format(output_prefix)] *)
Definition credit_distribution_file (output_prefix : string) : string :=
  output_prefix +:+ "_credit_distribution.csv".

(** ["{}_{}_distribution.csv".format(output_prefix, col.replace(' ', '_'))] *)
Definition distribution_file (output_prefix col : string) : string :=
  output_prefix +:+ "_" +:+ replace_spaces col +:+ "_distribution.csv".

End exportAnalysis.

(** The whole days to maturity of the holdings that have a maturity
    date. *)
Definition days_to_maturity (datetime_of : pd.pyobj → option Z) (today : Z)
    (maturity : pd.column) : list Z :=
  omap id (pd.days today <$> pd.to_datetime datetime_of maturity).

#[global] Instance Summary_eq_dec : EqDecision Summary.
Proof. solve_decision. Defined.

(** * Properties *)

(** A closed, decidable statement, by evaluation. *)
Ltac by_compute := apply (bool_decide_eq_true_1 _); vm_compute; reflexivity.

(** ** Strings *)

Lemma startswith_spec (p s : string) :
  Py.startswith p s = true ↔ ∃ post, s = p +:+ post.
Proof.
  revert s. induction p as [|a p IH]; intros s; simpl.
  - split; [intros _; by exists s | done].
  - destruct s as [|b s].
    + split; [done | intros [post H]; discriminate].
    + rewrite andb_true_iff, bool_decide_eq_true, IH. split.
      * intros [-> [post ->]]. by exists post.
      * intros [post H]. injection H as -> ->. split; [done | by exists post].
Qed.

Lemma contains_spec (needle hay : string) :
  Py.contains needle hay = true ↔ ∃ pre post, hay = pre +:+ needle +:+ post.
Proof.
  induction hay as [|b hay IH]; simpl; rewrite orb_true_iff, startswith_spec.
  - split.
    + intros [[post H] | H]; [| done]. by exists EmptyString, post.
    + intros [pre [post H]]. left.
      destruct pre; simpl in H; [by exists post | discriminate].
  - rewrite IH. split.
    + intros [[post H] | [pre [post H]]].
      * by exists EmptyString, post.
      * exists (String b pre), post. simpl. by rewrite H.
    + intros [pre [post H]]. destruct pre as [|a pre]; simpl in H.
      * left. by exists post.
      * right. injection H as -> ->. by exists pre, post.
Qed.

Lemma matches_spec (aliases : list string) (c : string) :
  matches aliases c = true ↔
  ∃ alias, alias ∈ aliases ∧
    ∃ pre post, Py.lower c = pre +:+ Py.lower alias +:+ post.
Proof.
  unfold matches. rewrite existsb_exists. split.
  - intros [alias [Hin H]]. exists alias. split; [by apply list_elem_of_In |].
    by apply contains_spec.
  - intros [alias [Hin H]]. exists alias. split; [by apply list_elem_of_In |].
    by apply contains_spec.
Qed.

Lemma filter_sublist {A} (f : A → bool) (l : list A) : sublist (List.filter f l) l.
Proof.
  induction l as [|x l IH]; simpl; [constructor |].
  destruct (f x); by constructor.
Qed.

(** ** Column resolution *)

(** C9.  [_find_cols] is a total function of the column labels: it keeps,
    in the dataframe's column order, exactly the columns whose lower-cased
    label contains a lower-cased alias of the category (so two labels that
    differ in case only resolve alike), and none for a category it does not
    know; the primary column is the first of them, absent when there is
    none.  "S&P Rating" resolves as a rating column and "FX Currency Code"
    as a currency column. *)
Theorem column_resolution (d : pd.DataFrame) (category : string) :
  sublist (_find_cols d category) (pd.columns d)
  ∧ (∀ c, c ∈ _find_cols d category ↔
          c ∈ pd.columns d
          ∧ ∃ alias, alias ∈ default [] (alias_map !! category)
              ∧ ∃ pre post, Py.lower c = pre +:+ Py.lower alias +:+ post)
  ∧ (∀ c c', Py.lower c = Py.lower c' →
       matches (default [] (alias_map !! category)) c
       = matches (default [] (alias_map !! category)) c')
  ∧ (alias_map !! category = None → _find_cols d category = [])
  ∧ _get_primary_col (_find_cols d category) = _find_cols d category !! 0%nat
  ∧ (∀ d', pd.columns d' = pd.columns d → _find_cols d' category = _find_cols d category)
  ∧ (∀ col, _find_cols [("S&P Rating", col)] "rating" = ["S&P Rating"])
  ∧ (∀ col, _find_cols [("s&p RATING", col)] "rating" = ["s&p RATING"])
  ∧ (∀ col, _get_primary_col (_find_cols [("FX Currency Code", col)] "currency")
            = Some "FX Currency Code").
Proof.
  split; [apply filter_sublist |].
  split.
  { intros c. unfold _find_cols.
    rewrite list_elem_of_In, filter_In, <- list_elem_of_In, matches_spec. tauto. }
  split; [intros c c' H; unfold matches; by rewrite H |].
  split.
  { intros H. unfold _find_cols. rewrite H. simpl.
    induction (pd.columns d) as [|c cols IH]; [done | exact IH]. }
  split; [by destruct (_find_cols d category) |].
  split; [intros d' H; unfold _find_cols; by rewrite H |].
  repeat split; intros col; by vm_compute.
Qed.

(** C9 (witness): the sample portfolio, whose labels the constructor
    stripped; a category without aliases resolves to nothing. *)
Lemma column_resolution_witness :
  alias_map !! "tenor" = None
  ∧ _find_cols rated_df "tenor" = []
  ∧ ("Fitch Rating" ∈ _find_cols rated_df "rating" ↔
       "Fitch Rating" ∈ pd.columns rated_df
       ∧ ∃ alias, alias ∈ default [] (alias_map !! "rating")
           ∧ ∃ pre post, Py.lower "Fitch Rating" = pre +:+ Py.lower alias +:+ post).
Proof.
  assert (alias_map !! "tenor" = None) as Hnone by by_compute.
  destruct (column_resolution rated_df "tenor") as (_ & _ & _ & Hunknown & _).
  destruct (column_resolution rated_df "rating") as (_ & Hin & _).
  split; [done |]. split; [by apply Hunknown | apply Hin].
Defined.

(** ** Dataframes *)

Lemma getitem_Some_elem (n : string) (d : pd.DataFrame) (c : pd.column) :
  pd.getitem n d = Some c → n ∈ pd.columns d.
Proof.
  unfold pd.getitem, pd.columns. induction d as [|[m c0] d IH]; simpl; [done |].
  case_bool_decide as E; simpl in *.
  - intros _. subst. apply list_elem_of_here.
  - intros H. apply list_elem_of_further. by apply IH.
Qed.

Lemma getitem_None_elem (n : string) (d : pd.DataFrame) :
  pd.getitem n d = None ↔ n ∉ pd.columns d.
Proof.
  unfold pd.getitem, pd.columns. induction d as [|[m c0] d IH]; simpl.
  - split; [intros _; apply not_elem_of_nil | done].
  - case_bool_decide as E; simpl in *.
    + subst. split; [done | intros H; destruct H; apply list_elem_of_here].
    + rewrite IH, not_elem_of_cons. split; [intros H; split; [congruence | done] | by intros [_ H]].
Qed.

Lemma getitem_map_ne (n m : string) (c : pd.column) (d : pd.DataFrame) :
  n ≠ m →
  pd.getitem n ((fun p : string * pd.column =>
                   if bool_decide (p.1 = m) then (p.1, c) else p) <$> d)
  = pd.getitem n d.
Proof.
  intros Hne. unfold pd.getitem. induction d as [|[k c0] d IH]; simpl; [done |].
  destruct (decide (k = m)) as [-> | Hkm].
  - rewrite (bool_decide_eq_true_2 (m = m)) by done. simpl.
    rewrite !(bool_decide_eq_false_2 (m = n)) by congruence. apply IH.
  - rewrite (bool_decide_eq_false_2 (k = m)) by done. simpl.
    destruct (bool_decide (k = n)); simpl; [done | apply IH].
Qed.

Lemma getitem_app_ne (n m : string) (c : pd.column) (d : pd.DataFrame) :
  n ≠ m → pd.getitem n (d ++ [(m, c)]) = pd.getitem n d.
Proof.
  intros Hne. unfold pd.getitem. induction d as [|[k c0] d IH]; simpl.
  - by rewrite bool_decide_eq_false_2 by congruence.
  - destruct (bool_decide (k = n)); simpl; [done | apply IH].
Qed.

Lemma getitem_setitem_ne (n m : string) (c : pd.column) (d : pd.DataFrame) :
  n ≠ m → pd.getitem n (pd.setitem m c d) = pd.getitem n d.
Proof.
  intros Hne. unfold pd.setitem. case_bool_decide.
  - by apply getitem_map_ne.
  - by apply getitem_app_ne.
Qed.

Lemma getitem_setitem_eq (n : string) (c : pd.column) (d : pd.DataFrame) :
  pd.getitem n (pd.setitem n c d) = Some c.
Proof.
  unfold pd.setitem. case_bool_decide as E.
  - unfold pd.getitem, pd.columns in *.
    induction d as [|[k c0] d IH]; simpl in *; [by apply elem_of_nil in E |].
    destruct (decide (k = n)) as [-> | Hkn].
    + rewrite (bool_decide_eq_true_2 (n = n)) by done. simpl.
      by rewrite (bool_decide_eq_true_2 (n = n)) by done.
    + rewrite (bool_decide_eq_false_2 (k = n)) by done. simpl.
      rewrite (bool_decide_eq_false_2 (k = n)) by done. apply IH.
      apply elem_of_cons in E as [E | E]; [congruence | done].
  - apply getitem_None_elem in E. unfold pd.getitem in *.
    induction d as [|[k c0] d IH]; simpl in *.
    + by rewrite (bool_decide_eq_true_2 (n = n)) by done.
    + destruct (bool_decide (k = n)); simpl in *; [done | by apply IH].
Qed.

Lemma columns_setitem (n : string) (c : pd.column) (d : pd.DataFrame) :
  pd.columns (pd.setitem n c d)
  = if bool_decide (n ∈ pd.columns d) then pd.columns d else pd.columns d ++ [n].
Proof.
  unfold pd.setitem, pd.columns. case_bool_decide as E.
  - clear E. induction d as [|[k c0] d IH]; simpl; [done |].
    f_equal; [by case_bool_decide | apply IH].
  - by rewrite fmap_app.
Qed.

Lemma elem_columns_setitem (n m : string) (c : pd.column) (d : pd.DataFrame) :
  m ∈ pd.columns (pd.setitem n c d) ↔ m = n ∨ m ∈ pd.columns d.
Proof.
  rewrite columns_setitem. case_bool_decide as E.
  - split; [by right | intros [-> | H]; done].
  - rewrite elem_of_app, list_elem_of_singleton. tauto.
Qed.

Lemma cell_setitem_ne (n m : string) (c : pd.column) (d : pd.DataFrame) (i : nat) :
  n ≠ m → pd.cell (pd.setitem m c d) n i = pd.cell d n i.
Proof. intros H. unfold pd.cell. by rewrite getitem_setitem_ne. Qed.

Lemma values_infer_column (xs : list (option pd.pyobj)) :
  pd.values (pd.infer_column xs) = xs.
Proof.
  unfold pd.infer_column.
  destruct (forallb (fun o => bool_decide (o = None)) xs).
  { case_bool_decide; [by subst | done]. }
  destruct (forallb pd.is_num xs) eqn:E1.
  { simpl. induction xs as [|[[]|] xs IH]; simpl in *; try done;
      f_equal; by apply IH. }
  destruct (forallb pd.is_time xs) eqn:E2; [| done].
  simpl. clear E1. induction xs as [|[[]|] xs IH]; simpl in *; try done;
    f_equal; by apply IH.
Qed.

(** ** The composite rating *)

Lemma first_some_app {A} (l1 l2 : list (option A)) :
  first_some (l1 ++ l2)
  = match first_some l1 with Some a => Some a | None => first_some l2 end.
Proof. induction l1 as [|[a|] l1 IH]; simpl; done. Qed.

Lemma first_some_None {A} (l : list (option A)) :
  first_some l = None ↔ ∀ x, x ∈ l → x = None.
Proof.
  induction l as [|[a|] l IH]; simpl.
  - split; [intros _ x H; by apply elem_of_nil in H | done].
  - split; [done | intros H; by specialize (H (Some a) (list_elem_of_here _ _))].
  - rewrite IH. split.
    + intros H x Hx. apply elem_of_cons in Hx as [-> | Hx]; [done | by apply H].
    + intros H x Hx. apply H. by apply list_elem_of_further.
Qed.

Lemma first_some_Some {A} (l : list (option A)) (a : A) :
  first_some l = Some a ↔
  ∃ k, l !! k = Some (Some a) ∧ ∀ j, (j < k)%nat → l !! j = Some None.
Proof.
  induction l as [|[b|] l IH]; simpl.
  - split; [done | intros [k [H _]]; by rewrite lookup_nil in H].
  - split.
    + intros [= ->]. exists 0%nat. split; [done | intros j Hj; lia].
    + intros [[|k] [H Hlt]]; simpl in H; [congruence |].
      specialize (Hlt 0%nat ltac:(lia)). simpl in Hlt. congruence.
  - rewrite IH. split.
    + intros [k [H Hlt]]. exists (S k). split; [done |].
      intros [|j] Hj; simpl; [done | apply Hlt; lia].
    + intros [[|k] [H Hlt]]; simpl in H; [congruence |].
      exists k. split; [done |]. intros j Hj. apply (Hlt (S j)). lia.
Qed.

Lemma agency_scan (agency : string) (cols : list string)
    (row : string → option pd.pyobj) :
  first_some
    (col ← cols;
     [if Py.contains (Py.lower agency) (Py.lower col) then row col else None])
  = agency_rating agency cols row.
Proof.
  unfold agency_rating, agency_columns.
  induction cols as [|col cols IH]; simpl; [done |].
  destruct (Py.contains _ _); simpl; [destruct (row col); [done | apply IH] | apply IH].
Qed.

Lemma pick_rating_spec (cols : list string) (row : string → option pd.pyobj) :
  pick_rating cols row = spec_composite cols row.
Proof.
  unfold pick_rating, spec_composite.
  induction priority as [|p ps IH]; [done |].
  rewrite fmap_cons, bind_cons, first_some_app, agency_scan, IH.
  simpl. by destruct (agency_rating p cols row).
Qed.

Lemma first_some_fmap_Some {A B} (f : A → option B) (l : list A) (b : B) :
  first_some (f <$> l) = Some b ↔
  ∃ k a, l !! k = Some a ∧ f a = Some b
         ∧ ∀ j a', (j < k)%nat → l !! j = Some a' → f a' = None.
Proof.
  rewrite first_some_Some. split.
  - intros [k [H Hlt]]. rewrite list_lookup_fmap in H.
    destruct (l !! k) as [a|] eqn:E; [| done]. simpl in H.
    exists k, a. split; [done |]. split; [congruence |].
    intros j a' Hj Ha'. specialize (Hlt j Hj).
    rewrite list_lookup_fmap, Ha' in Hlt. simpl in Hlt. congruence.
  - intros [k [a [H [Hf Hlt]]]]. exists k. split.
    + rewrite list_lookup_fmap, H. simpl. by rewrite Hf.
    + intros j Hj. rewrite list_lookup_fmap.
      destruct (l !! j) as [a'|] eqn:E; simpl.
      * by rewrite (Hlt j a' Hj E).
      * apply lookup_ge_None in E. apply lookup_lt_Some in H. lia.
Qed.

Lemma combined_rating_eq (self : PortfolioAnalyzer) (d : pd.DataFrame) :
  rating_cols self ≠ [] →
  combined_rating self d
  = (Ok (Some "Composite Rating"),
     pd.setitem "Composite Rating" (apply_pick_rating self d) d,
     ["Composite Rating"]).
Proof.
  intros H. unfold combined_rating. by rewrite bool_decide_eq_false_2 by done.
Qed.

Lemma combined_rating_none (self : PortfolioAnalyzer) (d : pd.DataFrame) :
  rating_cols self = [] → combined_rating self d = (Ok None, d, []).
Proof.
  intros H. unfold combined_rating. by rewrite bool_decide_eq_true_2 by done.
Qed.

(** C3.  [combined_rating] stores, for every row, the value the two nested
    loops of [pick_rating] reach first: the agencies Fitch, Moody, S&P,
    MSCI in that order, each over its matching rating columns in column
    order; a row in which no agency's column holds a value gets a missing
    composite; with Moody absent, S&P "A" and Fitch "AA" the composite is
    "AA" in every column order. *)
Theorem composite_rating_priority (self : PortfolioAnalyzer) (d : pd.DataFrame)
    (Hcols : rating_cols self ≠ []) :
  let row i := fun col => pd.cell d col i in
  (combined_rating self d).1.1 = Ok (Some "Composite Rating")
  ∧ pd.values <$> pd.getitem "Composite Rating" (combined_rating self d).1.2
    = Some ((fun i => spec_composite (rating_cols self) (row i)) <$> seq 0 (pd.nrows d))
  ∧ (∀ i v, spec_composite (rating_cols self) (row i) = Some v ↔
       ∃ k agency, priority !! k = Some agency
         ∧ agency_rating agency (rating_cols self) (row i) = Some v
         ∧ ∀ j a, (j < k)%nat → priority !! j = Some a →
                  agency_rating a (rating_cols self) (row i) = None)
  ∧ (∀ i agency v, agency_rating agency (rating_cols self) (row i) = Some v ↔
       ∃ k col, agency_columns agency (rating_cols self) !! k = Some col
         ∧ row i col = Some v
         ∧ ∀ j c, (j < k)%nat → agency_columns agency (rating_cols self) !! j = Some c →
                  row i c = None)
  ∧ (∀ i, spec_composite (rating_cols self) (row i) = None ↔
       ∀ agency col, agency ∈ priority → col ∈ rating_cols self →
         Py.contains (Py.lower agency) (Py.lower col) = true → row i col = None)
  ∧ (∀ cols r, cols ≡ₚ ["Moody's Rating"; "S&P Rating"; "Fitch Rating"] →
       r "Moody's Rating" = None →
       r "S&P Rating" = Some (pd.PStr "A") →
       r "Fitch Rating" = Some (pd.PStr "AA") →
       pick_rating cols r = Some (pd.PStr "AA")).
Proof.
  intros row. rewrite (combined_rating_eq self d Hcols).
  split; [done |]. split.
  { simpl. rewrite getitem_setitem_eq. simpl. unfold apply_pick_rating.
    rewrite values_infer_column.
    f_equal. apply list_fmap_ext. intros _ i _. apply pick_rating_spec. }
  split; [intros i v; apply first_some_fmap_Some |].
  split; [intros i agency v; apply first_some_fmap_Some |].
  split.
  { intros i. unfold spec_composite. rewrite first_some_None. split.
    - intros H agency col Ha Hc Hm.
      assert (agency_rating agency (rating_cols self) (row i) = None) as Hn.
      { apply H. by apply (list_elem_of_fmap_2 (fun a => agency_rating a _ _)). }
      unfold agency_rating in Hn. rewrite first_some_None in Hn.
      apply Hn. apply list_elem_of_fmap_2. unfold agency_columns.
      apply list_elem_of_In, filter_In. split; [by apply list_elem_of_In | done].
    - intros H x Hx. apply list_elem_of_fmap in Hx as [agency [-> Ha]].
      unfold agency_rating. apply first_some_None. intros y Hy.
      apply list_elem_of_fmap in Hy as [col [-> Hc]].
      unfold agency_columns in Hc. apply list_elem_of_In, filter_In in Hc as [Hc Hm].
      apply (H agency col); [done | by apply list_elem_of_In | done]. }
  intros cols r Hp Hm Hs Hf.
  symmetry in Hp. apply permutations_Permutation in Hp. vm_compute in Hp.
  repeat (apply elem_of_cons in Hp as [-> | Hp]);
    [ .. | by apply elem_of_nil in Hp];
    vm_compute; vm_compute in Hm, Hs, Hf; rewrite ?Hm, ?Hs, ?Hf; done.
Qed.

(** C3 (witness): the sample portfolio; its rows get "AA" (Fitch before
    S&P, whatever the column order), "BBB" and no rating. *)
Lemma composite_rating_priority_witness :
  rating_cols rated_self = ["S&P Rating"; "Fitch Rating"]
  ∧ (combined_rating rated_self rated_df).1.1 = Ok (Some "Composite Rating")
  ∧ pd.values <$> pd.getitem "Composite Rating" (combined_rating rated_self rated_df).1.2
    = Some [text "AA"; text "BBB"; None].
Proof.
  split; [by_compute |].
  destruct (composite_rating_priority rated_self rated_df ltac:(by_compute))
    as (H1 & H2 & _).
  split; [exact H1 |]. rewrite H2. by_compute.
Defined.

(** ** Rational arithmetic *)

Ltac qc_order :=
  unfold Qcle, Qclt in *; simpl in *;
  repeat match goal with
         | H : context [Qred ?c] |- _ =>
             let v := eval vm_compute in (Qred c) in change (Qred c) with v in H
         | |- context [Qred ?c] =>
             let v := eval vm_compute in (Qred c) in change (Qred c) with v
         end;
  lra.

Lemma cut_boundaries (y : Qc) :
  (y < 0 → pd.cut bins (Some y) = None)
  ∧ (0 <= y → y < Q2Qc 3 → pd.cut bins (Some y) = Some 0%nat)
  ∧ (Q2Qc 3 <= y → y < Q2Qc 5 → pd.cut bins (Some y) = Some 1%nat)
  ∧ (Q2Qc 5 <= y → y < Q2Qc 10 → pd.cut bins (Some y) = Some 2%nat)
  ∧ (Q2Qc 10 <= y → y < Q2Qc 30 → pd.cut bins (Some y) = Some 3%nat)
  ∧ (Q2Qc 30 <= y → y < Q2Qc 100 → pd.cut bins (Some y) = Some 4%nat)
  ∧ (Q2Qc 100 <= y → pd.cut bins (Some y) = None).
Proof.
  unfold pd.cut, pd.searchsorted_right, bins. simpl.
  rewrite !filter_cons, filter_nil.
  repeat split; intros;
    repeat case_decide; simpl; try done; exfalso; qc_order.
Qed.

Lemma qsum_perm (l l' : list Qc) :
  l ≡ₚ l' → foldr Qcplus 0 l = foldr Qcplus 0 l'.
Proof.
  induction 1 as [|x l l' _ IH|x y l|l l' l'' _ IH1 _ IH2]; simpl.
  - done.
  - by rewrite IH.
  - ring.
  - by rewrite IH1.
Qed.

(** ** Percentages *)








Lemma sort_by_perm {A} (leb : A → A → bool) (l : list A) : pd.sort_by leb l ≡ₚ l.
Proof. apply merge_sort_Permutation. Qed.

(** ** Groups *)

Lemma indicator_sum {K} `{EqDecision K} (us : list K) (k1 : K) (x : Qc) :
  NoDup us →
  foldr Qcplus 0 ((fun k => if decide (Some k1 = Some k) then x else 0) <$> us)
  = if decide (k1 ∈ us) then x else 0.
Proof.
  induction 1 as [|k us Hk Hnd IH]; csimpl.
  - done.
  - rewrite IH. destruct (decide (k1 = k)) as [-> | Hne].
    + rewrite decide_True by done. rewrite decide_False by done.
      rewrite decide_True by apply list_elem_of_here. ring.
    + rewrite (decide_False (P := Some k1 = Some k)) by congruence.
      destruct (decide (k1 ∈ us)) as [Hin | Hin].
      * rewrite decide_True by (by apply list_elem_of_further). ring.
      * rewrite decide_False; [ring |].
        rewrite not_elem_of_cons. done.
Qed.

Lemma qsum_zero {A} (f : A → Qc) (l : list A) :
  (∀ a, f a = 0) → foldr Qcplus 0 (f <$> l) = 0.
Proof.
  intros H. induction l as [|a l IH]; csimpl; [done |]. rewrite H, IH. ring.
Qed.

Lemma group_rows_sum {K} `{EqDecision K} (us : list K)
    (L : list (option K * option Qc)) :
  NoDup us →
  foldr Qcplus 0
    ((fun k => pd.sum (filter (fun p : option K * option Qc => p.1 = Some k) L).*2) <$> us)
  = pd.sum (filter (fun p : option K * option Qc => p.1 ∈ Some <$> us) L).*2.
Proof.
  intros Hnd. induction L as [|[k0 w0] L IH].
  - rewrite filter_nil. by apply qsum_zero.
  - rewrite filter_cons. simpl.
    transitivity
      (foldr Qcplus 0
         ((fun k => (if decide (k0 = Some k) then default 0 w0 else 0)
                    + pd.sum (filter (fun p : option K * option Qc => p.1 = Some k) L).*2)
            <$> us)).
    { f_equal. apply list_fmap_ext. intros _ k _. rewrite filter_cons. simpl.
      destruct (decide (k0 = Some k)); csimpl; unfold pd.sum; simpl; ring. }
    transitivity
      (foldr Qcplus 0 ((fun k => if decide (k0 = Some k) then default 0 w0 else 0) <$> us)
       + foldr Qcplus 0
           ((fun k => pd.sum (filter (fun p : option K * option Qc => p.1 = Some k) L).*2)
              <$> us)).
    { clear. induction us as [|k us IHus]; csimpl; [ring | rewrite IHus; ring]. }
    rewrite IH. destruct k0 as [k1|].
    + rewrite (indicator_sum us k1 (default 0 w0) Hnd).
      destruct (decide (k1 ∈ us)) as [Hin | Hin].
      * rewrite decide_True by (by apply list_elem_of_fmap_2).
        csimpl. unfold pd.sum. simpl. ring.
      * rewrite decide_False.
        { ring. }
        intros Hx. apply list_elem_of_fmap in Hx as [k [Hk Hx]]. congruence.
    + rewrite decide_False.
      * transitivity (0 + pd.sum (filter (fun p : option K * option Qc => p.1 ∈ Some <$> us) L).*2);
          [| ring].
        f_equal. apply qsum_zero. intros k. by rewrite decide_False by done.
      * intros Hx. apply list_elem_of_fmap in Hx as [k [Hk Hx]]. congruence.
Qed.

Lemma filter_iff_in {A} (P1 P2 : A → Prop)
    `{!∀ x, Decision (P1 x), !∀ x, Decision (P2 x)} (l : list A) :
  (∀ x, x ∈ l → P1 x ↔ P2 x) → filter P1 l = filter P2 l.
Proof.
  induction l as [|a l IH]; intros Hall; [done |].
  assert (filter P1 l = filter P2 l) as E.
  { apply IH. intros x Hx. apply Hall. by apply list_elem_of_further. }
  rewrite !filter_cons, E.
  destruct (decide (P1 a)) as [H1 | H1].
  - rewrite decide_True; [done |]. by apply (Hall a (list_elem_of_here _ _)).
  - rewrite decide_False; [done |]. intros H2. apply H1.
    by apply (Hall a (list_elem_of_here _ _)).
Qed.

Lemma kept_categorical (cats : list string) (codes : list (option nat))
    (w : list (option Qc)) :
  kept (pd.Categorical cats codes) w
  = (filter (fun p : option nat * option Qc => p.1 ∈ Some <$> seq 0 (length cats))
            (zip codes w)).*2.
Proof.
  unfold kept. simpl. revert w.
  induction codes as [|c codes IH]; intros [|x w]; csimpl; try done.
  specialize (IH w). rewrite !filter_cons.
  assert ((c ≫= fun i => option_map pd.PStr (cats !! i)) ≠ None
          ↔ c ∈ Some <$> seq 0 (length cats)) as Hiff.
  { destruct c as [i|]; csimpl.
    - destruct (cats !! i) as [s|] eqn:E; csimpl.
      + split; [| done]. intros _.
        apply list_elem_of_fmap_2, elem_of_seq. apply lookup_lt_Some in E. lia.
      + split; [done |]. intros Hx.
        apply list_elem_of_fmap in Hx as [j [[= <-] Hj]].
        apply elem_of_seq in Hj. apply lookup_ge_None in E. lia.
    - split; [done |]. intros Hx. apply list_elem_of_fmap in Hx as [j [Hj _]]. done. }
  cbn [fst]. destruct (decide (c ∈ Some <$> seq 0 (length cats))) as [Hc | Hc].
  - rewrite decide_True by (by apply Hiff). rewrite !fmap_cons. f_equal. apply IH.
  - rewrite decide_False by (by rewrite Hiff). apply IH.
Qed.

Lemma kept_values (key : pd.column) (w : list (option Qc)) :
  kept key w
  = (filter (fun p : option pd.pyobj * option Qc =>
               p.1 ∈ Some <$> remove_dups (omap id (pd.values key)))
            (zip (pd.values key) w)).*2.
Proof.
  unfold kept. f_equal. apply filter_iff_in. intros [k x] Hin. simpl.
  apply elem_of_zip_l in Hin. destruct k as [k|].
  - split; [| done]. intros _. apply list_elem_of_fmap_2.
    apply elem_of_remove_dups, list_elem_of_omap. by exists (Some k).
  - split; [done |]. intros H. apply list_elem_of_fmap in H as [j [Hj _]]. done.
Qed.

Lemma group_sums_total (key : pd.column) (w : list (option Qc)) :
  foldr Qcplus 0 (pd.group_sums key w).*2 = pd.sum (kept key w).
Proof.
  assert (∀ vals : list (option pd.pyobj),
    foldr Qcplus 0
      ((fun k => (pd.Lab k, pd.sum (pd.rows_of vals w k)))
         <$> pd.sort_by pd.pyobj_leb (remove_dups (omap id vals))).*2
    = pd.sum (filter (fun p : option pd.pyobj * option Qc =>
                        p.1 ∈ Some <$> remove_dups (omap id vals)) (zip vals w)).*2) as Hobj.
  { intros vals. rewrite <- list_fmap_compose.
    rewrite (qsum_perm _ ((fun k => pd.sum (pd.rows_of vals w k))
                            <$> remove_dups (omap id vals))).
    - apply group_rows_sum, NoDup_remove_dups.
    - apply fmap_Permutation, sort_by_perm. }
  destruct key as [xs | xs | xs | cats codes];
    try (rewrite kept_values; apply Hobj).
  rewrite kept_categorical. unfold pd.group_sums.
  rewrite fmap_imap.
  rewrite (imap_ext _ (fun i _ => pd.sum (pd.rows_of codes w i))) by done.
  rewrite imap_seq_0. apply group_rows_sum, NoDup_seq.
Qed.

(** ** Distributions *)

Lemma distribution_inv (d : pd.DataFrame) (col : string) (s : pd.Series) :
  distribution d col = Ok s →
  ∃ key mv, pd.getitem col d = Some key ∧ market_value d = Ok mv
    ∧ s = pd.mkSeries (Some "Market Value") (pd.percent (pd.group_sums key mv)).
Proof.
  unfold distribution, groupby_sum. intros H.
  destruct (pd.getitem col d) as [key|]; [| done].
  destruct (market_value d) as [mv| |]; simpl in H; try done.
  exists key, mv. by injection H as <-.
Qed.


Lemma sort_index_inv (s s' : pd.Series) :
  pd.sort_index s = Ok s' →
  pd.name s' = pd.name s ∧ pd.items s' ≡ₚ pd.items s.
Proof.
  unfold pd.sort_index. destruct (pd.comparable _); [| done].
  intros [= <-]. split; [done | apply sort_by_perm].
Qed.

Lemma sort_values_desc_perm (s : pd.Series) :
  pd.items (pd.sort_values_desc s) ≡ₚ pd.items s.
Proof. apply sort_by_perm. Qed.





(** ** Method equations *)

Lemma credit_distribution_eq (self : PortfolioAnalyzer) (d : pd.DataFrame) :
  rating_cols self ≠ [] →
  credit_distribution self d
  = let d' := pd.setitem "Composite Rating" (apply_pick_rating self d) d in
    ((dist ←! distribution d' "Composite Rating"; pd.sort_index dist),
     d', ["Composite Rating"]).
Proof.
  intros H. unfold credit_distribution, bind. rewrite (combined_rating_eq self d H).
  cbn [Py.truthy]. rewrite bool_decide_eq_false_2 by done. cbn [negb].
  unfold read, lift. simpl.
  by destruct (obind _ _).
Qed.

Lemma credit_distribution_none (self : PortfolioAnalyzer) (d : pd.DataFrame) :
  rating_cols self = [] → credit_distribution self d = (Ok pd.empty, d, []).
Proof.
  intros H. unfold credit_distribution, bind. by rewrite (combined_rating_none self d H).
Qed.

Lemma sector_exposure_eq (self : PortfolioAnalyzer) (d : pd.DataFrame) (col : string) :
  sector_col self = Some col → col ≠ EmptyString →
  sector_exposure self d
  = ((exp ←! distribution d col; Ok (pd.sort_values_desc exp)), d, []).
Proof.
  intros H Hne. unfold sector_exposure. rewrite H. cbn [Py.truthy].
  rewrite bool_decide_eq_false_2 by done. cbn [negb].
  unfold bind, read, lift. by destruct (obind _ _).
Qed.

Lemma sector_exposure_none (self : PortfolioAnalyzer) (d : pd.DataFrame) :
  Py.truthy (sector_col self) = false →
  sector_exposure self d = (Ok pd.empty, d, []).
Proof.
  intros H. unfold sector_exposure. destruct (sector_col self); [by rewrite H | done].
Qed.

Lemma currency_exposure_eq (self : PortfolioAnalyzer) (d : pd.DataFrame) (col : string) :
  currency_col self = Some col → col ≠ EmptyString →
  currency_exposure self d
  = ((exp ←! distribution d col; Ok (pd.sort_values_desc exp)), d, []).
Proof.
  intros H Hne. unfold currency_exposure. rewrite H. cbn [Py.truthy].
  rewrite bool_decide_eq_false_2 by done. cbn [negb].
  unfold bind, read, lift. by destruct (obind _ _).
Qed.

Lemma currency_exposure_none (self : PortfolioAnalyzer) (d : pd.DataFrame) :
  Py.truthy (currency_col self) = false →
  currency_exposure self d = (Ok (pd.empty_named "No Currency Column Found"), d, []).
Proof.
  intros H. unfold currency_exposure. destruct (currency_col self); [by rewrite H | done].
Qed.


Section MaturityBuckets.
Variable datetime_of : pd.pyobj → option Z.

Lemma maturity_buckets_eq (self : PortfolioAnalyzer) (today : Z) (d : pd.DataFrame)
    (maturity : pd.column) :
  pd.getitem "Maturity" d = Some maturity →
  maturity_buckets datetime_of self today d
  = let dates := pd.to_datetime datetime_of maturity in
    let ytm := (fun t => years (pd.days today t)) <$> dates in
    let d' :=
      pd.setitem "Maturity Bucket" (pd.Categorical labels (pd.cut bins <$> ytm))
        (pd.setitem "Years to Maturity" (pd.Float64 ytm)
           (pd.setitem "Maturity Date" (pd.Datetime64 dates) d)) in
    ((dist ←! distribution d' "Maturity Bucket"; pd.sort_index dist),
     d', ["Maturity Date"; "Years to Maturity"; "Maturity Bucket"]).
Proof.
  intros H. unfold maturity_buckets, bind, read at 1. rewrite H.
  unfold assign, read, lift. simpl.
  by destruct (obind _ _).
Qed.

Lemma maturity_buckets_none (self : PortfolioAnalyzer) (today : Z) (d : pd.DataFrame) :
  pd.getitem "Maturity" d = None →
  maturity_buckets datetime_of self today d
  = (Ok (pd.empty_named "No Maturity Column Found"), d, []).
Proof. intros H. unfold maturity_buckets, bind, read. by rewrite H. Qed.

End MaturityBuckets.

(** ** Dicts of distributions *)

Lemma dict_set_entries {V} (k : string) (v : V) (dict : list (string * V)) (p : string * V) :
  p ∈ dict_set k v dict → p = (k, v) ∨ p ∈ dict.
Proof.
  unfold dict_set. case_bool_decide as E.
  - intros H. apply list_elem_of_fmap in H as [p0 [-> H]].
    case_bool_decide; [by left | by right].
  - rewrite elem_of_app, list_elem_of_singleton. tauto.
Qed.

Lemma dict_set_keys {V} (k : string) (v : V) (dict : list (string * V)) :
  (dict_set k v dict).*1
  = if bool_decide (k ∈ dict.*1) then dict.*1 else dict.*1 ++ [k].
Proof.
  unfold dict_set. case_bool_decide as E.
  - clear E. induction dict as [|[k0 v0] dict IH]; simpl; [done |].
    f_equal; [by case_bool_decide; simpl | apply IH].
  - by rewrite fmap_app.
Qed.

Lemma foldl_outcome_inv {A B} (step : outcome B → A → outcome B) (Inv : B → Prop)
    (l : list A) (b0 r : B) :
  (∀ res a b', step res a = Ok b' → ∃ b, res = Ok b ∧ (Inv b → Inv b')) →
  Inv b0 → foldl step (Ok b0) l = Ok r → Inv r.
Proof.
  intros Hstep. revert r. induction l as [|a l IH] using rev_ind; intros r H0 H.
  - simpl in H. by injection H as <-.
  - rewrite foldl_app in H. simpl in H.
    destruct (Hstep _ _ _ H) as [b [Hb Hinv]].
    apply Hinv. by apply IH.
Qed.

Lemma rating_distributions_entries (self : PortfolioAnalyzer) (d : pd.DataFrame)
    (r : list (string * pd.Series)) (col : string) (s : pd.Series) :
  (rating_distributions self d).1.1 = Ok r → (col, s) ∈ r →
  (dist ←! distribution d col; pd.sort_index dist) = Ok s.
Proof.
  unfold rating_distributions, bind, read, lift. simpl.
  match goal with |- context [foldl ?f _ _] => set (step := f) end.
  intros H. assert (foldl step (Ok []) (rating_cols self) = Ok r) as H'.
  { by destruct (foldl step (Ok []) (rating_cols self)). }
  clear H. revert col s.
  apply (foldl_outcome_inv step
           (fun acc => ∀ col s, (col, s) ∈ acc →
              (dist ←! distribution d col; pd.sort_index dist) = Ok s)
           (rating_cols self) [] r); [| by intros ?? ?%elem_of_nil | done].
  intros res c b' Hs. unfold step in Hs.
  destruct res as [acc| |]; try done. exists acc. split; [done |].
  simpl in Hs. destruct (distribution d c) as [dist| |] eqn:Ed; try done.
  simpl in Hs. destruct (pd.sort_index dist) as [sorted| |] eqn:Es; try done.
  simpl in Hs. injection Hs as <-.
  intros Hacc col s Hin. apply dict_set_entries in Hin as [[= -> ->] | Hin].
  - by rewrite Ed.
  - by apply Hacc.
Qed.

Lemma categorical_breakdowns_entries (self : PortfolioAnalyzer) (top_n : Z)
    (d : pd.DataFrame) (r : list (string * pd.Series)) (col : string) (s : pd.Series) :
  (categorical_breakdowns self top_n d).1.1 = Ok r → (col, s) ∈ r →
  ∃ dist, distribution d col = Ok dist
          ∧ s = pd.head top_n (pd.sort_values_desc dist).
Proof.
  unfold categorical_breakdowns, bind, read, lift. simpl.
  match goal with |- context [foldl ?f _ _] => set (step := f) end.
  intros H. assert (foldl step (Ok []) (pd.object_columns d) = Ok r) as H'.
  { by destruct (foldl step (Ok []) (pd.object_columns d)). }
  clear H. revert col s.
  apply (foldl_outcome_inv step
           (fun acc => ∀ col s, (col, s) ∈ acc →
              ∃ dist, distribution d col = Ok dist
                      ∧ s = pd.head top_n (pd.sort_values_desc dist))
           (pd.object_columns d) [] r); [| by intros ?? ?%elem_of_nil | done].
  intros res c b' Hs. unfold step in Hs.
  destruct res as [acc| |]; try done. exists acc. split; [done |].
  simpl in Hs. case_bool_decide as Eskip.
  { by injection Hs as <-. }
  destruct (distribution d c) as [dist| |] eqn:Ed; try done.
  simpl in Hs. injection Hs as <-.
  intros Hacc col s Hin. apply dict_set_entries in Hin as [[= -> ->] | Hin].
  - by exists dist.
  - by apply Hacc.
Qed.

Lemma length_group_sums (key : pd.column) (w : list (option Qc)) :
  length (pd.group_sums key w) = distinct_values key.
Proof.
  destruct key; simpl; rewrite ?length_imap, ?length_fmap; try done;
    apply Permutation_length, sort_by_perm.
Qed.





(** ** Missing keys *)

Lemma group_sums_object (key : pd.column) (mv : list (option Qc)) :
  categorical key = false →
  pd.group_sums key mv
  = (fun k => (pd.Lab k, pd.sum (pd.rows_of (pd.values key) mv k)))
      <$> pd.sort_by pd.pyobj_leb (remove_dups (omap id (pd.values key))).
Proof. by destruct key. Qed.

Lemma elem_of_present (vals : list (option pd.pyobj)) (o : pd.pyobj) :
  o ∈ pd.sort_by pd.pyobj_leb (remove_dups (omap id vals)) ↔ Some o ∈ vals.
Proof.
  rewrite (sort_by_perm pd.pyobj_leb), elem_of_remove_dups, list_elem_of_omap.
  split.
  - intros [x [Hx Ho]]. simpl in Ho. by subst.
  - intros H. by exists (Some o).
Qed.

Lemma distribution_items (d : pd.DataFrame) (col : string) (s : pd.Series)
    (key : pd.column) :
  distribution d col = Ok s → pd.getitem col d = Some key → categorical key = false →
  (∀ item, item ∈ pd.items s → group_of_present_key d col item)
  ∧ (∀ o, Some o ∈ pd.values key → ∃ v, (pd.Lab o, v) ∈ pd.items s).
Proof.
  intros H Hkey Hcat.
  apply distribution_inv in H as (key' & mv & Hk & Hmv & ->).
  assert (key' = key) as -> by congruence.
  simpl. unfold pd.percent. rewrite group_sums_total.
  rewrite (group_sums_object key mv Hcat), <- list_fmap_compose. split.
  - intros item Hin. apply list_elem_of_fmap in Hin as [o [-> Ho]].
    exists key, mv, o. repeat split; try done. by apply elem_of_present.
  - intros o Ho. eexists.
    apply (list_elem_of_fmap_2' _ _ o); [by apply elem_of_present | done].
Qed.

Lemma head_items (n : Z) (s : pd.Series) (item : pd.label * pd.float64) :
  item ∈ pd.items (pd.head n s) → item ∈ pd.items s.
Proof. unfold pd.head. simpl. case_bool_decide; apply subseteq_take. Qed.

Lemma sorted_by_index_items (d : pd.DataFrame) (col : string) (s : pd.Series)
    (key : pd.column) (item : pd.label * pd.float64) :
  (dist ←! distribution d col; pd.sort_index dist) = Ok s →
  pd.getitem col d = Some key → categorical key = false →
  item ∈ pd.items s → group_of_present_key d col item.
Proof.
  intros H Hkey Hcat Hin. destruct (distribution d col) as [dist| |] eqn:E; try done.
  simpl in H. apply sort_index_inv in H as [_ Hp]. rewrite Hp in Hin.
  by apply (distribution_items d col dist key E Hkey Hcat).
Qed.

Lemma sorted_by_value_items (d : pd.DataFrame) (col : string) (s : pd.Series)
    (key : pd.column) (item : pd.label * pd.float64) :
  (exp ←! distribution d col; Ok (pd.sort_values_desc exp)) = Ok s →
  pd.getitem col d = Some key → categorical key = false →
  item ∈ pd.items s → group_of_present_key d col item.
Proof.
  intros H Hkey Hcat Hin. destruct (distribution d col) as [dist| |] eqn:E; try done.
  simpl in H. injection H as <-. rewrite sort_values_desc_perm in Hin.
  by apply (distribution_items d col dist key E Hkey Hcat).
Qed.

Lemma infer_column_not_categorical (xs : list (option pd.pyobj)) :
  categorical (pd.infer_column xs) = false.
Proof.
  unfold pd.infer_column.
  repeat (match goal with |- context [if ?b then _ else _] => destruct b end; try done).
Qed.

(** C4 (as amended).  In every categorical distribution method the rows
    whose grouping key is missing are dropped: each entry of a returned
    distribution stands for a value present in the key column, and its
    percentage is the market value of that value's rows in the market
    value of the rows whose key is present. *)
Theorem missing_keys_are_dropped (self : PortfolioAnalyzer) (d : pd.DataFrame) :
  (∀ s d' w item, credit_distribution self d = (Ok s, d', w) →
     rating_cols self ≠ [] → item ∈ pd.items s →
     group_of_present_key d' "Composite Rating" item)
  ∧ (∀ r col s key item, (rating_distributions self d).1.1 = Ok r → (col, s) ∈ r →
       pd.getitem col d = Some key → categorical key = false → item ∈ pd.items s →
       group_of_present_key d col item)
  ∧ (∀ col s key item, sector_col self = Some col → col ≠ EmptyString →
       (sector_exposure self d).1.1 = Ok s →
       pd.getitem col d = Some key → categorical key = false → item ∈ pd.items s →
       group_of_present_key d col item)
  ∧ (∀ col s key item, currency_col self = Some col → col ≠ EmptyString →
       (currency_exposure self d).1.1 = Ok s →
       pd.getitem col d = Some key → categorical key = false → item ∈ pd.items s →
       group_of_present_key d col item)
  ∧ (∀ top_n r col s key item, (categorical_breakdowns self top_n d).1.1 = Ok r →
       (col, s) ∈ r →
       pd.getitem col d = Some key → categorical key = false → item ∈ pd.items s →
       group_of_present_key d col item).
Proof.
  repeat split.
  - intros s d' w item H Hcols Hin. rewrite (credit_distribution_eq self d Hcols) in H.
    cbv zeta in H. injection H as H <- _.
    apply (sorted_by_index_items _ _ s (apply_pick_rating self d)); try done.
    + apply getitem_setitem_eq.
    + apply infer_column_not_categorical.
  - intros r col s key item Hr Hin Hkey Hcat Hitem.
    apply (sorted_by_index_items d col s key); try done.
    by apply (rating_distributions_entries self d r).
  - intros col s key item Hcol Hne H Hkey Hcat Hitem.
    rewrite (sector_exposure_eq self d col Hcol Hne) in H.
    by apply (sorted_by_value_items d col s key).
  - intros col s key item Hcol Hne H Hkey Hcat Hitem.
    rewrite (currency_exposure_eq self d col Hcol Hne) in H.
    by apply (sorted_by_value_items d col s key).
  - intros top_n r col s key item Hr Hin Hkey Hcat Hitem.
    destruct (categorical_breakdowns_entries self top_n d r col s Hr Hin)
      as (dist & Hd & ->).
    apply head_items in Hitem. rewrite sort_values_desc_perm in Hitem.
    by apply (distribution_items d col dist key Hd Hkey Hcat).
Qed.

(** C4 (witness): the sector exposure of the sample portfolio. *)
Lemma missing_keys_are_dropped_witness :
  sector_col rated_self = Some "Sector"
  ∧ raised (sector_exposure rated_self rated_df).1.1 = false
  ∧ ∀ s item, (sector_exposure rated_self rated_df).1.1 = Ok s →
      item ∈ pd.items s → group_of_present_key rated_df "Sector" item.
Proof.
  split; [by_compute |]. split; [by_compute |].
  intros s item H Hin.
  destruct (missing_keys_are_dropped rated_self rated_df) as (_ & _ & Hsector & _).
  apply (Hsector "Sector" s (pd.Object [text "Tech"; None; text "Fin"]));
    try done; by_compute.
Defined.

(** C4 (counterexample): the second holding has no sector and the largest
    market value; the sector exposure has two groups, none for it. *)
Lemma missing_sector_has_no_group :
  pd.cell rated_df "Sector" 1 = None
  ∧ pd.cell rated_df "Market Value" 1 = Some (pd.PNum (Q2Qc 300))
  ∧ (sector_exposure rated_self rated_df).1.1
    = Ok (pd.mkSeries (Some "Market Value")
            [ (pd.Lab (pd.PStr "Tech"), pd.Fin (Q2Qc (200 # 3)));
              (pd.Lab (pd.PStr "Fin"), pd.Fin (Q2Qc (100 # 3))) ]).
Proof. by_compute. Qed.

(** ** The KRD profile *)

Lemma sum_mul_float (xs mv : list (option Qc)) :
  pd.sum (zip_with pd.mul_float xs mv) = weighted_sum xs mv.
Proof.
  unfold pd.sum. revert mv.
  induction xs as [|[x|] xs IH]; intros [|[m|] mv]; simpl; try done;
    rewrite IH; ring.
Qed.

Lemma krd_sequence (d : pd.DataFrame) (mv : list (option Qc)) (cols : list string) :
  Forall (fun c => ∃ xs, pd.getitem c d = Some (pd.Float64 xs)) cols →
  pd.sequence
    ((fun c => prod ←! match pd.getitem c d with
                       | Some col => pd.mul col mv
                       | None => KeyError c
                       end;
               Ok (c, pd.sum prod)) <$> cols)
  = Ok ((fun c => (c, match pd.getitem c d with
                      | Some (pd.Float64 xs) => weighted_sum xs mv
                      | _ => 0
                      end)) <$> cols).
Proof.
  induction 1 as [|c cols [xs Hc] _ IH]; [done |].
  rewrite !fmap_cons. cbn [pd.sequence]. rewrite IH, Hc. simpl.
  by rewrite sum_mul_float.
Qed.

Lemma krd_profile_none (self : PortfolioAnalyzer) (d : pd.DataFrame) :
  krd_columns d = [] → krd_profile self d = (Ok pd.empty, d, []).
Proof.
  intros H. unfold krd_profile, bind, read. fold (krd_columns d).
  by rewrite bool_decide_eq_true_2 by done.
Qed.

Lemma krd_profile_numeric (self : PortfolioAnalyzer) (d : pd.DataFrame)
    (mv : list (option Qc)) :
  market_value d = Ok mv →
  Forall (fun c => ∃ xs, pd.getitem c d = Some (pd.Float64 xs)) (krd_columns d) →
  krd_profile self d
  = (Ok (pd.mkSeries None (weighted_krd d mv <$> krd_columns d)), d, []).
Proof.
  intros Hmv Hall. unfold krd_profile, bind, read. fold (krd_columns d).
  case_bool_decide as E.
  - rewrite E. done.
  - unfold lift. rewrite Hmv. cbn [obind].
    rewrite (krd_sequence d mv (krd_columns d) Hall). cbn [obind].
    rewrite <- list_fmap_compose. do 4 f_equal.
    apply Forall_fmap_ext_1. eapply Forall_impl; [exact Hall |].
    intros c [xs Hc]. unfold weighted_krd. simpl. by rewrite Hc.
Qed.

(** C8.  [krd_profile] returns, for the KRD Contribution columns in the
    dataframe's column order, the weighted contribution
    [sum(contribution_i * mv_i) / sum(mv_i)]; without such a column it
    returns the empty series; contributions 0.10 and 0.20 with market
    values 100 and 300 give 0.175. *)
Theorem krd_profile_weighted (self : PortfolioAnalyzer) (d : pd.DataFrame) :
  (krd_columns d = [] → krd_profile self d = (Ok pd.empty, d, []))
  ∧ (∀ mv, market_value d = Ok mv →
       Forall (fun c => ∃ xs, pd.getitem c d = Some (pd.Float64 xs)) (krd_columns d) →
       krd_profile self d
       = (Ok (pd.mkSeries None (weighted_krd d mv <$> krd_columns d)), d, []))
  ∧ sublist (krd_columns d) (pd.columns d)
  ∧ (krd_profile two_tenors_self two_tenors_df).1.1
    = Ok (pd.mkSeries None
            [(pd.Lab (pd.PStr "KRD Contribution 2Y"), pd.Fin (Q2Qc (175 # 1000)))]).
Proof.
  split; [apply krd_profile_none |].
  split; [intros mv; apply krd_profile_numeric |].
  split; [apply filter_sublist | by_compute].
Qed.

(** C8 (witness): the two-holding portfolio. *)
Lemma krd_profile_weighted_witness :
  market_value two_tenors_df = Ok [num 100 1; num 300 1]
  ∧ krd_columns two_tenors_df = ["KRD Contribution 2Y"]
  ∧ krd_profile two_tenors_self two_tenors_df
    = (Ok (pd.mkSeries None
             (weighted_krd two_tenors_df [num 100 1; num 300 1]
                <$> krd_columns two_tenors_df)),
       two_tenors_df, []).
Proof.
  split; [by_compute |]. split; [by_compute |].
  destruct (krd_profile_weighted two_tenors_self two_tenors_df) as (_ & H & _).
  apply H; [by_compute |].
  repeat constructor. by eexists.
Defined.

(** ** Maturity buckets *)

Lemma market_value_setitem (n : string) (c : pd.column) (d : pd.DataFrame) :
  n ≠ "Market Value" → market_value (pd.setitem n c d) = market_value d.
Proof. intros H. unfold market_value. by rewrite getitem_setitem_ne by done. Qed.

Section Shares.
Variable datetime_of : pd.pyobj → option Z.

Lemma cut_code_valid (x : option Qc) (i : nat) :
  pd.cut bins x = Some i → (i < length labels)%nat.
Proof.
  unfold pd.cut. destruct x as [v|]; [| done]. simpl.
  assert (pd.searchsorted_right bins v ≤ length bins)%nat as Hle
    by apply length_filter.
  set (n := pd.searchsorted_right bins v) in *.
  change (length bins) with 6%nat in *.
  destruct (Nat.eqb n 0) eqn:E0; simpl; [done |].
  destruct (Nat.eqb n 6) eqn:E1; simpl; [done |].
  intros [= <-]. apply Nat.eqb_neq in E0, E1. lia.
Qed.

Lemma kept_bucketed (today : Z) (maturity : pd.column) (mv : list (option Qc)) :
  kept (pd.Categorical labels (bucket_codes datetime_of today maturity)) mv
  = bucketed (bucket_codes datetime_of today maturity) mv.
Proof.
  rewrite kept_categorical. unfold bucketed. f_equal.
  apply filter_iff_in. intros [c x] Hin. cbn [fst].
  apply elem_of_zip_l in Hin. unfold bucket_codes in Hin.
  apply list_elem_of_fmap in Hin as [t [Hc _]]. destruct c as [i|].
  - split; [done |]. intros _. apply list_elem_of_fmap_2, elem_of_seq.
    symmetry in Hc. apply cut_code_valid in Hc. lia.
  - split; [| done]. intros H. apply list_elem_of_fmap in H as [j [Hj _]]. done.
Qed.

(** The share of a bucket is the market value of its rows in that of the
    rows that got a bucket: a row with no bucket (years to maturity
    missing, below 0, or 100 and more) counts in neither. *)
Lemma maturity_bucket_shares (self : PortfolioAnalyzer) (today : Z) (d : pd.DataFrame)
    (maturity : pd.column) (mv : list (option Qc)) (s : pd.Series) :
  pd.getitem "Maturity" d = Some maturity → market_value d = Ok mv →
  (maturity_buckets datetime_of self today d).1.1 = Ok s →
  pd.items s
  ≡ₚ imap (fun i c =>
             (pd.Cat i c,
              pd.fmul (pd.fdiv
                         (pd.Fin (pd.sum (pd.rows_of (bucket_codes datetime_of today maturity) mv i)))
                         (pd.Fin (pd.sum (bucketed (bucket_codes datetime_of today maturity) mv))))
                      (pd.Fin (Q2Qc 100))))
          labels.
Proof.
  intros Hm Hmv H. rewrite (maturity_buckets_eq datetime_of self today d maturity Hm) in H.
  cbv zeta in H. cbn [fst snd] in H.
  match type of H with
  | context [distribution ?x _] => set (d' := x) in H
  end.
  destruct (distribution d' "Maturity Bucket") as [dist| |] eqn:E; try done.
  simpl in H. apply sort_index_inv in H as [_ Hp]. rewrite Hp.
  apply distribution_inv in E as (key & mv' & Hk & Hmv' & ->).
  unfold d' in Hk, Hmv'. rewrite getitem_setitem_eq in Hk. injection Hk as <-.
  rewrite !market_value_setitem in Hmv' by done.
  assert (mv' = mv) as -> by congruence.
  rewrite <- list_fmap_compose.
  change (pd.cut bins ∘ (fun t => years (pd.days today t)) <$> pd.to_datetime datetime_of maturity)
    with (bucket_codes datetime_of today maturity).
  cbn [pd.items]. unfold pd.percent. rewrite group_sums_total.
  rewrite (kept_bucketed today maturity mv).
  unfold pd.group_sums. by rewrite fmap_imap.
Qed.

End Shares.

(** C1 (the code at the failing input).  The last bin ends at 100: a
    holding with 100 or more years to maturity gets no bucket, and the
    "30y+" share of the sample portfolio is 0 although three quarters of
    its market value mature in 100 years. *)
Theorem bucket_30y_plus_stops_at_100 :
  (∀ y, Q2Qc 100 <= y → pd.cut bins (Some y) = None)
  ∧ years (pd.days 0 (Some (36500 * pd.day_ns)%Z)) = Some (Q2Qc 100)
  ∧ pd.cell (maturity_buckets plain_datetime century_self 0 century_df).1.2
      "Maturity Bucket" 1 = None
  ∧ (maturity_buckets plain_datetime century_self 0 century_df).1.1
    = Ok (pd.mkSeries (Some "Market Value")
            [ (pd.Cat 0 "0-3y", pd.Fin 0);
              (pd.Cat 1 "3-5y", pd.Fin (Q2Qc 100));
              (pd.Cat 2 "5-10y", pd.Fin 0);
              (pd.Cat 3 "10-30y", pd.Fin 0);
              (pd.Cat 4 "30y+", pd.Fin 0) ]).
Proof.
  split; [intros y; apply cut_boundaries |]. by_compute.
Qed.

(** What the bucketing does keep of C1: the lower-inclusive boundaries up
    to 100 years, and a matured holding in no bucket. *)
Lemma bucket_examples :
  pd.cut bins (Some (Q2Qc (29 # 10))) = Some 0%nat
  ∧ pd.cut bins (Some (Q2Qc 3)) = Some 1%nat
  ∧ pd.cut bins (Some (Q2Qc (-1 # 2))) = None
  ∧ labels !! 0%nat = Some "0-3y" ∧ labels !! 1%nat = Some "3-5y"
  ∧ labels !! 4%nat = Some "30y+".
Proof. by_compute. Qed.

(** ** Repeated calls *)

Lemma setitem_setitem (n : string) (c : pd.column) (d : pd.DataFrame) :
  pd.setitem n c (pd.setitem n c d) = pd.setitem n c d.
Proof.
  assert (n ∈ pd.columns (pd.setitem n c d)) as Hin.
  { apply elem_columns_setitem. by left. }
  unfold pd.setitem at 1. rewrite bool_decide_eq_true_2 by done.
  unfold pd.setitem. case_bool_decide as E.
  - rewrite <- list_fmap_compose. apply list_fmap_ext. intros _ [k c0] _. simpl.
    destruct (decide (k = n)) as [-> | Hne].
    + rewrite (bool_decide_eq_true_2 (n = n)) by done. simpl.
      by rewrite (bool_decide_eq_true_2 (n = n)) by done.
    + rewrite (bool_decide_eq_false_2 (k = n)) by done. simpl.
      by rewrite (bool_decide_eq_false_2 (k = n)) by done.
  - rewrite fmap_app. f_equal.
    + rewrite <- (list_fmap_id d) at 2. apply list_fmap_ext. intros i [k c0] Hi. simpl.
      rewrite bool_decide_eq_false_2; [done |].
      intros ->. apply E. apply list_elem_of_lookup_2 in Hi.
      by apply (list_elem_of_fmap_2 fst) in Hi.
    + simpl. by rewrite (bool_decide_eq_true_2 (n = n)) by done.
Qed.

Lemma nrows_setitem (n : string) (c : pd.column) (d : pd.DataFrame) :
  length (pd.values c) = pd.nrows d → pd.nrows (pd.setitem n c d) = pd.nrows d.
Proof.
  intros Hlen. unfold pd.setitem. case_bool_decide as E.
  - destruct d as [|[k c0] d]; [done |]. simpl. by case_bool_decide.
  - destruct d as [|[k c0] d]; [done | done].
Qed.

Lemma nrows_apply_pick_rating (self : PortfolioAnalyzer) (d : pd.DataFrame) :
  length (pd.values (apply_pick_rating self d)) = pd.nrows d.
Proof.
  unfold apply_pick_rating. by rewrite values_infer_column, length_fmap, length_seq.
Qed.

Lemma pick_rating_ext (cols : list string) (row row' : string → option pd.pyobj) :
  (∀ col agency, agency ∈ priority →
     Py.contains (Py.lower agency) (Py.lower col) = true → row col = row' col) →
  pick_rating cols row = pick_rating cols row'.
Proof.
  intros H. unfold pick_rating. f_equal.
  induction priority as [|p ps IH]; [done |].
  rewrite !bind_cons. f_equal.
  - clear IH. induction cols as [|col cols IHc]; [done |].
    rewrite !bind_cons. f_equal; [| apply IHc].
    destruct (Py.contains _ _) eqn:E; [| done].
    f_equal. apply (H col p); [apply list_elem_of_here | done].
  - apply IH. intros col agency Ha. apply H. by apply list_elem_of_further.
Qed.

Lemma composite_is_no_agency_column (agency : string) :
  agency ∈ priority →
  Py.contains (Py.lower agency) (Py.lower "Composite Rating") = false.
Proof.
  unfold priority. intros H.
  repeat (apply elem_of_cons in H as [-> | H]; [by vm_compute |]).
  by apply elem_of_nil in H.
Qed.

Lemma apply_pick_rating_again (self : PortfolioAnalyzer) (d : pd.DataFrame) (c : pd.column) :
  length (pd.values c) = pd.nrows d →
  apply_pick_rating self (pd.setitem "Composite Rating" c d) = apply_pick_rating self d.
Proof.
  intros Hlen. unfold apply_pick_rating. rewrite (nrows_setitem _ _ _ Hlen).
  f_equal. apply list_fmap_ext. intros _ i _. apply pick_rating_ext.
  intros col agency Ha Hm. apply cell_setitem_ne. intros ->.
  by rewrite (composite_is_no_agency_column agency Ha) in Hm.
Qed.

(** C5 (as amended).  A second call of [credit_distribution] returns what
    the first returned and leaves the dataframe as the first left it, no
    column other than "Composite Rating" having changed; the composite
    column is computed and assigned by each call, the second as the
    first. *)
Theorem credit_distribution_twice (self : PortfolioAnalyzer) (d : pd.DataFrame) :
  let first := credit_distribution self d in
  let second := credit_distribution self first.1.2 in
  second.1.1 = first.1.1
  ∧ second.1.2 = first.1.2
  ∧ second.2 = first.2
  ∧ first.2 = (if bool_decide (rating_cols self = []) then [] else ["Composite Rating"])
  ∧ (∀ col, col ≠ "Composite Rating" → pd.getitem col first.1.2 = pd.getitem col d)
  ∧ (rating_cols self ≠ [] →
       pd.getitem "Composite Rating" first.1.2 = Some (apply_pick_rating self d)
       ∧ apply_pick_rating self first.1.2 = apply_pick_rating self d).
Proof.
  cbv zeta. destruct (decide (rating_cols self = [])) as [E | E].
  - rewrite (credit_distribution_none self d E). simpl.
    rewrite (credit_distribution_none self d E). simpl.
    rewrite bool_decide_eq_true_2 by done. done.
  - rewrite (credit_distribution_eq self d E). cbv zeta. cbn [fst snd].
    rewrite (credit_distribution_eq self _ E). cbv zeta. cbn [fst snd].
    rewrite (apply_pick_rating_again self d _ (nrows_apply_pick_rating self d)).
    rewrite setitem_setitem, bool_decide_eq_false_2 by done.
    repeat split; try done.
    + intros col Hne. by apply getitem_setitem_ne.
    + apply getitem_setitem_eq.
Qed.

(** C5 (counterexample): two calls, two assignments of the composite
    column on record. *)
Lemma composite_rating_assigned_by_each_call :
  two_credit_calls
  = Some [ (2%positive, "Market Value");
           (2%positive, "Composite Rating");
           (2%positive, "Composite Rating") ].
Proof. by_compute. Qed.

(** C5 (witness): the sample portfolio. *)
Lemma credit_distribution_twice_witness :
  rating_cols rated_self ≠ []
  ∧ raised (credit_distribution rated_self rated_df).1.1 = false
  ∧ (credit_distribution rated_self (credit_distribution rated_self rated_df).1.2).1.1
    = (credit_distribution rated_self rated_df).1.1
  ∧ apply_pick_rating rated_self (credit_distribution rated_self rated_df).1.2
    = apply_pick_rating rated_self rated_df.
Proof.
  assert (rating_cols rated_self ≠ []) as Hcols by by_compute.
  split; [done |]. split; [by_compute |].
  destruct (credit_distribution_twice rated_self rated_df) as (H1 & _ & _ & _ & _ & H6).
  split; [exact H1 | exact (proj2 (H6 Hcols))].
Defined.

(** ** What a query leaves behind *)

Lemma read_only_ret {R} (r : R) : read_only (ret r).
Proof. by intros d. Qed.

Lemma read_only_lift {R} (m : outcome R) : read_only (lift m).
Proof. by intros d. Qed.

Lemma read_only_bind {A B} (m : Method A) (k : A → Method B) :
  read_only m → (∀ a, read_only (k a)) → read_only (bind m k).
Proof.
  intros Hm Hk d. unfold bind. destruct (Hm d) as [H1 H2].
  destruct (m d) as [[r d1] w1]. simpl in *. subst.
  destruct r as [a| |]; try done.
  destruct (Hk a d) as [H3 H4]. destruct (k a d) as [[r2 d2] w2]. simpl in *. by subst.
Qed.

Lemma read_only_read {B} (k : pd.DataFrame → Method B) :
  (∀ d0, read_only (k d0)) → read_only (bind read k).
Proof. intros H. apply read_only_bind; [by intros d | done]. Qed.

Lemma read_only_returning {A B} (f : A → B) (m : Method A) :
  read_only m → read_only (returning f m).
Proof. intros H. apply read_only_bind; [done | intros a; apply read_only_ret]. Qed.

Ltac read_only_tac :=
  repeat first
    [ apply read_only_ret
    | apply read_only_lift
    | apply read_only_read; intros ?
    | apply read_only_bind; [| intros ?]
    | match goal with
      | |- read_only (match ?x with _ => _ end) => destruct x
      | |- read_only (if ?b then _ else _) => destruct b
      end ].

Section ReadOnly.
Variable datetime_of : pd.pyobj → option Z.

Lemma summary_read_only (self : PortfolioAnalyzer) (today : Z) :
  read_only (summary datetime_of self today).
Proof. unfold summary. read_only_tac. Qed.

Lemma rating_distributions_read_only (self : PortfolioAnalyzer) :
  read_only (rating_distributions self).
Proof. unfold rating_distributions. read_only_tac. Qed.

Lemma sector_exposure_read_only (self : PortfolioAnalyzer) :
  read_only (sector_exposure self).
Proof. unfold sector_exposure. read_only_tac. Qed.

Lemma krd_profile_read_only (self : PortfolioAnalyzer) :
  read_only (krd_profile self).
Proof. unfold krd_profile. read_only_tac. Qed.

Lemma top_holdings_read_only (self : PortfolioAnalyzer) (n : Z) :
  read_only (top_holdings self n).
Proof. unfold top_holdings. read_only_tac. Qed.

Lemma duration_read_only (self : PortfolioAnalyzer) :
  read_only (duration self).
Proof. unfold duration. read_only_tac. Qed.

Lemma currency_exposure_read_only (self : PortfolioAnalyzer) :
  read_only (currency_exposure self).
Proof. unfold currency_exposure. read_only_tac. Qed.

Lemma categorical_breakdowns_read_only (self : PortfolioAnalyzer) (top_n : Z) :
  read_only (categorical_breakdowns self top_n).
Proof. unfold categorical_breakdowns. read_only_tac. Qed.

End ReadOnly.

Lemma read_only_assigns {R} (cols : list string) (m : Method R) :
  read_only m → assigns_within cols m.
Proof.
  intros H d. destruct (H d) as [H1 H2]. rewrite H1, H2.
  repeat split; try done. by intros c ?%elem_of_nil.
Qed.

Lemma returning_effect {A B} (f : A → B) (m : Method A) (d : pd.DataFrame) :
  (returning f m d).1.2 = (m d).1.2 ∧ (returning f m d).2 = (m d).2.
Proof.
  unfold returning, bind, ret. destruct (m d) as [[r d1] w1].
  destruct r; simpl; by rewrite ?app_nil_r.
Qed.

Lemma assigns_returning {A B} (cols : list string) (f : A → B) (m : Method A) :
  assigns_within cols m → assigns_within cols (returning f m).
Proof.
  intros H d. destruct (returning_effect f m d) as [-> ->]. apply H.
Qed.

Lemma assigned_is_derived (c : string) :
  c ∈ ["Composite Rating"] ∨ c ∈ ["Maturity Date"; "Years to Maturity"; "Maturity Bucket"] →
  c ∈ derived_columns.
Proof.
  intros [H | H];
    repeat (apply elem_of_cons in H as [-> | H]; [by_compute |]);
    by apply elem_of_nil in H.
Qed.

Lemma combined_rating_assigns (self : PortfolioAnalyzer) :
  assigns_within derived_columns (combined_rating self).
Proof.
  intros d. destruct (decide (rating_cols self = [])) as [E | E].
  - rewrite (combined_rating_none self d E). simpl.
    repeat split; try done. by intros c ?%elem_of_nil.
  - rewrite (combined_rating_eq self d E). simpl. repeat split.
    + intros c Hc. apply getitem_setitem_ne. intros ->. apply Hc. by_compute.
    + intros c Hc. apply assigned_is_derived. auto.
    + intros c Hc. apply elem_columns_setitem. by right.
Qed.

Lemma credit_distribution_assigns (self : PortfolioAnalyzer) :
  assigns_within derived_columns (credit_distribution self).
Proof.
  intros d. destruct (decide (rating_cols self = [])) as [E | E].
  - rewrite (credit_distribution_none self d E). simpl.
    repeat split; try done. by intros c ?%elem_of_nil.
  - rewrite (credit_distribution_eq self d E). simpl. repeat split.
    + intros c Hc. apply getitem_setitem_ne. intros ->. apply Hc. by_compute.
    + intros c Hc. apply assigned_is_derived. auto.
    + intros c Hc. apply elem_columns_setitem. by right.
Qed.

Section Effects.
Variable numeric_of : pd.pyobj → option Qc.
Variable datetime_of : pd.pyobj → option Z.

Lemma maturity_buckets_assigns (self : PortfolioAnalyzer) (today : Z) :
  assigns_within derived_columns (maturity_buckets datetime_of self today).
Proof.
  intros d. destruct (pd.getitem "Maturity" d) as [m|] eqn:E.
  - rewrite (maturity_buckets_eq datetime_of self today d m E). simpl. repeat split.
    + intros c Hc. rewrite !getitem_setitem_ne; [done | ..];
        intros ->; apply Hc; by_compute.
    + intros c Hc. apply assigned_is_derived. auto.
    + intros c Hc. rewrite !elem_columns_setitem. auto.
  - rewrite (maturity_buckets_none datetime_of self today d E). simpl.
    repeat split; try done. by intros c ?%elem_of_nil.
Qed.

Lemma exec_assigns (self : PortfolioAnalyzer) (q : query) :
  assigns_within derived_columns (exec datetime_of self q).
Proof.
  destruct q; simpl; apply assigns_returning;
    first [ apply combined_rating_assigns
          | apply credit_distribution_assigns
          | apply maturity_buckets_assigns
          | apply read_only_assigns;
            first [ apply summary_read_only
                  | apply rating_distributions_read_only
                  | apply sector_exposure_read_only
                  | apply krd_profile_read_only
                  | apply top_holdings_read_only
                  | apply duration_read_only
                  | apply currency_exposure_read_only
                  | apply categorical_breakdowns_read_only ] ].
Qed.

Lemma after_assigns (self : PortfolioAnalyzer) (qs : list query) (d : pd.DataFrame) :
  (∀ c, c ∉ derived_columns →
        pd.getitem c (after datetime_of self qs d).1 = pd.getitem c d)
  ∧ (∀ c, c ∈ (after datetime_of self qs d).2 → c ∈ derived_columns)
  ∧ (∀ c, c ∈ pd.columns d → c ∈ pd.columns (after datetime_of self qs d).1).
Proof.
  revert d. induction qs as [|q qs IH]; intros d; simpl.
  - repeat split; try done. by intros c ?%elem_of_nil.
  - destruct (exec_assigns self q d) as (H1 & H2 & H3).
    destruct (exec datetime_of self q d) as [[r d1] w1]. simpl in *.
    destruct (IH d1) as (H4 & H5 & H6).
    destruct (after datetime_of self qs d1) as [d2 w2]. simpl in *.
    repeat split.
    + intros c Hc. by rewrite H4, H1.
    + intros c Hc. apply elem_of_app in Hc as [Hc | Hc]; auto.
    + auto.
Qed.

End Effects.

(** ** The store *)

Section Store.
Variable numeric_of : pd.pyobj → option Qc.
Variable datetime_of : pd.pyobj → option Z.

Lemma df_init_body (l : loc) (portfolio : string) (d0 : pd.DataFrame) :
  df (init_body numeric_of l portfolio d0).1.1 = l.
Proof. unfold init_body. by destruct (pd.getitem _ _). Qed.

Lemma init_inv (w w1 : world) (caller : loc) (portfolio : string)
    (self : PortfolioAnalyzer) :
  __init__ numeric_of w caller portfolio = Some (self, w1) →
  ∃ d0, heap w !! caller = Some d0
    ∧ df self = fresh (dom (heap w))
    ∧ self = (init_body numeric_of (df self) portfolio d0).1.1
    ∧ heap w1 = <[df self := (init_body numeric_of (df self) portfolio d0).1.2]> (heap w)
    ∧ trace w1
      = trace w ++ ((fun c => (df self, c)) <$> (init_body numeric_of (df self) portfolio d0).2).
Proof.
  unfold __init__. intros H.
  destruct (heap w !! caller) as [d0|] eqn:E; [| done]. simpl in H.
  pose proof (df_init_body (fresh (dom (heap w))) portfolio d0) as Hdf.
  destruct (init_body numeric_of (fresh (dom (heap w))) portfolio d0) as [[a d] log] eqn:Ei.
  simpl in *. injection H as <- <-. exists d0. rewrite Hdf, Ei. by simpl.
Qed.

Lemma call_inv {R} (self : PortfolioAnalyzer) (m : Method R) (w : world)
    (d : pd.DataFrame) :
  heap w !! df self = Some d →
  call self m w
  = Some ((m d).1.1,
          mkWorld (<[df self := (m d).1.2]> (heap w))
                  (trace w ++ ((fun c => (df self, c)) <$> (m d).2))).
Proof.
  intros H. unfold call. rewrite H. simpl. by destruct (m d) as [[r d'] log].
Qed.

Lemma session_inv (self : PortfolioAnalyzer) (qs : list query) (w1 : world)
    (d1 : pd.DataFrame) :
  heap w1 !! df self = Some d1 →
  ∃ w2, session datetime_of self qs w1 = Some w2
    ∧ heap w2 = <[df self := (after datetime_of self qs d1).1]> (heap w1)
    ∧ trace w2
      = trace w1 ++ ((fun c => (df self, c)) <$> (after datetime_of self qs d1).2).
Proof.
  revert w1 d1. induction qs as [|q qs IH]; intros w1 d1 H; simpl.
  - exists w1. split; [done |]. split; [by rewrite insert_id | by rewrite app_nil_r].
  - rewrite (call_inv self _ w1 d1 H). simpl.
    destruct (exec datetime_of self q d1) as [[r d'] log]. simpl.
    edestruct (IH (mkWorld (<[df self := d']> (heap w1))
                           (trace w1 ++ ((fun c => (df self, c)) <$> log))) d')
      as (w2 & Hs & Hh & Ht).
    { simpl. apply lookup_insert_eq. }
    exists w2. split; [done |].
    destruct (after datetime_of self qs d') as [d2 log2]. simpl in *.
    split.
    + by rewrite Hh, insert_insert_eq.
    + by rewrite Ht, fmap_app, app_assoc.
Qed.

(** C2 (as amended).  The constructor copies: the analyzer's dataframe is
    a new object, and no sequence of queries changes any other object of
    the store, the caller's dataframe among them.  On their own copy the
    queries assign the columns "Composite Rating", "Maturity Date",
    "Years to Maturity" and "Maturity Bucket" and nothing else: every
    other column stays as the constructor left it and no column is
    removed. *)
Theorem queries_assign_derived_columns_only (w w1 : world) (caller : loc)
    (portfolio : string) (self : PortfolioAnalyzer) (qs : list query)
    (Hinit : __init__ numeric_of w caller portfolio = Some (self, w1)) :
  ∃ w2 d1 d2,
    session datetime_of self qs w1 = Some w2
    ∧ df self ≠ caller ∧ heap w !! df self = None
    ∧ (∀ l, l ≠ df self → heap w2 !! l = heap w !! l)
    ∧ heap w2 !! caller = heap w !! caller
    ∧ heap w1 !! df self = Some d1 ∧ heap w2 !! df self = Some d2
    ∧ (∀ c, c ∉ derived_columns → pd.getitem c d2 = pd.getitem c d1)
    ∧ (∀ c, c ∈ pd.columns d1 → c ∈ pd.columns d2)
    ∧ ∃ log, trace w2 = trace w1 ++ log
        ∧ ∀ l c, (l, c) ∈ log → l = df self ∧ c ∈ derived_columns.
Proof.
  apply init_inv in Hinit as (d0 & Hcaller & Hdf & _ & Hheap & _).
  set (d1 := (init_body numeric_of (df self) portfolio d0).1.2) in *.
  assert (heap w1 !! df self = Some d1) as H1.
  { rewrite Hheap. apply lookup_insert_eq. }
  destruct (session_inv self qs w1 d1 H1) as (w2 & Hs & Hh & Ht).
  destruct (after_assigns datetime_of self qs d1) as (Ha & Hb & Hc).
  assert (heap w !! df self = None) as Hfresh.
  { rewrite Hdf. apply not_elem_of_dom, is_fresh. }
  assert (df self ≠ caller) as Hne by congruence.
  exists w2, d1, (after datetime_of self qs d1).1.
  split; [done |]. split; [done |]. split; [done |].
  assert (∀ l, l ≠ df self → heap w2 !! l = heap w !! l) as Hother.
  { intros l Hl. rewrite Hh, Hheap. by rewrite !lookup_insert_ne by done. }
  split; [done |]. split; [by apply Hother |]. split; [done |].
  split; [rewrite Hh; apply lookup_insert_eq |].
  split; [done |]. split; [done |].
  eexists. split; [exact Ht |].
  intros l c Hin. apply list_elem_of_fmap in Hin as [c' [[= -> ->] Hc']]. auto.
Qed.

End Store.

(** C2 (witness): a credit distribution and the maturity buckets on a
    fresh analyzer of the sample portfolio; the caller's dataframe is as
    it was. *)
Lemma queries_assign_derived_columns_only_witness :
  ∃ self w1 w2,
    __init__ plain_numeric rated_world 1%positive "Rated" = Some (self, w1)
    ∧ session plain_datetime self [q_credit_distribution; q_maturity_buckets 0] w1
      = Some w2
    ∧ heap w2 !! 1%positive = Some rated.
Proof.
  destruct (__init__ plain_numeric rated_world 1%positive "Rated")
    as [[self w1]|] eqn:E.
  - destruct (queries_assign_derived_columns_only plain_numeric plain_datetime
                rated_world w1 1%positive "Rated" self
                [q_credit_distribution; q_maturity_buckets 0] E)
      as (w2 & d1 & d2 & Hs & _ & _ & _ & Hc & _).
    exists self, w1, w2. split; [done |]. split; [done |]. etrans; [exact Hc | by_compute].
  - exfalso.
    assert (__init__ plain_numeric rated_world 1%positive "Rated" ≠ None) as H
      by by_compute.
    done.
Defined.

(** C2 (counterexample): [maturity_buckets] leaves three new columns on
    the analyzer's dataframe, none of them the composite rating. *)
Lemma maturity_buckets_adds_columns :
  pd.columns rated_df
  = ["S&P Rating"; "Fitch Rating"; "Sector"; "FX Currency Code"; "Market Value"; "Maturity"]
  ∧ pd.columns (maturity_buckets plain_datetime rated_self 0 rated_df).1.2
    = ["S&P Rating"; "Fitch Rating"; "Sector"; "FX Currency Code"; "Market Value"; "Maturity";
       "Maturity Date"; "Years to Maturity"; "Maturity Bucket"]
  ∧ (maturity_buckets plain_datetime rated_self 0 rated_df).2
    = ["Maturity Date"; "Years to Maturity"; "Maturity Bucket"].
Proof. by_compute. Qed.

(** ** Exceptions *)

Lemma omv_Ok {A} (d : pd.DataFrame) (a : A) : only_market_value d (Ok a).
Proof. by intros key. Qed.

Lemma omv_TypeError {A} (d : pd.DataFrame) : only_market_value d (@TypeError A).
Proof. by intros key. Qed.

Lemma omv_bind {A B} (d : pd.DataFrame) (m : outcome A) (k : A → outcome B) :
  only_market_value d m → (∀ a, m = Ok a → only_market_value d (k a)) →
  only_market_value d (obind m k).
Proof.
  intros Hm Hk key. destruct m as [a| key' |]; simpl; [| | done].
  - by apply Hk.
  - intros [= ->]. by apply Hm.
Qed.

Lemma omv_market_value (d : pd.DataFrame) : only_market_value d (market_value d).
Proof.
  intros key. unfold market_value.
  destruct (pd.getitem "Market Value" d) as [[]|] eqn:E; try done.
  intros [= <-]. split; [done | by apply getitem_None_elem].
Qed.

Lemma getitem_is_Some (c : string) (d : pd.DataFrame) :
  c ∈ pd.columns d → ∃ col, pd.getitem c d = Some col.
Proof.
  intros H. destruct (pd.getitem c d) as [col|] eqn:E; [by exists col |].
  by apply getitem_None_elem in E.
Qed.

Lemma omv_groupby_sum (d : pd.DataFrame) (col : string) :
  col ∈ pd.columns d → only_market_value d (groupby_sum d col).
Proof.
  intros H. unfold groupby_sum. destruct (getitem_is_Some col d H) as [key ->].
  apply omv_bind; [apply omv_market_value | intros; apply omv_Ok].
Qed.

Lemma omv_distribution (d : pd.DataFrame) (col : string) :
  col ∈ pd.columns d → only_market_value d (distribution d col).
Proof.
  intros H. unfold distribution.
  apply omv_bind; [by apply omv_groupby_sum | intros; apply omv_Ok].
Qed.

Lemma omv_sort_index (d : pd.DataFrame) (s : pd.Series) :
  only_market_value d (pd.sort_index s).
Proof. intros key. unfold pd.sort_index. by destruct (pd.comparable _). Qed.






Lemma omv_foldl {A B} (d : pd.DataFrame) (step : outcome B → A → outcome B)
    (l : list A) (b0 : B) :
  (∀ key a, step (KeyError key) a = KeyError key) →
  (∀ a, step TypeError a = TypeError) →
  (∀ acc a, a ∈ l → only_market_value d (step (Ok acc) a)) →
  only_market_value d (foldl step (Ok b0) l).
Proof.
  intros Hk Ht. induction l as [|a l IH] using rev_ind; intros Hs.
  - apply omv_Ok.
  - rewrite foldl_app. simpl.
    assert (only_market_value d (foldl step (Ok b0) l)) as Hl.
    { apply IH. intros acc a' Ha'. apply Hs, elem_of_app. by left. }
    destruct (foldl step (Ok b0) l) as [acc | key |].
    + apply Hs, elem_of_app. right. apply list_elem_of_here.
    + rewrite Hk. done.
    + rewrite Ht. apply omv_TypeError.
Qed.

(** The value a method returns, read off its body. *)
Lemma result_lift {R} (m : outcome R) (d : pd.DataFrame) : (lift m d).1.1 = m.
Proof. done. Qed.

Lemma result_read {B} (k : pd.DataFrame → Method B) (d : pd.DataFrame) :
  (bind read k d).1.1 = (k d d).1.1.
Proof. unfold bind, read. by destruct (k d d) as [[r d'] w]. Qed.

Lemma result_bind_lift {A B} (m : outcome A) (k : A → Method B) (d : pd.DataFrame) :
  (bind (lift m) k d).1.1
  = match m with
    | Ok a => (k a d).1.1
    | KeyError key => KeyError key
    | TypeError => TypeError
    end.
Proof.
  unfold bind, lift. destruct m as [a| |]; try done. by destruct (k a d) as [[r d'] w].
Qed.

Lemma result_bind_ret {A B} (a : A) (k : A → Method B) (d : pd.DataFrame) :
  (bind (ret a) k d).1.1 = (k a d).1.1.
Proof. unfold bind, ret. by destruct (k a d) as [[r d'] w]. Qed.

Lemma result_returning {A B} (f : A → B) (m : Method A) (d : pd.DataFrame) :
  (returning f m d).1.1
  = match (m d).1.1 with
    | Ok a => Ok (f a)
    | KeyError key => KeyError key
    | TypeError => TypeError
    end.
Proof.
  unfold returning, bind, ret. destruct (m d) as [[r d1] w1]. by destruct r.
Qed.




Section KeyErrors.
Variable datetime_of : pd.pyobj → option Z.




Lemma omv_rating_distributions (self : PortfolioAnalyzer) (d : pd.DataFrame) :
  resolved self d → only_market_value d (rating_distributions self d).1.1.
Proof.
  intros (Hr & _). unfold rating_distributions. rewrite result_read, result_lift.
  apply omv_foldl; try done.
  intros acc c Hc. simpl.
  apply omv_bind; [apply omv_distribution; auto | intros dist _].
  apply omv_bind; [apply omv_sort_index | intros; apply omv_Ok].
Qed.









End KeyErrors.

(** ** The analyzer the constructor builds *)

Lemma get_primary_col_elem (cols : list string) (c : string) :
  _get_primary_col cols = Some c → c ∈ cols.
Proof. destruct cols as [|c0 cols]; [done |]. intros [= ->]. apply list_elem_of_here. Qed.

Lemma find_cols_columns (d : pd.DataFrame) (category c : string) :
  c ∈ _find_cols d category → c ∈ pd.columns d.
Proof.
  unfold _find_cols. intros H. apply list_elem_of_In, filter_In in H as [H _].
  by apply list_elem_of_In.
Qed.

Lemma find_cols_same_columns (d d' : pd.DataFrame) (category : string) :
  pd.columns d' = pd.columns d → _find_cols d' category = _find_cols d category.
Proof. intros H. unfold _find_cols. by rewrite H. Qed.

Section Constructor.
Variable numeric_of : pd.pyobj → option Qc.
Variable datetime_of : pd.pyobj → option Z.

Lemma init_body_fields (l : loc) (portfolio : string) (d0 : pd.DataFrame) :
  let self := (init_body numeric_of l portfolio d0).1.1 in
  let d := (init_body numeric_of l portfolio d0).1.2 in
  pd.columns d = Py.strip <$> pd.columns d0
  ∧ name self = portfolio
  ∧ rating_cols self = _find_cols d "rating"
  ∧ sector_col self = _get_primary_col (_find_cols d "sector")
  ∧ issuer_col self = _get_primary_col (_find_cols d "issuer")
  ∧ currency_col self = _get_primary_col (_find_cols d "currency").
Proof.
  cbv zeta. unfold init_body.
  set (d1 := (fun p : string * pd.column => (Py.strip p.1, p.2)) <$> d0).
  assert (pd.columns d1 = Py.strip <$> pd.columns d0) as Hc.
  { unfold d1, pd.columns. rewrite <- !list_fmap_compose. by apply list_fmap_ext. }
  destruct (pd.getitem "Market Value" d1) as [c|] eqn:E; simpl.
  - assert (pd.columns (pd.setitem "Market Value" (pd.to_numeric numeric_of c) d1)
            = pd.columns d1) as Hs.
    { rewrite columns_setitem, bool_decide_eq_true_2; [done |].
      by apply (getitem_Some_elem _ _ c). }
    rewrite !(find_cols_same_columns d1 _ _ Hs), Hs. done.
  - done.
Qed.

Lemma init_resolved (l : loc) (portfolio : string) (d0 : pd.DataFrame) :
  resolved (init_body numeric_of l portfolio d0).1.1
           (init_body numeric_of l portfolio d0).1.2.
Proof.
  destruct (init_body_fields l portfolio d0) as (_ & _ & Hr & Hs & Hi & Hc).
  unfold resolved. rewrite Hr, Hs, Hi, Hc.
  repeat split; intros c H;
    first [ by apply find_cols_columns in H
          | apply get_primary_col_elem in H; by apply find_cols_columns in H ].
Qed.

Lemma after_resolved (self : PortfolioAnalyzer) (qs : list query) (d : pd.DataFrame) :
  resolved self d → resolved self (after datetime_of self qs d).1.
Proof.
  intros (Hr & Hs & Hi & Hc).
  destruct (after_assigns datetime_of self qs d) as (_ & _ & Hgrow).
  repeat split; intros c H; apply Hgrow; auto.
Qed.

Lemma after_market_value (self : PortfolioAnalyzer) (qs : list query) (d : pd.DataFrame) :
  "Market Value" ∈ pd.columns (after datetime_of self qs d).1
  ↔ "Market Value" ∈ pd.columns d.
Proof.
  destruct (after_assigns datetime_of self qs d) as (Hkeep & _ & Hgrow).
  split; [| apply Hgrow].
  intros H. destruct (pd.getitem "Market Value" d) as [c|] eqn:E.
  - by apply (getitem_Some_elem _ _ c).
  - rewrite <- (Hkeep "Market Value") in E by by_compute.
    by apply getitem_None_elem in E.
Qed.


End Constructor.

Lemma rating_distributions_keys (self : PortfolioAnalyzer) (d : pd.DataFrame)
    (r : list (string * pd.Series)) :
  (rating_distributions self d).1.1 = Ok r →
  NoDup r.*1 ∧ ∀ c, c ∈ r.*1 ↔ c ∈ rating_cols self.
Proof.
  unfold rating_distributions. rewrite result_read, result_lift.
  match goal with |- context [foldl ?f _ _] => set (step := f) end.
  revert r. induction (rating_cols self) as [|c cols IH] using rev_ind; intros r H.
  - simpl in H. injection H as <-. split; [constructor | done].
  - rewrite foldl_app in H. simpl in H. unfold step at 1 in H.
    destruct (foldl step (Ok []) cols) as [acc| |]; try done.
    destruct (IH acc eq_refl) as [Hnd Hkeys]. simpl in H.
    destruct (distribution d c) as [dist| |]; try done. simpl in H.
    destruct (pd.sort_index dist) as [sorted| |]; try done. simpl in H.
    injection H as <-. rewrite dict_set_keys. case_bool_decide as E.
    + split; [done |]. intros c'. rewrite elem_of_app, list_elem_of_singleton, Hkeys.
      split; [auto |]. intros [H | ->]; [done | by apply Hkeys].
    + split.
      * apply NoDup_app. split; [done |]. split; [| apply NoDup_singleton].
        intros x Hx ->%list_elem_of_singleton. done.
      * intros c'. by rewrite !elem_of_app, !list_elem_of_singleton, Hkeys.
Qed.

(** ** Missing optional columns *)

Lemma duration_none (self : PortfolioAnalyzer) (d : pd.DataFrame) :
  List.find (fun c => Py.contains "duration" (Py.lower c)) (pd.columns d) = None →
  duration self d = (Ok (mkDuration (name self) None), d, []).
Proof. intros H. unfold duration, bind, read. by rewrite H. Qed.




Section Degradation.
Variable numeric_of : pd.pyobj → option Qc.
Variable datetime_of : pd.pyobj → option Z.


(** C10.  The analyzer's rating, sector, issuer and currency columns are
    those the constructor resolved.  After any sequence of queries,
    [rating_distributions] returns one distribution for each of those
    rating columns and no other, though the dataframe may by then hold a
    "Composite Rating" column that the rating aliases match; it raises no
    [KeyError] but for a missing "Market Value". *)
Theorem resolved_columns_are_fixed (l : loc) (portfolio : string) (d0 : pd.DataFrame)
    (qs : list query) :
  let self := (init_body numeric_of l portfolio d0).1.1 in
  let d := (init_body numeric_of l portfolio d0).1.2 in
  let d' := (after datetime_of self qs d).1 in
  rating_cols self = _find_cols d "rating"
  ∧ sector_col self = _get_primary_col (_find_cols d "sector")
  ∧ issuer_col self = _get_primary_col (_find_cols d "issuer")
  ∧ currency_col self = _get_primary_col (_find_cols d "currency")
  ∧ match (rating_distributions self d').1.1 with
    | Ok r => NoDup r.*1 ∧ ∀ c, c ∈ r.*1 ↔ c ∈ _find_cols d "rating"
    | KeyError key => key = "Market Value" ∧ "Market Value" ∉ pd.columns d
    | TypeError => True
    end
  ∧ _find_cols (credit_distribution rated_self rated_df).1.2 "rating"
    = ["S&P Rating"; "Fitch Rating"; "Composite Rating"]
  ∧ dict_totals
      (rating_distributions rated_self
         (maturity_buckets plain_datetime rated_self 0
            (credit_distribution rated_self rated_df).1.2).1.2).1.1
    = Ok [("S&P Rating", pd.Fin (Q2Qc 100)); ("Fitch Rating", pd.Fin (Q2Qc 100))].
Proof.
  cbv zeta.
  destruct (init_body_fields numeric_of l portfolio d0) as (_ & _ & Hr & Hs & Hi & Hc).
  pose proof (init_resolved numeric_of l portfolio d0) as Hres.
  set (self := (init_body numeric_of l portfolio d0).1.1) in *.
  set (d := (init_body numeric_of l portfolio d0).1.2) in *.
  do 4 (split; [done |]).
  split; [| by_compute].
  pose proof (after_resolved datetime_of self qs d Hres) as Hres'.
  pose proof (omv_rating_distributions self _ Hres') as Hk.
  pose proof (rating_distributions_keys self (after datetime_of self qs d).1) as Hkeys.
  destruct (rating_distributions self (after datetime_of self qs d).1).1.1
    as [r | key |]; [| | done].
  - rewrite <- Hr. by apply Hkeys.
  - destruct (Hk key eq_refl) as [-> Hno]. split; [done |].
    by rewrite <- (after_market_value datetime_of self qs d).
Qed.

End Degradation.


(** ** The order of the results *)

Lemma float_geb_total (x y : pd.float64) :
  pd.float_geb x y = true ∨ pd.float_geb y x = true.
Proof.
  destruct x as [a|[]|], y as [b|[]|]; simpl; auto.
  destruct (Qc_le_total a b); [right | left]; by apply bool_decide_eq_true_2.
Qed.

Lemma float_geb_trans (x y z : pd.float64) :
  pd.float_geb x y = true → pd.float_geb y z = true → pd.float_geb x z = true.
Proof.
  destruct x as [a|[]|], y as [b|[]|], z as [c|[]|]; simpl; try done.
  intros H1%bool_decide_eq_true_1 H2%bool_decide_eq_true_1.
  apply bool_decide_eq_true_2. by apply Qcle_trans with b.
Qed.

Lemma sort_by_value_sorted (its : list (pd.label * pd.float64)) :
  StronglySorted (fun p q => pd.float_geb p.2 q.2 = true)
    (pd.sort_by (fun p q => pd.float_geb p.2 q.2) its).
Proof.
  unfold pd.sort_by.
  apply (@StronglySorted_merge_sort _
           (pd.before (fun p q : pd.label * pd.float64 => pd.float_geb p.2 q.2)) _).
  - intros x y z. unfold pd.before. apply float_geb_trans.
  - intros x y. unfold pd.before. apply float_geb_total.
Qed.

Lemma StronglySorted_fmap_inv {A B} (f : A → B) (R : relation B) (R' : relation A)
    (l : list A) :
  (∀ x y, R (f x) (f y) → R' x y) →
  StronglySorted R (f <$> l) → StronglySorted R' l.
Proof.
  intros HR. induction l as [|a l IH]; [constructor |].
  rewrite fmap_cons. intros H. apply StronglySorted_inv in H as [Hs Hall].
  constructor; [by apply IH |].
  rewrite Forall_fmap in Hall. eapply Forall_impl; [exact Hall |].
  intros y. apply HR.
Qed.

(** The entries of a list of finite values, sorted largest first, as
    numbers. *)
Lemma sorted_finite (its : list (pd.label * pd.float64)) :
  StronglySorted (fun p q => pd.float_geb p.2 q.2 = true) its →
  Forall is_finite its.*2 →
  ∃ qs : list (pd.label * Qc),
    its = (fun p : pd.label * Qc => (p.1, pd.Fin p.2)) <$> qs
    ∧ StronglySorted (fun p q : pd.label * Qc => q.2 <= p.2) qs.
Proof.
  induction its as [|[l v] its IH]; intros Hs Hf.
  - exists []. split; [done | constructor].
  - apply StronglySorted_inv in Hs as [Hs Hall].
    rewrite fmap_cons, Forall_cons in Hf. destruct Hf as [Hv Hf].
    destruct (IH Hs Hf) as (qs & -> & Hq). simpl in Hv.
    destruct v as [a| |]; try done.
    exists ((l, a) :: qs). split; [done |]. constructor; [done |].
    rewrite Forall_fmap in Hall. eapply Forall_impl; [exact Hall |].
    intros [l' b]. simpl. intros Hb. by apply bool_decide_eq_true_1 in Hb.
Qed.

(** X1. [top_holdings(n)] on an engine with an issuer column returns the
    [n] issuers of largest total market value, largest first: at most [n]
    of the issuer totals, no total left out exceeding one returned, and
    nothing at all for [n <= 0]. *)
Theorem top_holdings_largest (self : PortfolioAnalyzer) (n : Z) (d : pd.DataFrame)
    (col : string) (key : pd.column) (mv : list (option Qc)) :
  issuer_col self = Some col → col ≠ EmptyString →
  pd.getitem col d = Some key → market_value d = Ok mv →
  ∃ tops rest : list (pd.label * Qc),
    top_holdings self n d
    = (Ok (pd.mkSeries (Some "Market Value")
             ((fun p : pd.label * Qc => (p.1, pd.Fin p.2)) <$> tops)), d, [])
    ∧ tops ++ rest ≡ₚ pd.group_sums key mv
    ∧ length tops = (Z.to_nat n `min` distinct_values key)%nat
    ∧ StronglySorted (fun p q : pd.label * Qc => q.2 <= p.2) tops
    ∧ ∀ p q, p ∈ tops → q ∈ rest → q.2 <= p.2.
Proof.
  intros Hi Hne Hk Hmv. unfold top_holdings. rewrite Hi.
  assert (Py.truthy (Some col) = true) as ->.
  { simpl. by rewrite bool_decide_eq_false_2. }
  unfold bind, read, lift, groupby_sum. rewrite Hk, Hmv. cbn [obind].
  set (f := fun p : pd.label * Qc => (p.1, pd.Fin p.2)).
  set (sums := pd.group_sums key mv).
  unfold pd.nlargest. case_bool_decide as Hn.
  - exists [], sums. cbn [pd.name app]. split; [done |]. split; [done |].
    split; [by replace (Z.to_nat n) with 0%nat by lia |].
    split; [constructor |]. intros p q Hp. by apply elem_of_nil in Hp.
  - unfold pd.head, pd.sort_values_desc. cbn [pd.name pd.items].
    rewrite bool_decide_eq_true_2 by lia.
    pose proof (sort_by_value_sorted (f <$> sums)) as Hs.
    pose proof (sort_by_perm (fun p q : pd.label * pd.float64 => pd.float_geb p.2 q.2)
                  (f <$> sums)) as Hp.
    apply Permutation_map_inv in Hp as (L & HL & Hperm).
    change (map f L) with (f <$> L) in HL. rewrite HL in Hs |- *.
    assert (StronglySorted (fun p q : pd.label * Qc => q.2 <= p.2) L) as Hs'.
    { eapply StronglySorted_fmap_inv; [| exact Hs]. intros x y. simpl.
      apply bool_decide_eq_true_1. }
    rewrite <- fmap_take.
    exists (take (Z.to_nat n) L), (drop (Z.to_nat n) L).
    rewrite take_drop. split; [done |]. split; [by symmetry |].
    rewrite <- (take_drop (Z.to_nat n) L) in Hs'.
    apply StronglySorted_app in Hs' as (Hcross & Ht & _).
    split; [| split; [exact Ht | exact Hcross]].
    rewrite length_take. f_equal. rewrite <- Hperm. apply length_group_sums.
Qed.

Lemma top_holdings_largest_witness :
  issuer_col holdings_self = Some "Issuer Name"
  ∧ ∃ tops rest : list (pd.label * Qc),
      top_holdings holdings_self 2 holdings_df
      = (Ok (pd.mkSeries (Some "Market Value")
               ((fun p : pd.label * Qc => (p.1, pd.Fin p.2)) <$> tops)), holdings_df, [])
      ∧ tops ++ rest
        ≡ₚ pd.group_sums
             (pd.Object [text "Acme"; text "Bolt"; text "Acme"; text "Core"])
             [num 100 1; num 300 1; num 50 1; num 50 1]
      ∧ length tops
        = (Z.to_nat 2 `min`
           distinct_values (pd.Object [text "Acme"; text "Bolt"; text "Acme"; text "Core"]))%nat
      ∧ StronglySorted (fun p q : pd.label * Qc => q.2 <= p.2) tops
      ∧ ∀ p q, p ∈ tops → q ∈ rest → q.2 <= p.2.
Proof.
  split; [by_compute |].
  apply (top_holdings_largest holdings_self 2 holdings_df "Issuer Name");
    [by_compute | done | by_compute | by_compute].
Defined.

Lemma StronglySorted_lookup {A} (R : relation A) (l : list A) (i j : nat) (x y : A) :
  StronglySorted R l → (i < j)%nat → l !! i = Some x → l !! j = Some y → R x y.
Proof.
  intros Hs. revert i j. induction Hs as [|a l Hs IH Hall]; intros i j Hij Hi Hj.
  - done.
  - destruct j as [|j]; [lia |]. destruct i as [|i].
    + injection Hi as <-. rewrite Forall_forall in Hall. apply Hall.
      by eapply list_elem_of_lookup_2.
    + apply (IH i j); [lia | done | done].
Qed.

Lemma sorted_by_value_sorted (d : pd.DataFrame) (col : string) (s : pd.Series) :
  (exp ←! distribution d col; Ok (pd.sort_values_desc exp)) = Ok s →
  StronglySorted (fun p q => pd.float_geb p.2 q.2 = true) (pd.items s).
Proof.
  destruct (distribution d col) as [dist| |]; try done. simpl.
  intros [= <-]. apply sort_by_value_sorted.
Qed.

Lemma sector_exposure_cases (self : PortfolioAnalyzer) (d : pd.DataFrame) :
  (∃ col, sector_col self = Some col ∧ col ≠ EmptyString
          ∧ sector_exposure self d
            = ((exp ←! distribution d col; Ok (pd.sort_values_desc exp)), d, []))
  ∨ sector_exposure self d = (Ok pd.empty, d, []).
Proof.
  destruct (sector_col self) as [col|] eqn:E.
  - destruct (decide (col = EmptyString)) as [->|Hne].
    + right. apply sector_exposure_none. by rewrite E.
    + left. exists col. split; [done |]. split; [done |]. by apply sector_exposure_eq.
  - right. apply sector_exposure_none. by rewrite E.
Qed.

Lemma currency_exposure_cases (self : PortfolioAnalyzer) (d : pd.DataFrame) :
  (∃ col, currency_col self = Some col ∧ col ≠ EmptyString
          ∧ currency_exposure self d
            = ((exp ←! distribution d col; Ok (pd.sort_values_desc exp)), d, []))
  ∨ currency_exposure self d = (Ok (pd.empty_named "No Currency Column Found"), d, []).
Proof.
  destruct (currency_col self) as [col|] eqn:E.
  - destruct (decide (col = EmptyString)) as [->|Hne].
    + right. apply currency_exposure_none. by rewrite E.
    + left. exists col. split; [done |]. split; [done |]. by apply currency_exposure_eq.
  - right. apply currency_exposure_none. by rewrite E.
Qed.

(** X2. The sector and the currency exposure list their groups by
    falling percentage: of two entries with a finite percentage, the
    earlier one has the larger or an equal one, and an entry that is not a
    number (NaN) is followed by such entries only. *)
Theorem exposures_largest_first (self : PortfolioAnalyzer) (d : pd.DataFrame)
    (s : pd.Series) (i j : nat) (p q : pd.label * pd.float64) :
  (sector_exposure self d).1.1 = Ok s ∨ (currency_exposure self d).1.1 = Ok s →
  (i < j)%nat → pd.items s !! i = Some p → pd.items s !! j = Some q →
  (∀ a b, p.2 = pd.Fin a → q.2 = pd.Fin b → b <= a)
  ∧ (p.2 = pd.NaN → q.2 = pd.NaN).
Proof.
  intros Hs Hij Hi Hj.
  assert (StronglySorted (fun p q => pd.float_geb p.2 q.2 = true) (pd.items s)) as Hsorted.
  { destruct Hs as [Hs | Hs].
    - destruct (sector_exposure_cases self d) as [(col & _ & _ & E) | E].
      + rewrite E in Hs. cbn [fst] in Hs. by eapply sorted_by_value_sorted.
      + rewrite E in Hs. cbn [fst] in Hs. injection Hs as <-. constructor.
    - destruct (currency_exposure_cases self d) as [(col & _ & _ & E) | E].
      + rewrite E in Hs. cbn [fst] in Hs. by eapply sorted_by_value_sorted.
      + rewrite E in Hs. cbn [fst] in Hs. injection Hs as <-. constructor. }
  pose proof (StronglySorted_lookup _ _ i j p q Hsorted Hij Hi Hj) as H.
  simpl in H. split.
  - intros a b Ha Hb. rewrite Ha, Hb in H. by apply bool_decide_eq_true_1 in H.
  - intros Hp. rewrite Hp in H. by destruct (q.2) as [b|[]|].
Qed.

Lemma exposures_largest_first_witness :
  (currency_exposure holdings_self holdings_df).1.1
  = Ok (pd.mkSeries (Some "Market Value")
          [ (pd.Lab (pd.PStr "EUR"), pd.Fin (Q2Qc 60));
            (pd.Lab (pd.PStr "USD"), pd.Fin (Q2Qc 40)) ])
  ∧ (∀ a b, pd.Fin (Q2Qc 60) = pd.Fin a → pd.Fin (Q2Qc 40) = pd.Fin b → b <= a)
  ∧ (pd.Fin (Q2Qc 60) = pd.NaN → pd.Fin (Q2Qc 40) = pd.NaN).
Proof.
  split; [by_compute |].
  apply (exposures_largest_first holdings_self holdings_df
           (pd.mkSeries (Some "Market Value")
              [ (pd.Lab (pd.PStr "EUR"), pd.Fin (Q2Qc 60));
                (pd.Lab (pd.PStr "USD"), pd.Fin (Q2Qc 40)) ])
           0 1 (pd.Lab (pd.PStr "EUR"), pd.Fin (Q2Qc 60))
               (pd.Lab (pd.PStr "USD"), pd.Fin (Q2Qc 40)));
    [right; by_compute | lia | done | done].
Defined.

(** ** The range of the percentages *)

Lemma sum_nonneg (l : list (option Qc)) :
  (∀ x, Some x ∈ l → 0 <= x) → 0 <= pd.sum l.
Proof.
  induction l as [|[x|] l IH]; intros H; simpl.
  - apply Qcle_refl.
  - apply Qcplus_nonneg_nonneg; [apply H; left | apply IH; intros y Hy; apply H; by right].
  - rewrite Qcplus_0_l. apply IH. intros y Hy. apply H. by right.
Qed.

Lemma rows_of_weights {K} `{EqDecision K} (keys : list (option K))
    (weights : list (option Qc)) (k : K) (x : option Qc) :
  x ∈ pd.rows_of keys weights k → x ∈ weights.
Proof.
  unfold pd.rows_of. intros H. apply list_elem_of_fmap in H as ([k' x'] & -> & H).
  apply list_elem_of_filter in H as [_ H]. by apply elem_of_zip_r in H.
Qed.

Lemma group_sums_nonneg (key : pd.column) (weights : list (option Qc)) :
  (∀ x, Some x ∈ weights → 0 <= x) →
  Forall (fun g => 0 <= g) (pd.group_sums key weights).*2.
Proof.
  intros H. rewrite Forall_fmap, Forall_forall. intros [l g] Hin. simpl.
  assert (∀ {K} `{EqDecision K} (keys : list (option K)) (k : K),
            0 <= pd.sum (pd.rows_of keys weights k)) as Hrows.
  { intros K ? keys k. apply sum_nonneg. intros x Hx. apply H.
    by eapply rows_of_weights. }
  destruct key as [xs|xs|xs|cats codes]; simpl in Hin.
  1-3: apply list_elem_of_fmap in Hin as (k & [= -> ->] & _); apply Hrows.
  apply elem_of_lookup_imap in Hin as (i & c & [= -> ->] & _). apply Hrows.
Qed.

Lemma elem_le_sum (qs : list Qc) (q : Qc) :
  Forall (fun g => 0 <= g) qs → q ∈ qs → q <= foldr Qcplus 0 qs.
Proof.
  induction 1 as [|g qs Hg Hall IH]; intros Hin; [by apply elem_of_nil in Hin |].
  assert (0 <= foldr Qcplus 0 qs) as Hsum.
  { clear IH Hin. induction Hall as [|h qs Hh Hall IH]; simpl; [apply Qcle_refl |].
    by apply Qcplus_nonneg_nonneg. }
  simpl. apply elem_of_cons in Hin as [-> | Hin].
  - rewrite <- (Qcplus_0_r g) at 1. by apply Qcplus_le_compat; [apply Qcle_refl |].
  - rewrite <- (Qcplus_0_l q). apply Qcplus_le_compat; [done | by apply IH].
Qed.

Lemma percentage_range (g T : Qc) :
  0 <= g → g <= T → T ≠ 0 →
  0 <= g / T * Q2Qc 100 ∧ g / T * Q2Qc 100 <= Q2Qc 100.
Proof.
  intros Hg HgT HT.
  assert (0 < T) as Hpos.
  { destruct (Qcle_lt_or_eq 0 T) as [H | H]; [by apply Qcle_trans with g | done |].
    by symmetry in H. }
  assert (0 <= / T) as Hinv by (apply Qclt_le_weak; by apply Qcinv_pos).
  assert (0 <= Q2Qc 100) as H100 by done.
  unfold Qcdiv. split.
  - apply Qcmult_nonneg_nonneg; [by apply Qcmult_nonneg_nonneg | done].
  - replace (Q2Qc 100) with (T * / T * Q2Qc 100) at 2
      by (rewrite Qcmult_inv_r by done; apply Qcmult_1_l).
    apply Qcmult_le_mono_nonneg_r; [done |]. by apply Qcmult_le_mono_nonneg_r.
Qed.

(** The percentages of a distribution over non-negative market values. *)
Lemma distribution_range (d : pd.DataFrame) (col : string) (s : pd.Series)
    (mv : list (option Qc)) (item : pd.label * pd.float64) :
  distribution d col = Ok s → market_value d = Ok mv →
  (∀ x, Some x ∈ mv → 0 <= x) →
  grouped_market_value d col ≠ 0 →
  item ∈ pd.items s →
  is_percentage item.2.
Proof.
  intros Hd Hmv Hpos Hnz Hin.
  apply distribution_inv in Hd as (key & mv' & Hk & Hmv' & ->).
  assert (mv' = mv) as -> by congruence.
  unfold grouped_market_value in Hnz. rewrite Hk, Hmv in Hnz.
  rewrite <- group_sums_total in Hnz.
  simpl in Hin. unfold pd.percent in Hin.
  apply list_elem_of_fmap in Hin as ([l g] & -> & Hin). simpl.
  rewrite bool_decide_eq_false_2 by done.
  eexists. split; [done |]. apply percentage_range; [| | done].
  - pose proof (group_sums_nonneg key mv Hpos) as Hall.
    rewrite Forall_forall in Hall. apply Hall.
    apply list_elem_of_fmap. by exists (l, g).
  - apply elem_le_sum; [by apply group_sums_nonneg |].
    apply list_elem_of_fmap. by exists (l, g).
Qed.

Lemma sorted_by_index_range (d : pd.DataFrame) (col : string) (s : pd.Series)
    (mv : list (option Qc)) (item : pd.label * pd.float64) :
  (dist ←! distribution d col; pd.sort_index dist) = Ok s →
  market_value d = Ok mv → (∀ x, Some x ∈ mv → 0 <= x) →
  grouped_market_value d col ≠ 0 →
  item ∈ pd.items s → is_percentage item.2.
Proof.
  destruct (distribution d col) as [dist| |] eqn:E; try done. simpl.
  intros Hs Hmv Hpos Hnz Hin. apply sort_index_inv in Hs as [_ Hp].
  rewrite Hp in Hin. by eapply distribution_range.
Qed.

Lemma sorted_by_value_range (d : pd.DataFrame) (col : string) (s : pd.Series)
    (mv : list (option Qc)) (item : pd.label * pd.float64) :
  (exp ←! distribution d col; Ok (pd.sort_values_desc exp)) = Ok s →
  market_value d = Ok mv → (∀ x, Some x ∈ mv → 0 <= x) →
  grouped_market_value d col ≠ 0 →
  item ∈ pd.items s → is_percentage item.2.
Proof.
  destruct (distribution d col) as [dist| |] eqn:E; try done. simpl.
  intros [= <-] Hmv Hpos Hnz Hin. rewrite sort_values_desc_perm in Hin.
  by eapply distribution_range.
Qed.

(** X3. When no holding has a negative market value, every percentage a
    distribution method returns is a number from 0 to 100, provided the
    market value of the grouped rows is not zero. *)
Theorem percentages_between_0_and_100 (datetime_of : pd.pyobj → option Z)
    (self : PortfolioAnalyzer) (d : pd.DataFrame) (mv : list (option Qc))
    (Hmv : market_value d = Ok mv) (Hpos : ∀ x, Some x ∈ mv → 0 <= x) :
  (∀ col s item, sector_col self = Some col → col ≠ EmptyString →
     (sector_exposure self d).1.1 = Ok s →
     grouped_market_value d col ≠ 0 → item ∈ pd.items s → is_percentage item.2)
  ∧ (∀ col s item, currency_col self = Some col → col ≠ EmptyString →
       (currency_exposure self d).1.1 = Ok s →
       grouped_market_value d col ≠ 0 → item ∈ pd.items s → is_percentage item.2)
  ∧ (∀ r col s item, (rating_distributions self d).1.1 = Ok r → (col, s) ∈ r →
       grouped_market_value d col ≠ 0 → item ∈ pd.items s → is_percentage item.2)
  ∧ (∀ top_n r col s item, (categorical_breakdowns self top_n d).1.1 = Ok r →
       (col, s) ∈ r →
       grouped_market_value d col ≠ 0 → item ∈ pd.items s → is_percentage item.2)
  ∧ (∀ s d' w item, credit_distribution self d = (Ok s, d', w) →
       rating_cols self ≠ [] →
       grouped_market_value d' "Composite Rating" ≠ 0 →
       item ∈ pd.items s → is_percentage item.2)
  ∧ (∀ today s d' w item, maturity_buckets datetime_of self today d = (Ok s, d', w) →
       "Maturity" ∈ pd.columns d →
       grouped_market_value d' "Maturity Bucket" ≠ 0 →
       item ∈ pd.items s → is_percentage item.2).
Proof.
  repeat split.
  - intros col s item Hc Hne Hs Hnz Hin.
    rewrite (sector_exposure_eq self d col Hc Hne) in Hs. cbn [fst] in Hs.
    by eapply sorted_by_value_range.
  - intros col s item Hc Hne Hs Hnz Hin.
    rewrite (currency_exposure_eq self d col Hc Hne) in Hs. cbn [fst] in Hs.
    by eapply sorted_by_value_range.
  - intros r col s item Hr Hin Hnz Hitem.
    eapply sorted_by_index_range; [| exact Hmv | done | exact Hnz | exact Hitem].
    by eapply rating_distributions_entries.
  - intros top_n r col s item Hr Hin Hnz Hitem.
    destruct (categorical_breakdowns_entries self top_n d r col s Hr Hin)
      as (dist & Hd & ->).
    apply head_items in Hitem. rewrite sort_values_desc_perm in Hitem.
    by eapply distribution_range.
  - intros s d' w item Hc Hne Hnz Hitem.
    rewrite (credit_distribution_eq self d Hne) in Hc. cbv zeta in Hc.
    injection Hc as Hs <- _.
    eapply sorted_by_index_range; [exact Hs | | exact Hpos | exact Hnz | exact Hitem].
    by rewrite market_value_setitem.
  - intros today s d' w item Hm Hin Hnz Hitem.
    apply getitem_is_Some in Hin as [maturity Hmat].
    rewrite (maturity_buckets_eq datetime_of self today d maturity Hmat) in Hm.
    cbv zeta in Hm. injection Hm as Hs <- _.
    eapply sorted_by_index_range; [exact Hs | | exact Hpos | exact Hnz | exact Hitem].
    by rewrite !market_value_setitem.
Qed.

Lemma percentages_between_0_and_100_witness :
  market_value rated_df = Ok [num 100 1; num 300 1; num 50 1]
  ∧ raised (sector_exposure rated_self rated_df).1.1 = false
  ∧ (∀ s item, (sector_exposure rated_self rated_df).1.1 = Ok s →
       item ∈ pd.items s → is_percentage item.2)
  ∧ raised (maturity_buckets plain_datetime rated_self 0 rated_df).1.1 = false
  ∧ (∀ s item, (maturity_buckets plain_datetime rated_self 0 rated_df).1.1 = Ok s →
       item ∈ pd.items s → is_percentage item.2).
Proof.
  assert (∀ x, Some x ∈ [num 100 1; num 300 1; num 50 1] → 0 <= x) as Hpos.
  { intros x Hx. unfold num in Hx.
    repeat (apply elem_of_cons in Hx as [[= ->] | Hx]; [done |]).
    by apply elem_of_nil in Hx. }
  destruct (percentages_between_0_and_100 plain_datetime rated_self rated_df
              [num 100 1; num 300 1; num 50 1] ltac:(by_compute) Hpos)
    as (Hsector & _ & _ & _ & _ & Hmaturity).
  split; [by_compute |]. split; [by_compute |]. split.
  { intros s item Hs Hin.
    apply (Hsector "Sector" s item); [by_compute | done | done | by_compute | done]. }
  split; [by_compute |].
  intros s item Hs Hin.
  apply (Hmaturity 0%Z s (maturity_buckets plain_datetime rated_self 0 rated_df).1.2
           (maturity_buckets plain_datetime rated_self 0 rated_df).2 item);
    [| by_compute | by_compute | done].
  rewrite <- Hs.
  by destruct (maturity_buckets plain_datetime rated_self 0 rated_df) as [[r d'] w].
Defined.

(** ** Weighted averages *)

Lemma weighted_average_float (d : pd.DataFrame) (col : string)
    (xs mv : list (option Qc)) :
  pd.getitem col d = Some (pd.Float64 xs) → market_value d = Ok mv →
  weighted_average d col = Ok (pd.fdiv (pd.Fin (weighted_sum xs mv)) (pd.Fin (pd.sum mv))).
Proof.
  intros Hc Hmv. unfold weighted_average. rewrite Hc, Hmv. simpl.
  by rewrite sum_mul_float.
Qed.


Lemma quotient_bounds (S W lo hi : Qc) :
  0 < W → lo * W <= S → S <= hi * W → lo <= S / W ∧ S / W <= hi.
Proof.
  intros HW Hlo Hhi.
  assert (W ≠ 0) as Hnz by (intros ->; by apply Qclt_not_eq in HW).
  assert (S / W * W = S) as HS by (by field).
  split; apply (Qcmult_le_mono_pos_r _ _ W HW); by rewrite HS.
Qed.

Lemma duration_column_named (cols : list string) (col : string) :
  List.find (fun c => Py.contains "duration" (Py.lower c)) cols = Some col →
  col ≠ EmptyString ∧ col ≠ "Market Value".
Proof.
  intros H. apply find_some in H as [_ H]. split; intros ->; by vm_compute in H.
Qed.

Lemma duration_eq (self : PortfolioAnalyzer) (d : pd.DataFrame) (col : string) :
  List.find (fun c => Py.contains "duration" (Py.lower c)) (pd.columns d) = Some col →
  duration self d
  = (match weighted_average d col with
     | Ok x => Ok (mkDuration (name self) (Some x))
     | KeyError key => KeyError key
     | TypeError => TypeError
     end, d, []).
Proof.
  intros H. destruct (duration_column_named _ _ H) as [Hne _].
  unfold duration, bind, read. rewrite H.
  assert (Py.truthy (Some col) = true) as ->.
  { simpl. by rewrite bool_decide_eq_false_2. }
  unfold lift, ret. by destruct (weighted_average d col).
Qed.



Lemma weighted_sum_fillna0 (xs mv : list (option Qc)) :
  weighted_sum (fillna0 xs) mv = weighted_sum xs mv.
Proof.
  revert mv. induction xs as [|x xs IH]; intros mv; [done |].
  unfold fillna0. rewrite fmap_cons. fold (fillna0 xs).
  destruct mv as [|m mv]; [by destruct x |].
  destruct x as [a|], m as [b|]; simpl; rewrite IH; try done.
  by rewrite Qcmult_0_l, Qcplus_0_l.
Qed.

(** X5. In the weighted duration a holding whose duration is missing
    counts as a holding of duration zero: it adds nothing to the sum of the
    products but its market value stays in the divisor, so filling the
    missing durations with 0 leaves the result as it is. *)
Theorem missing_duration_counts_as_zero (self : PortfolioAnalyzer) (d : pd.DataFrame)
    (col : string) (xs : list (option Qc)) :
  List.find (fun c => Py.contains "duration" (Py.lower c)) (pd.columns d) = Some col →
  pd.getitem col d = Some (pd.Float64 xs) →
  (duration self (pd.setitem col (pd.Float64 (fillna0 xs)) d)).1.1
  = (duration self d).1.1.
Proof.
  intros Hfind Hcol. destruct (duration_column_named _ _ Hfind) as [_ Hne].
  assert (pd.columns (pd.setitem col (pd.Float64 (fillna0 xs)) d) = pd.columns d) as Hcols.
  { rewrite columns_setitem, bool_decide_eq_true_2; [done |].
    by eapply getitem_Some_elem. }
  rewrite (duration_eq self d col Hfind).
  rewrite (duration_eq self _ col) by (by rewrite Hcols).
  cbn [fst]. destruct (market_value d) as [mv| |] eqn:Emv.
  - rewrite (weighted_average_float d col xs mv Hcol Emv).
    rewrite (weighted_average_float _ col (fillna0 xs) mv).
    + by rewrite weighted_sum_fillna0.
    + apply getitem_setitem_eq.
    + by rewrite market_value_setitem.
  - unfold weighted_average. rewrite getitem_setitem_eq, Hcol.
    rewrite market_value_setitem by done. by rewrite Emv.
  - unfold weighted_average. rewrite getitem_setitem_eq, Hcol.
    rewrite market_value_setitem by done. by rewrite Emv.
Qed.

Lemma missing_duration_counts_as_zero_witness :
  (duration gaps_self gaps_df).1.1 = Ok (mkDuration "Gaps" (Some (pd.Fin (Q2Qc 2))))
  ∧ (duration gaps_self
       (pd.setitem "Duration" (pd.Float64 (fillna0 [num 4 1; None])) gaps_df)).1.1
    = (duration gaps_self gaps_df).1.1.
Proof.
  split; [by_compute |].
  apply (missing_duration_counts_as_zero gaps_self gaps_df "Duration" [num 4 1; None]);
    by_compute.
Defined.



(** ** Maturity buckets: the shape of the result *)

Lemma sort_index_buckets (n : option string) (f : nat → string → pd.float64) :
  pd.sort_index (pd.mkSeries n (imap (fun i c => (pd.Cat i c, f i c)) labels))
  = Ok (pd.mkSeries n (imap (fun i c => (pd.Cat i c, f i c)) labels)).
Proof. reflexivity. Qed.

Section FiveBuckets.
Variable datetime_of : pd.pyobj → option Z.

(** X7. With a maturity and a market value column, [maturity_buckets]
    does not fail and returns the five buckets in the order of their
    labels, the empty ones too; each carries the share of its rows in the
    market value of the rows that got a bucket. *)
Theorem maturity_buckets_lists_all_five (self : PortfolioAnalyzer) (today : Z)
    (d : pd.DataFrame) (maturity : pd.column) (mv : list (option Qc)) :
  pd.getitem "Maturity" d = Some maturity → market_value d = Ok mv →
  (maturity_buckets datetime_of self today d).1.1
  = Ok (pd.mkSeries (Some "Market Value")
          (imap (fun i c =>
                   (pd.Cat i c,
                    pd.fmul (pd.fdiv
                               (pd.Fin (pd.sum (pd.rows_of
                                  (bucket_codes datetime_of today maturity) mv i)))
                               (pd.Fin (pd.sum (bucketed
                                  (bucket_codes datetime_of today maturity) mv))))
                            (pd.Fin (Q2Qc 100))))
                labels)).
Proof.
  intros Hm Hmv. rewrite (maturity_buckets_eq datetime_of self today d maturity Hm).
  cbv zeta. cbn [fst].
  unfold distribution, groupby_sum. rewrite getitem_setitem_eq.
  rewrite !market_value_setitem by done. rewrite Hmv. cbn [obind].
  unfold pd.percent. rewrite group_sums_total.
  rewrite <- list_fmap_compose.
  change (pd.cut bins ∘ (fun t => years (pd.days today t)) <$> pd.to_datetime datetime_of maturity)
    with (bucket_codes datetime_of today maturity).
  rewrite (kept_bucketed datetime_of today maturity mv).
  unfold pd.group_sums. rewrite fmap_imap.
  exact (sort_index_buckets (Some "Market Value")
           (fun i c =>
              pd.fmul (pd.fdiv
                         (pd.Fin (pd.sum (pd.rows_of
                            (bucket_codes datetime_of today maturity) mv i)))
                         (pd.Fin (pd.sum (bucketed
                            (bucket_codes datetime_of today maturity) mv))))
                      (pd.Fin (Q2Qc 100)))).
Qed.

End FiveBuckets.

Lemma maturity_buckets_lists_all_five_witness :
  market_value rated_df = Ok [num 100 1; num 300 1; num 50 1]
  ∧ (maturity_buckets plain_datetime rated_self 0 rated_df).1.1
    = Ok (pd.mkSeries (Some "Market Value")
            (imap (fun i c =>
                     (pd.Cat i c,
                      pd.fmul
                        (pd.fdiv
                           (pd.Fin (pd.sum (pd.rows_of
                              (bucket_codes plain_datetime 0
                                 (pd.Datetime64 [Some (1460 * pd.day_ns)%Z; Some (-5)%Z;
                                                 Some (4000 * pd.day_ns)%Z]))
                              [num 100 1; num 300 1; num 50 1] i)))
                           (pd.Fin (pd.sum (bucketed
                              (bucket_codes plain_datetime 0
                                 (pd.Datetime64 [Some (1460 * pd.day_ns)%Z; Some (-5)%Z;
                                                 Some (4000 * pd.day_ns)%Z]))
                              [num 100 1; num 300 1; num 50 1]))))
                        (pd.Fin (Q2Qc 100))))
                  labels)).
Proof.
  split; [by_compute |].
  apply (maturity_buckets_lists_all_five plain_datetime rated_self 0 rated_df); by_compute.
Defined.

(** ** What a failing query leaves behind *)


Section Failure.
Variable datetime_of : pd.pyobj → option Z.


End Failure.


(** ** Maturity buckets in whole days *)

Lemma years_lt (n k : Z) :
  Q2Qc (inject_Z n) / Q2Qc 365 < Q2Qc (inject_Z k) ↔ (n < 365 * k)%Z.
Proof.
  unfold Qclt, Qcdiv, Qcmult, Qcinv. simpl. rewrite !Qred_correct.
  unfold Qlt, Qmult, Qinv. simpl. lia.
Qed.

Lemma years_le (n k : Z) :
  Q2Qc (inject_Z k) <= Q2Qc (inject_Z n) / Q2Qc 365 ↔ (365 * k ≤ n)%Z.
Proof.
  unfold Qcle, Qcdiv, Qcmult, Qcinv. simpl. rewrite !Qred_correct.
  unfold Qle, Qmult, Qinv. simpl. lia.
Qed.

Lemma cut_of_days (n : Z) :
  pd.cut bins (years (Some n)) = bucket_of_days n.
Proof.
  change (years (Some n)) with (Some (Q2Qc (inject_Z n) / Q2Qc 365)).
  destruct (cut_boundaries (Q2Qc (inject_Z n) / Q2Qc 365))
    as (Hneg & H0 & H1 & H2 & H3 & H4 & Hbig).
  pose proof (years_lt n 0) as L0. pose proof (years_le n 0) as G0.
  pose proof (years_lt n 3) as L3. pose proof (years_le n 3) as G3.
  pose proof (years_lt n 5) as L5. pose proof (years_le n 5) as G5.
  pose proof (years_lt n 10) as L10. pose proof (years_le n 10) as G10.
  pose proof (years_lt n 30) as L30. pose proof (years_le n 30) as G30.
  pose proof (years_lt n 100) as L100. pose proof (years_le n 100) as G100.
  unfold bucket_of_days.
  repeat case_decide.
  - apply Hneg, L0. lia.
  - apply H0; [apply G0 | apply L3]; lia.
  - apply H1; [apply G3 | apply L5]; lia.
  - apply H2; [apply G5 | apply L10]; lia.
  - apply H3; [apply G10 | apply L30]; lia.
  - apply H4; [apply G30 | apply L100]; lia.
  - apply Hbig, G100. lia.
Qed.

Lemma bucket_of_days_mono (n n' : Z) (i i' : nat) :
  (n ≤ n')%Z → bucket_of_days n = Some i → bucket_of_days n' = Some i' → (i ≤ i')%nat.
Proof.
  unfold bucket_of_days. intros Hn.
  repeat case_decide; intros [= <-]; repeat case_decide; intros [= <-]; lia.
Qed.

(** X9. The bucket of a holding depends on its maturity through the whole
    days from the evaluation date, rounded down, a year being 365 days:
    the buckets start at 0, 1095, 1825, 3650 and 10950 days and the last
    one ends before 36500.  So a holding that matured before the evaluation
    date, be it by a nanosecond, gets no bucket, and of two holdings the
    one maturing later never gets the earlier bucket. *)
Theorem buckets_by_whole_days (today t : Z) :
  pd.cut bins (years (pd.days today (Some t)))
  = bucket_of_days ((t - today) `div` pd.day_ns)
  ∧ ((t < today)%Z → pd.cut bins (years (pd.days today (Some t))) = None)
  ∧ (∀ t' i i', (t ≤ t')%Z →
       pd.cut bins (years (pd.days today (Some t))) = Some i →
       pd.cut bins (years (pd.days today (Some t'))) = Some i' → (i ≤ i')%nat).
Proof.
  assert (∀ x, pd.cut bins (years (pd.days today (Some x)))
               = bucket_of_days ((x - today) `div` pd.day_ns)) as Hcut.
  { intros x. apply cut_of_days. }
  split; [apply Hcut |]. split.
  - intros Hlt. rewrite Hcut. unfold bucket_of_days.
    rewrite decide_True; [done |].
    apply Z.div_lt_upper_bound; [done | lia].
  - intros t' i i' Hle. rewrite !Hcut.
    apply bucket_of_days_mono. apply Z.div_le_mono; [done | lia].
Qed.

(** ** The breakdowns of the text columns *)

Lemma head_sorted (R : relation (pd.label * pd.float64)) (n : Z) (s : pd.Series) :
  StronglySorted R (pd.items s) → StronglySorted R (pd.items (pd.head n s)).
Proof.
  intros H. unfold pd.head. cbn [pd.items].
  case_bool_decide.
  - rewrite <- (take_drop (Z.to_nat n) (pd.items s)) in H.
    by apply StronglySorted_app_1_l in H.
  - rewrite <- (take_drop (length (pd.items s) - Z.to_nat (- n)) (pd.items s)) in H.
    by apply StronglySorted_app_1_l in H.
Qed.

Lemma head_length (n : Z) (s : pd.Series) :
  (0 ≤ n)%Z → (length (pd.items (pd.head n s)) ≤ Z.to_nat n)%nat.
Proof.
  intros H. unfold pd.head. cbn [pd.items]. rewrite bool_decide_eq_true_2 by done.
  rewrite length_take. lia.
Qed.

Lemma categorical_breakdowns_keys (self : PortfolioAnalyzer) (top_n : Z)
    (d : pd.DataFrame) (r : list (string * pd.Series)) :
  (categorical_breakdowns self top_n d).1.1 = Ok r →
  NoDup r.*1
  ∧ ∀ col, col ∈ r.*1 ↔
      col ∈ pd.object_columns d ∧ col ∉ ["Issuer Name"; "Description"].
Proof.
  unfold categorical_breakdowns. rewrite result_read, result_lift.
  match goal with |- context [foldl ?f _ _] => set (step := f) end.
  revert r. induction (pd.object_columns d) as [|c cols IH] using rev_ind; intros r H.
  - simpl in H. injection H as <-. split; [constructor |].
    intros col. split; [by intros ?%elem_of_nil | by intros [?%elem_of_nil _]].
  - rewrite foldl_app in H. simpl in H. unfold step at 1 in H.
    destruct (foldl step (Ok []) cols) as [acc| |]; try done.
    destruct (IH acc eq_refl) as [Hnd Hkeys]. simpl in H.
    case_bool_decide as Eskip.
    { injection H as <-. split; [done |]. intros col.
      rewrite Hkeys, elem_of_app, list_elem_of_singleton.
      split; [intros [? ?]; auto |]. intros [[? | ->] ?]; done. }
    destruct (distribution d c) as [dist| |]; try done. simpl in H.
    injection H as <-. rewrite dict_set_keys. case_bool_decide as E.
    + split; [done |]. intros col. rewrite Hkeys, elem_of_app, list_elem_of_singleton.
      split; [intros [? ?]; auto |]. intros [[? | ->] ?]; [done |].
      by apply Hkeys.
    + split.
      * apply NoDup_app. split; [done |]. split; [| apply NoDup_singleton].
        intros x Hx ->%list_elem_of_singleton. done.
      * intros col. rewrite !elem_of_app, !list_elem_of_singleton, Hkeys.
        split; [intros [[? ?] | ->]; auto |]. intros [[? | ->] ?]; auto.
Qed.

(** X10. [categorical_breakdowns(top_n)] has one entry for each text
    (object) column other than "Issuer Name" and "Description", and for no
    other column; with [top_n >= 0] an entry lists at most [top_n] groups,
    and it lists them by falling percentage. *)
Theorem categorical_breakdowns_shape (self : PortfolioAnalyzer) (top_n : Z)
    (d : pd.DataFrame) (r : list (string * pd.Series)) :
  (categorical_breakdowns self top_n d).1.1 = Ok r →
  NoDup r.*1
  ∧ (∀ col, col ∈ r.*1 ↔
       col ∈ pd.object_columns d ∧ col ≠ "Issuer Name" ∧ col ≠ "Description")
  ∧ (∀ col s, (col, s) ∈ r →
       ((0 ≤ top_n)%Z → (length (pd.items s) ≤ Z.to_nat top_n)%nat)
       ∧ StronglySorted (fun p q => pd.float_geb p.2 q.2 = true) (pd.items s)).
Proof.
  intros H. destruct (categorical_breakdowns_keys self top_n d r H) as [Hnd Hkeys].
  split; [done |]. split.
  - intros col. rewrite Hkeys. rewrite !not_elem_of_cons. split.
    + intros (? & ? & ? & _). done.
    + intros (? & ? & ?). repeat split; try done. apply not_elem_of_nil.
  - intros col s Hin.
    destruct (categorical_breakdowns_entries self top_n d r col s H Hin)
      as (dist & _ & ->).
    split; [apply head_length |]. apply head_sorted, sort_by_value_sorted.
Qed.

Lemma categorical_breakdowns_shape_witness :
  (categorical_breakdowns holdings_self 1 holdings_df).1.1
  = Ok [("Currency",
         pd.mkSeries (Some "Market Value") [(pd.Lab (pd.PStr "EUR"), pd.Fin (Q2Qc 60))])]
  ∧ (∀ col,
       col ∈ [("Currency",
               pd.mkSeries (Some "Market Value")
                 [(pd.Lab (pd.PStr "EUR"), pd.Fin (Q2Qc 60))])].*1 ↔
       col ∈ pd.object_columns holdings_df
       ∧ col ≠ "Issuer Name" ∧ col ≠ "Description").
Proof.
  split; [by_compute |].
  apply (categorical_breakdowns_shape holdings_self 1 holdings_df). by_compute.
Defined.

(** ** Queries that follow one another *)

Lemma object_columns_elem (d : pd.DataFrame) (c : string) :
  c ∈ pd.object_columns d ↔ ∃ xs, (c, pd.Object xs) ∈ d.
Proof.
  unfold pd.object_columns. rewrite list_elem_of_fmap. split.
  - intros ([n col] & -> & Hin). apply list_elem_of_In, filter_In in Hin as [Hin Ho].
    simpl in Ho. destruct col as [|xs| |]; try done. exists xs.
    by apply list_elem_of_In.
  - intros [xs Hin]. exists (c, pd.Object xs). split; [done |].
    apply list_elem_of_In, filter_In. split; [by apply list_elem_of_In | done].
Qed.

Lemma object_columns_columns (d : pd.DataFrame) (c : string) :
  c ∈ pd.object_columns d → c ∈ pd.columns d.
Proof.
  rewrite object_columns_elem. intros [xs Hin]. unfold pd.columns.
  apply list_elem_of_fmap. by exists (c, pd.Object xs).
Qed.

Lemma setitem_elem (n : string) (c : pd.column) (d : pd.DataFrame) :
  (n, c) ∈ pd.setitem n c d.
Proof.
  unfold pd.setitem. case_bool_decide as E.
  - unfold pd.columns in E. apply list_elem_of_fmap in E as ([n' c'] & -> & Hin).
    apply list_elem_of_fmap. exists (n', c'). split; [| done].
    simpl. by rewrite bool_decide_eq_true_2.
  - apply elem_of_app. right. by left.
Qed.

(** X11. The breakdowns depend on the queries made before: once
    [credit_distribution] has run on an engine with rating columns, and the
    composite rating it stored is a text column, [categorical_breakdowns]
    has an entry "Composite Rating", which it has not on a dataframe
    without that column. *)
Theorem breakdowns_gain_composite_rating (self : PortfolioAnalyzer) (top_n : Z)
    (d : pd.DataFrame) (xs : list (option pd.pyobj)) (r0 r : list (string * pd.Series)) :
  rating_cols self ≠ [] →
  "Composite Rating" ∉ pd.columns d →
  apply_pick_rating self d = pd.Object xs →
  (categorical_breakdowns self top_n d).1.1 = Ok r0 →
  (categorical_breakdowns self top_n (credit_distribution self d).1.2).1.1 = Ok r →
  ("Composite Rating" ∉ r0.*1) ∧ "Composite Rating" ∈ r.*1.
Proof.
  intros Hne Hnew Hobj H0 H. split.
  - intros Hin. apply (categorical_breakdowns_keys self top_n d r0 H0) in Hin as [Hin _].
    by apply object_columns_columns in Hin.
  - rewrite (credit_distribution_eq self d Hne) in H. cbv zeta in H. cbn [fst snd] in H.
    apply (categorical_breakdowns_keys self top_n _ r H). split.
    + apply object_columns_elem. exists xs. rewrite Hobj. apply setitem_elem.
    + rewrite !not_elem_of_cons. repeat split; try done. apply not_elem_of_nil.
Qed.

Lemma breakdowns_gain_composite_rating_witness :
  dict_totals (categorical_breakdowns rated_self 10 rated_df).1.1
  = Ok [ ("S&P Rating", pd.Fin (Q2Qc 100)); ("Fitch Rating", pd.Fin (Q2Qc 100));
         ("Sector", pd.Fin (Q2Qc 100)); ("FX Currency Code", pd.Fin (Q2Qc 100)) ]
  ∧ dict_totals
      (categorical_breakdowns rated_self 10 (credit_distribution rated_self rated_df).1.2).1.1
    = Ok [ ("S&P Rating", pd.Fin (Q2Qc 100)); ("Fitch Rating", pd.Fin (Q2Qc 100));
           ("Sector", pd.Fin (Q2Qc 100)); ("FX Currency Code", pd.Fin (Q2Qc 100));
           ("Composite Rating", pd.Fin (Q2Qc 100)) ]
  ∧ ∀ r0 r,
      (categorical_breakdowns rated_self 10 rated_df).1.1 = Ok r0 →
      (categorical_breakdowns rated_self 10
         (credit_distribution rated_self rated_df).1.2).1.1 = Ok r →
      ("Composite Rating" ∉ r0.*1) ∧ "Composite Rating" ∈ r.*1.
Proof.
  split; [by_compute |]. split; [by_compute |].
  intros r0 r H0 H.
  apply (breakdowns_gain_composite_rating rated_self 10 rated_df
           [text "AA"; text "BBB"; None] r0 r); [by_compute | by_compute | by_compute | done | done].
Defined.

(** ** Rating columns that name no agency *)

Lemma pick_rating_no_agency (cols : list string) (row : string → option pd.pyobj) :
  (∀ col agency, col ∈ cols → agency ∈ priority →
     Py.contains (Py.lower agency) (Py.lower col) = false) →
  pick_rating cols row = None.
Proof.
  intros H. unfold pick_rating. apply first_some_None. intros x Hx.
  apply list_elem_of_bind in Hx as (p & Hx & Hp).
  apply list_elem_of_bind in Hx as (col & Hx & Hcol).
  apply list_elem_of_singleton in Hx. by rewrite (H col p Hcol Hp) in Hx.
Qed.

Lemma group_sums_all_missing (key : pd.column) (mv : list (option Qc)) :
  categorical key = false → (∀ x, x ∈ pd.values key → x = None) →
  pd.group_sums key mv = [].
Proof.
  intros Hc Hall. rewrite group_sums_object by done.
  assert (omap id (pd.values key) = []) as ->; [| done].
  induction (pd.values key) as [|x xs IH]; [done |].
  rewrite (Hall x) by left. simpl. apply IH. intros y Hy. apply Hall. by right.
Qed.

(** X12. A rating column is used for the composite rating only if its
    label names one of the four agencies.  On an engine whose rating
    columns name none (a column "Rating", say) every composite rating is
    missing and [credit_distribution] returns an empty distribution,
    though there are rating columns. *)
Theorem generic_rating_columns_are_not_used (self : PortfolioAnalyzer)
    (d : pd.DataFrame) (mv : list (option Qc)) :
  rating_cols self ≠ [] →
  (∀ col agency, col ∈ rating_cols self → agency ∈ priority →
     Py.contains (Py.lower agency) (Py.lower col) = false) →
  market_value d = Ok mv →
  (credit_distribution self d).1.1 = Ok (pd.mkSeries (Some "Market Value") [])
  ∧ ∀ i, pd.cell (credit_distribution self d).1.2 "Composite Rating" i = None.
Proof.
  intros Hne Hno Hmv. rewrite (credit_distribution_eq self d Hne). cbv zeta. cbn [fst snd].
  assert (∀ x, x ∈ pd.values (apply_pick_rating self d) → x = None) as Hall.
  { intros x. unfold apply_pick_rating. rewrite values_infer_column.
    intros Hx. apply list_elem_of_fmap in Hx as (i & -> & _).
    by apply pick_rating_no_agency. }
  split.
  - unfold distribution, groupby_sum. rewrite getitem_setitem_eq.
    rewrite market_value_setitem by done. rewrite Hmv. cbn [obind].
    rewrite group_sums_all_missing;
      [done | apply infer_column_not_categorical | done].
  - intros i. unfold pd.cell. rewrite getitem_setitem_eq. simpl.
    destruct (pd.values (apply_pick_rating self d) !! i) as [x|] eqn:E; [| done].
    simpl. apply Hall. by eapply list_elem_of_lookup_2.
Qed.

Lemma generic_rating_columns_are_not_used_witness :
  rating_cols generic_self = ["Rating"]
  ∧ (credit_distribution generic_self generic_df).1.1
    = Ok (pd.mkSeries (Some "Market Value") [])
  ∧ ∀ i, pd.cell (credit_distribution generic_self generic_df).1.2 "Composite Rating" i
         = None.
Proof.
  split; [by_compute |].
  apply (generic_rating_columns_are_not_used generic_self generic_df
           [num 100 1; num 300 1]); [by_compute | | by_compute].
  intros col agency Hcol Ha.
  assert (col = "Rating") as ->.
  { assert (rating_cols generic_self = ["Rating"]) as E by by_compute.
    rewrite E in Hcol. by apply list_elem_of_singleton in Hcol. }
  unfold priority in Ha.
  repeat (apply elem_of_cons in Ha as [-> | Ha]; [by vm_compute |]).
  by apply elem_of_nil in Ha.
Defined.

(** ** The constructor *)

Lemma lstrip_length (s : string) : (String.length (Py.lstrip s) ≤ String.length s)%nat.
Proof.
  induction s as [|c r IH]; [done |]. simpl. destruct (Py.isspace c); simpl; lia.
Qed.

Lemma lstrip_fixed (s : string) :
  Py.lstrip s = s ↔
  match s with String c _ => Py.isspace c = false | EmptyString => True end.
Proof.
  destruct s as [|c r]; [done |]. simpl. destruct (Py.isspace c) eqn:E; [| done].
  split; [| done]. intros H. pose proof (lstrip_length r) as Hl.
  rewrite H in Hl. simpl in Hl. lia.
Qed.

Lemma lstrip_lstrip (s : string) : Py.lstrip (Py.lstrip s) = Py.lstrip s.
Proof.
  induction s as [|c r IH]; [done |]. simpl.
  destruct (Py.isspace c) eqn:E; [done |]. simpl. by rewrite E.
Qed.

Lemma rstrip_rstrip (s : string) : Py.rstrip (Py.rstrip s) = Py.rstrip s.
Proof.
  induction s as [|c r IH]; [done |]. simpl.
  destruct (Py.rstrip r) as [|c' r'] eqn:E.
  - destruct (Py.isspace c) eqn:Ec; [done |]. simpl. by rewrite Ec.
  - simpl in *. by rewrite IH.
Qed.

Lemma lstrip_rstrip (s : string) :
  Py.lstrip s = s → Py.lstrip (Py.rstrip s) = Py.rstrip s.
Proof.
  intros H. apply lstrip_fixed in H. apply lstrip_fixed.
  destruct s as [|c r]; [done |]. simpl.
  destruct (Py.rstrip r); [by rewrite H | done].
Qed.

Lemma strip_strip (s : string) : Py.strip (Py.strip s) = Py.strip s.
Proof.
  unfold Py.strip. rewrite lstrip_rstrip by apply lstrip_lstrip.
  apply rstrip_rstrip.
Qed.

Lemma strip_labels_fixed (d : pd.DataFrame) :
  (∀ c, c ∈ pd.columns d → Py.strip c = c) →
  (fun p : string * pd.column => (Py.strip p.1, p.2)) <$> d = d.
Proof.
  induction d as [|[n c] d IH]; intros H; [done |].
  rewrite fmap_cons. simpl. rewrite (H n) by left. f_equal.
  apply IH. intros c' Hc'. apply H. by right.
Qed.

Lemma to_numeric_to_numeric (numeric_of : pd.pyobj → option Qc) (c : pd.column) :
  pd.to_numeric numeric_of (pd.to_numeric numeric_of c) = pd.to_numeric numeric_of c.
Proof. by destruct c. Qed.

Section Reconstruction.
Variable numeric_of : pd.pyobj → option Qc.

Lemma init_body_labels (l : loc) (p : string) (d0 : pd.DataFrame) (c : string) :
  c ∈ pd.columns (init_body numeric_of l p d0).1.2 → Py.strip c = c.
Proof.
  destruct (init_body_fields numeric_of l p d0) as (Hcols & _). cbv zeta in Hcols.
  rewrite Hcols. intros H. apply list_elem_of_fmap in H as (c0 & -> & _).
  apply strip_strip.
Qed.

(** X13. The constructor strips the column labels, so that stripping a
    label of the engine's dataframe again changes nothing, and it is
    idempotent: an engine built from the dataframe of another engine has
    the same dataframe and resolves the same columns. *)
Theorem constructor_is_idempotent (l l' : loc) (p p' : string) (d0 : pd.DataFrame) :
  (∀ c, c ∈ pd.columns (init_body numeric_of l p d0).1.2 → Py.strip c = c)
  ∧ (init_body numeric_of l' p' (init_body numeric_of l p d0).1.2).1.2
    = (init_body numeric_of l p d0).1.2
  ∧ rating_cols (init_body numeric_of l' p' (init_body numeric_of l p d0).1.2).1.1
    = rating_cols (init_body numeric_of l p d0).1.1
  ∧ sector_col (init_body numeric_of l' p' (init_body numeric_of l p d0).1.2).1.1
    = sector_col (init_body numeric_of l p d0).1.1
  ∧ issuer_col (init_body numeric_of l' p' (init_body numeric_of l p d0).1.2).1.1
    = issuer_col (init_body numeric_of l p d0).1.1
  ∧ currency_col (init_body numeric_of l' p' (init_body numeric_of l p d0).1.2).1.1
    = currency_col (init_body numeric_of l p d0).1.1.
Proof.
  split; [apply init_body_labels |].
  pose proof (init_body_labels l p d0) as Hlab.
  destruct (init_body_fields numeric_of l p d0) as (Hcols & _ & Hr & Hs & Hi & Hc).
  cbv zeta in Hcols, Hr, Hs, Hi, Hc.
  destruct (init_body_fields numeric_of l' p' (init_body numeric_of l p d0).1.2)
    as (Hcols' & _ & Hr' & Hs' & Hi' & Hc').
  cbv zeta in Hcols', Hr', Hs', Hi', Hc'.
  set (d1 := (init_body numeric_of l p d0).1.2) in *.
  assert ((init_body numeric_of l' p' d1).1.2 = d1) as Hd.
  { unfold init_body at 1. rewrite (strip_labels_fixed d1 Hlab).
    subst d1. unfold init_body.
    set (d := (fun p : string * pd.column => (Py.strip p.1, p.2)) <$> d0).
    destruct (pd.getitem "Market Value" d) as [c|] eqn:E; cbn [fst snd].
    - rewrite getitem_setitem_eq. cbn [fst snd].
      rewrite to_numeric_to_numeric. apply setitem_setitem.
    - by rewrite E. }
  split; [exact Hd |].
  rewrite Hd in Hr', Hs', Hi', Hc'.
  rewrite Hr, Hs, Hi, Hc, Hr', Hs', Hi', Hc'. done.
Qed.

End Reconstruction.

(** ** The loader's labels and the KRD profile *)

Lemma rename_map_lookup (d : pd.DataFrame) (c : string) :
  Loader.rename_map d !! c
  = if bool_decide (c ∈ Loader.krd_cols d) then Some ("KRD Contribution " +:+ c) else None.
Proof.
  unfold Loader.rename_map. case_bool_decide as E.
  - destruct (list_to_map _ !! c) as [x|] eqn:Ex.
    + apply elem_of_list_to_map_2 in Ex.
      apply list_elem_of_fmap in Ex as (c' & [= -> ->] & _). done.
    + apply not_elem_of_list_to_map in Ex. exfalso. apply Ex.
      rewrite <- list_fmap_compose. apply list_elem_of_fmap. by exists c.
  - apply not_elem_of_list_to_map. rewrite <- list_fmap_compose.
    intros H. apply list_elem_of_fmap in H as (c' & -> & H). done.
Qed.

(** The label the loader gives to a column labelled [c]. *)
Lemma clean_labels_eq (d0 : pd.DataFrame) :
  Loader.clean_labels d0
  = (fun p : string * pd.column =>
       (if Loader.re_match (Py.strip p.1)
        then "KRD Contribution " +:+ Py.strip p.1 else Py.strip p.1, p.2)) <$> d0.
Proof.
  unfold Loader.clean_labels, Loader.rename.
  set (d := (fun p : string * pd.column => (Py.strip p.1, p.2)) <$> d0).
  assert (∀ c, c ∈ pd.columns d →
            default c (Loader.rename_map d !! c)
            = if Loader.re_match c then "KRD Contribution " +:+ c else c) as Hren.
  { intros c Hc. rewrite rename_map_lookup. unfold Loader.krd_cols.
    assert (Py.strip c = c) as Hs.
    { unfold d, pd.columns in Hc. rewrite <- list_fmap_compose in Hc.
      apply list_elem_of_fmap in Hc as (p & -> & _). apply strip_strip. }
    destruct (Loader.re_match c) eqn:E.
    - rewrite bool_decide_eq_true_2; [done |].
      apply list_elem_of_In, filter_In. rewrite Hs. split; [by apply list_elem_of_In | done].
    - rewrite bool_decide_eq_false_2; [done |].
      intros H. apply list_elem_of_In, filter_In in H as [_ H]. rewrite Hs in H. congruence. }
  assert (∀ p, p ∈ d0 → Py.strip p.1 ∈ pd.columns d) as Hin.
  { intros p Hp. unfold d, pd.columns. rewrite <- list_fmap_compose.
    apply list_elem_of_fmap. by exists p. }
  unfold d at 2. rewrite <- list_fmap_compose.
  apply list_fmap_ext. intros i p Hp. simpl.
  rewrite Hren by (apply Hin; by eapply list_elem_of_lookup_2).
  done.
Qed.

Lemma rstrip_app (a s : string) :
  Py.rstrip s ≠ EmptyString → Py.rstrip (a +:+ s) = a +:+ Py.rstrip s.
Proof.
  intros Hs. induction a as [|c a IH]; [done |].
  change (String c a +:+ s) with (String c (a +:+ s)).
  change (String c a +:+ Py.rstrip s) with (String c (a +:+ Py.rstrip s)).
  simpl. rewrite IH.
  destruct (a +:+ Py.rstrip s) eqn:E; [| done].
  destruct a; [done | discriminate].
Qed.

Lemma rstrip_strip (s : string) : Py.rstrip (Py.strip s) = Py.strip s.
Proof. unfold Py.strip. apply rstrip_rstrip. Qed.

Lemma strip_prefixed (s : string) :
  Py.strip s ≠ EmptyString →
  Py.strip ("KRD Contribution " +:+ Py.strip s) = "KRD Contribution " +:+ Py.strip s.
Proof.
  intros Hne. unfold Py.strip at 1.
  change (Py.lstrip ("KRD Contribution " +:+ Py.strip s))
    with ("KRD Contribution " +:+ Py.strip s).
  rewrite rstrip_app by (by rewrite rstrip_strip). by rewrite rstrip_strip.
Qed.

Lemma re_match_nonempty (s : string) : Loader.re_match s = true → s ≠ EmptyString.
Proof. by destruct s. Qed.

Lemma re_match_prefixed (s : string) :
  Loader.re_match ("KRD Contribution " +:+ s) = false.
Proof. done. Qed.

Lemma contains_prefixed (s : string) :
  Py.contains "KRD Contribution" ("KRD Contribution " +:+ s) = true.
Proof. apply contains_spec. by exists EmptyString, (" " +:+ s)%string. Qed.

Section LoaderAndEngine.
Variable numeric_of : pd.pyobj → option Qc.

(** X14. The loader turns a tenor column, one whose stripped label is
    digits followed by M or Y, into a column "KRD Contribution <label>"
    with the same cells, and an engine built from the cleaned dataframe
    counts that column among the KRD columns of [krd_profile]. *)
Theorem tenor_columns_become_krd_columns (l : loc) (p : string) (d0 : pd.DataFrame)
    (c : string) (col : pd.column) :
  (c, col) ∈ d0 → Loader.re_match (Py.strip c) = true →
  ("KRD Contribution " +:+ Py.strip c, col) ∈ Loader.clean_labels d0
  ∧ "KRD Contribution " +:+ Py.strip c
    ∈ krd_columns (init_body numeric_of l p (Loader.clean_labels d0)).1.2.
Proof.
  intros Hin Hm.
  assert (("KRD Contribution " +:+ Py.strip c, col) ∈ Loader.clean_labels d0) as Hc.
  { rewrite clean_labels_eq. apply list_elem_of_fmap. exists (c, col).
    split; [| done]. simpl. by rewrite Hm. }
  split; [done |].
  unfold krd_columns. apply list_elem_of_In, filter_In.
  split; [| apply contains_prefixed]. apply list_elem_of_In.
  destruct (init_body_fields numeric_of l p (Loader.clean_labels d0)) as (-> & _).
  apply list_elem_of_fmap. exists ("KRD Contribution " +:+ Py.strip c)%string. split.
  - symmetry. apply strip_prefixed. by apply re_match_nonempty.
  - unfold pd.columns. apply list_elem_of_fmap. by eexists (_, col).
Qed.

End LoaderAndEngine.

Lemma tenor_columns_become_krd_columns_witness :
  pd.columns (Loader.clean_labels sheet)
  = ["CUSIP"; "KRD Contribution 6M"; "KRD Contribution 2Y"; "Market Value"]
  ∧ ("KRD Contribution " +:+ Py.strip " 6M", pd.Float64 [num 1 100; num 2 100])
    ∈ Loader.clean_labels sheet
  ∧ "KRD Contribution " +:+ Py.strip " 6M"
    ∈ krd_columns (init_body plain_numeric 1%positive "Sheet" (Loader.clean_labels sheet)).1.2.
Proof.
  split; [by_compute |].
  apply (tenor_columns_become_krd_columns plain_numeric 1%positive "Sheet" sheet " 6M");
    [| by_compute].
  unfold sheet. apply list_elem_of_further, list_elem_of_here.
Defined.

(** X15. The loader's relabelling keeps the cells of every column, leaves
    a column that is no tenor column with its stripped label, and is
    idempotent: a column it has renamed is not renamed again. *)
Theorem loader_labels_settle (d0 : pd.DataFrame) :
  (Loader.clean_labels d0).*2 = d0.*2
  ∧ Loader.clean_labels (Loader.clean_labels d0) = Loader.clean_labels d0
  ∧ (∀ c col, (c, col) ∈ d0 → Loader.re_match (Py.strip c) = false →
       (Py.strip c, col) ∈ Loader.clean_labels d0).
Proof.
  split; [| split].
  - rewrite clean_labels_eq, <- list_fmap_compose. by apply list_fmap_ext.
  - rewrite (clean_labels_eq (Loader.clean_labels d0)).
    rewrite (clean_labels_eq d0), <- list_fmap_compose.
    apply list_fmap_ext. intros i [c col] _. simpl.
    destruct (Loader.re_match (Py.strip c)) eqn:E.
    + rewrite strip_prefixed by (by apply re_match_nonempty).
      by rewrite re_match_prefixed.
    + by rewrite strip_strip, E.
  - intros c col Hin Hm. rewrite clean_labels_eq. apply list_elem_of_fmap.
    exists (c, col). split; [| done]. simpl. by rewrite Hm.
Qed.

(** ** The order of the rating distributions *)

Lemma pyobj_leb_total (x y : pd.pyobj) :
  pd.pyobj_leb x y = true ∨ pd.pyobj_leb y x = true.
Proof.
  destruct x as [a|a|a], y as [b|b|b]; simpl; auto.
  - apply String.leb_total.
  - destruct (Qc_le_total a b); [left | right]; by apply bool_decide_eq_true_2.
  - destruct (Z.le_ge_cases a b); [left | right]; by apply bool_decide_eq_true_2.
Qed.

Lemma label_leb_total (x y : pd.label) :
  pd.label_leb x y = true ∨ pd.label_leb y x = true.
Proof.
  destruct x as [a|i a], y as [b|j b]; simpl.
  - apply pyobj_leb_total.
  - left. by destruct a.
  - right. by destruct b.
  - destruct (Nat.le_ge_cases i j); [left | right]; by apply Nat.leb_le.
Qed.

Lemma sort_index_sorted (s0 s : pd.Series) :
  pd.sort_index s0 = Ok s →
  Sorted (fun p q => pd.label_leb p.1 q.1 = true) (pd.items s).
Proof.
  unfold pd.sort_index. destruct (pd.comparable _); [| done]. intros [= <-].
  cbn [pd.items]. unfold pd.sort_by.
  apply (@Sorted_merge_sort _
           (pd.before (fun p q : pd.label * pd.float64 => pd.label_leb p.1 q.1)) _).
  intros x y. unfold pd.before. apply label_leb_total.
Qed.

Lemma Sorted_lookup_next {A} (R : relation A) (l : list A) (i : nat) (x y : A) :
  Sorted R l → l !! i = Some x → l !! S i = Some y → R x y.
Proof.
  intros Hs. revert i. induction Hs as [|a l Hs IH Hhd]; intros i Hi Hj; [done |].
  destruct i as [|i].
  - injection Hi as <-. destruct l as [|b l]; [done |]. injection Hj as <-.
    by apply HdRel_inv in Hhd.
  - by apply (IH i).
Qed.

Lemma group_sums_labels (key : pd.column) (mv : list (option Qc)) :
  NoDup (pd.group_sums key mv).*1.
Proof.
  destruct key as [xs|xs|xs|cats codes]; simpl.
  1-3: rewrite <- list_fmap_compose;
       apply NoDup_fmap_2_strong;
       [ by intros x y _ _ [= ->]
       | rewrite (sort_by_perm pd.pyobj_leb); apply NoDup_remove_dups ].
  rewrite fmap_imap. apply NoDup_alt. intros i j l Hi Hj.
  apply list_lookup_imap_Some in Hi as (c & _ & ->).
  apply list_lookup_imap_Some in Hj as (c' & _ & E). simpl in E. by injection E.
Qed.

Lemma distribution_labels (d : pd.DataFrame) (col : string) (s : pd.Series) :
  distribution d col = Ok s → NoDup (pd.items s).*1.
Proof.
  intros H. apply distribution_inv in H as (key & mv & _ & _ & ->). simpl.
  unfold pd.percent. rewrite <- list_fmap_compose.
  apply (group_sums_labels key mv).
Qed.

Lemma sorted_by_index_order (d : pd.DataFrame) (col : string) (s : pd.Series) :
  (dist ←! distribution d col; pd.sort_index dist) = Ok s →
  NoDup (pd.items s).*1
  ∧ Sorted (fun p q => pd.label_leb p.1 q.1 = true) (pd.items s).
Proof.
  destruct (distribution d col) as [dist| |] eqn:E; try done. simpl. intros H.
  split; [| by eapply sort_index_sorted].
  apply sort_index_inv in H as [_ Hp]. rewrite Hp. by eapply distribution_labels.
Qed.

(** X16. [credit_distribution], and each distribution of
    [rating_distributions], lists every rating once, in the ascending
    order of the labels: text labels by code point, so that "AA" comes
    before "AAA" and both before "B". *)
Theorem rating_labels_ascending (self : PortfolioAnalyzer) (d : pd.DataFrame)
    (s : pd.Series) :
  (credit_distribution self d).1.1 = Ok s
  ∨ (∃ r col, (rating_distributions self d).1.1 = Ok r ∧ (col, s) ∈ r) →
  NoDup (pd.items s).*1
  ∧ (∀ i p q, pd.items s !! i = Some p → pd.items s !! S i = Some q →
       pd.label_leb p.1 q.1 = true
       ∧ ∀ a b, p.1 = pd.Lab (pd.PStr a) → q.1 = pd.Lab (pd.PStr b) →
                String.leb a b = true ∧ a ≠ b).
Proof.
  intros H.
  assert (NoDup (pd.items s).*1
          ∧ Sorted (fun p q => pd.label_leb p.1 q.1 = true) (pd.items s)) as [Hnd Hs].
  { destruct H as [H | (r & col & Hr & Hin)].
    - destruct (decide (rating_cols self = [])) as [E | E].
      + rewrite (credit_distribution_none self d E) in H. injection H as <-.
        split; constructor.
      + rewrite (credit_distribution_eq self d E) in H. cbv zeta in H.
        cbn [fst] in H. by eapply sorted_by_index_order.
    - eapply sorted_by_index_order. by eapply rating_distributions_entries. }
  split; [done |]. intros i p q Hi Hj.
  pose proof (Sorted_lookup_next _ _ i p q Hs Hi Hj) as Hle. simpl in Hle.
  split; [done |]. intros a b Ha Hb. rewrite Ha, Hb in Hle. simpl in Hle.
  split; [done |]. intros ->.
  assert (p.1 = q.1) as Heq by congruence.
  apply (NoDup_lookup _ i (S i) p.1) in Hnd; [lia | |].
  - by rewrite list_lookup_fmap, Hi.
  - by rewrite list_lookup_fmap, Hj, Heq.
Qed.

Lemma rating_labels_ascending_witness :
  (credit_distribution rated_self rated_df).1.1
  = Ok (pd.mkSeries (Some "Market Value")
          [ (pd.Lab (pd.PStr "AA"), pd.Fin (Q2Qc 25));
            (pd.Lab (pd.PStr "BBB"), pd.Fin (Q2Qc 75)) ])
  ∧ NoDup [ (pd.Lab (pd.PStr "AA"), pd.Fin (Q2Qc 25));
            (pd.Lab (pd.PStr "BBB"), pd.Fin (Q2Qc 75)) ].*1.
Proof.
  split; [by_compute |].
  apply (rating_labels_ascending rated_self rated_df
           (pd.mkSeries (Some "Market Value")
              [ (pd.Lab (pd.PStr "AA"), pd.Fin (Q2Qc 25));
                (pd.Lab (pd.PStr "BBB"), pd.Fin (Q2Qc 75)) ])).
  left. by_compute.
Defined.

(** ** Market values that sum to zero *)




(** ** Queries after [maturity_buckets] *)

Lemma setitem_fresh (n : string) (c : pd.column) (d : pd.DataFrame) :
  n ∉ pd.columns d → pd.setitem n c d = d ++ [(n, c)].
Proof. intros H. unfold pd.setitem. by rewrite bool_decide_eq_false_2. Qed.

Lemma find_app_l {A} (f : A → bool) (l e : list A) :
  List.find f e = None → List.find f (l ++ e) = List.find f l.
Proof.
  intros He. induction l as [|a l IH]; [done |]. simpl. by destruct (f a).
Qed.

Lemma nrows_app (d e : pd.DataFrame) : d ≠ [] → pd.nrows (d ++ e) = pd.nrows d.
Proof. by destruct d. Qed.

Section AfterMaturityBuckets.
Variable datetime_of : pd.pyobj → option Z.

Lemma maturity_buckets_frame (self : PortfolioAnalyzer) (today : Z) (d : pd.DataFrame)
    (maturity : pd.column) :
  (∀ n, n ∈ maturity_columns → n ∉ pd.columns d) →
  pd.getitem "Maturity" d = Some maturity →
  ∃ x1 x2 x3,
    (maturity_buckets datetime_of self today d).1.2
    = d ++ [ ("Maturity Date", pd.Datetime64 x1);
             ("Years to Maturity", pd.Float64 x2);
             ("Maturity Bucket", pd.Categorical labels x3) ].
Proof.
  intros Hfresh Hm. rewrite (maturity_buckets_eq datetime_of self today d maturity Hm).
  cbv zeta. cbn [fst snd]. do 3 eexists.
  rewrite (setitem_fresh "Maturity Date") by (apply Hfresh; by_compute).
  rewrite (setitem_fresh "Years to Maturity").
  2:{ unfold pd.columns. rewrite fmap_app, elem_of_app. intros [H | H].
      - revert H. apply Hfresh. by_compute.
      - by apply list_elem_of_singleton in H. }
  rewrite (setitem_fresh "Maturity Bucket").
  2:{ unfold pd.columns. rewrite !fmap_app, !elem_of_app. intros [[H | H] | H].
      - revert H. apply Hfresh. by_compute.
      - by apply list_elem_of_singleton in H.
      - by apply list_elem_of_singleton in H. }
  rewrite <- !app_assoc. reflexivity.
Qed.

Lemma maturity_buckets_same_reading (self : PortfolioAnalyzer) (today : Z)
    (d : pd.DataFrame) :
  (∀ n, n ∈ maturity_columns → n ∉ pd.columns d) →
  same_reading d (maturity_buckets datetime_of self today d).1.2.
Proof.
  intros Hfresh. destruct (pd.getitem "Maturity" d) as [m|] eqn:Em.
  2:{ by rewrite (maturity_buckets_none datetime_of self today d Em). }
  split.
  { intros n Hn. rewrite (maturity_buckets_eq datetime_of self today d m Em).
    cbv zeta. cbn [fst snd]. unfold maturity_columns in Hn.
    rewrite !not_elem_of_cons in Hn. destruct Hn as (H1 & H2 & H3 & _).
    by rewrite !getitem_setitem_ne. }
  destruct (maturity_buckets_frame self today d m Hfresh Em) as (x1 & x2 & x3 & ->).
  assert (d ≠ []) as Hne by (intros ->; done).
  split; [| split; [| split]].
  - unfold krd_columns, pd.columns. rewrite fmap_app, List.filter_app.
    apply app_nil_r.
  - unfold pd.columns. rewrite fmap_app. by apply find_app_l.
  - unfold pd.object_columns. rewrite List.filter_app, fmap_app. apply app_nil_r.
  - by apply nrows_app.
Qed.

Lemma constant_ret {R} (r : R) : constant_result (ret r).
Proof. by intros d d'. Qed.

Lemma constant_lift {R} (m : outcome R) : constant_result (lift m).
Proof. by intros d d'. Qed.

Lemma constant_bind_lift {A B} (m : outcome A) (k : A → Method B) :
  (∀ a, constant_result (k a)) → constant_result (bind (lift m) k).
Proof.
  intros Hk d d'. rewrite !result_bind_lift. destruct m; [apply Hk | done | done].
Qed.

Lemma constant_bind_ret {A B} (a : A) (k : A → Method B) :
  constant_result (k a) → constant_result (bind (ret a) k).
Proof. intros Hk d d'. rewrite !result_bind_ret. apply Hk. Qed.

Lemma foldl_ext_in {A B} (f g : B → A → B) (b : B) (l : list A) :
  (∀ acc a, a ∈ l → f acc a = g acc a) → foldl f b l = foldl g b l.
Proof.
  revert b. induction l as [|a l IH]; intros b H; [done |]. simpl.
  rewrite (H b a) by left. apply IH. intros acc a' Ha'. apply H. by right.
Qed.

Ltac constant_tac :=
  repeat first
    [ apply constant_ret
    | apply constant_lift
    | apply constant_bind_lift; intros ?
    | apply constant_bind_ret
    | match goal with
      | |- constant_result (bind (if ?b then _ else _) _) => destruct b
      | |- constant_result (match ?x with _ => _ end) => destruct x
      | |- constant_result (if ?b then _ else _) => destruct b
      end ].

(** Closes [(m d').1.1 = (m d).1.1] for a body [m] that no longer reads
    the dataframe. *)
Ltac by_constant_result d' :=
  match goal with
  | |- (?m d').1.1 = _ =>
      let H := fresh in
      assert (constant_result m) as H by constant_tac; apply H
  end.

Section SameReading.
Variables d d' : pd.DataFrame.
Hypothesis Hsame : same_reading d d'.
Hypothesis Hfresh : ∀ n, n ∈ maturity_columns → n ∉ pd.columns d.

Lemma same_getitem (n : string) :
  n ∉ maturity_columns → pd.getitem n d' = pd.getitem n d.
Proof. by apply Hsame. Qed.

Lemma same_column (n : string) : n ∈ pd.columns d → pd.getitem n d' = pd.getitem n d.
Proof. intros Hn. apply same_getitem. intros H. by apply (Hfresh n). Qed.

Lemma same_member (n : string) :
  n ∉ maturity_columns →
  bool_decide (n ∈ pd.columns d') = bool_decide (n ∈ pd.columns d).
Proof.
  intros Hn. apply bool_decide_ext. split; intros H.
  - apply getitem_is_Some in H as [col H]. rewrite same_getitem in H by done.
    by eapply getitem_Some_elem.
  - apply getitem_is_Some in H as [col H]. rewrite <- same_getitem in H by done.
    by eapply getitem_Some_elem.
Qed.

Lemma same_market_value : market_value d' = market_value d.
Proof. unfold market_value. by rewrite same_getitem by by_compute. Qed.

Lemma same_groupby_sum (col : string) :
  col ∉ maturity_columns → groupby_sum d' col = groupby_sum d col.
Proof. intros H. unfold groupby_sum. by rewrite same_getitem, same_market_value. Qed.

Lemma same_distribution (col : string) :
  col ∉ maturity_columns → distribution d' col = distribution d col.
Proof. intros H. unfold distribution. by rewrite same_groupby_sum. Qed.

Lemma same_weighted_average (col : string) :
  col ∉ maturity_columns → weighted_average d' col = weighted_average d col.
Proof.
  intros H. unfold weighted_average. by rewrite same_getitem, same_market_value.
Qed.

Lemma fresh_column (n : string) : n ∈ pd.columns d → n ∉ maturity_columns.
Proof. intros Hn H. by apply (Hfresh n). Qed.

Lemma same_cell (col : string) (i : nat) :
  col ∉ maturity_columns → pd.cell d' col i = pd.cell d col i.
Proof. intros H. unfold pd.cell. by rewrite same_getitem. Qed.

Lemma same_apply_pick_rating (self : PortfolioAnalyzer) :
  apply_pick_rating self d' = apply_pick_rating self d.
Proof.
  unfold apply_pick_rating. f_equal.
  destruct Hsame as (_ & _ & _ & _ & ->). apply list_fmap_ext. intros _ i _.
  apply pick_rating_ext. intros col agency Ha Hc. apply same_cell.
  intros Hcol. unfold maturity_columns, priority in *.
  repeat (apply elem_of_cons in Hcol as [-> | Hcol];
          [ repeat (apply elem_of_cons in Ha as [-> | Ha]; [by vm_compute in Hc |]);
            by apply elem_of_nil in Ha |]).
  by apply elem_of_nil in Hcol.
Qed.

Lemma same_summary (self : PortfolioAnalyzer) (today : Z) :
  (summary datetime_of self today d').1.1 = (summary datetime_of self today d).1.1.
Proof.
  unfold summary. rewrite !result_read.
  rewrite same_market_value.
  rewrite (same_member "Yield to Worst"), (same_member "Maturity") by by_compute.
  rewrite (same_getitem "Yield to Worst"), (same_getitem "Maturity") by by_compute.
  by_constant_result d'.
Qed.

Lemma same_credit_distribution (self : PortfolioAnalyzer) :
  (credit_distribution self d').1.1 = (credit_distribution self d).1.1.
Proof.
  destruct (decide (rating_cols self = [])) as [E | E].
  - by rewrite !credit_distribution_none.
  - rewrite !credit_distribution_eq by done. cbv zeta. cbn [fst].
    unfold distribution, groupby_sum. rewrite !getitem_setitem_eq.
    rewrite !market_value_setitem by done.
    by rewrite same_market_value, same_apply_pick_rating.
Qed.

Lemma same_sector_exposure (self : PortfolioAnalyzer) :
  resolved self d → (sector_exposure self d').1.1 = (sector_exposure self d).1.1.
Proof.
  intros (_ & Hs & _).
  destruct (sector_exposure_cases self d) as [(col & Hc & Hne & E) | E].
  - rewrite E, (sector_exposure_eq self d' col Hc Hne). cbn [fst].
    by rewrite same_distribution by (apply fresh_column; auto).
  - destruct (sector_exposure_cases self d') as [(col & Hc & Hne & E') | E'].
    + rewrite (sector_exposure_eq self d col Hc Hne) in E. cbn [fst].
      rewrite E', (sector_exposure_eq self d col Hc Hne). cbn [fst].
      by rewrite same_distribution by (apply fresh_column; auto).
    + by rewrite E, E'.
Qed.

Lemma same_currency_exposure (self : PortfolioAnalyzer) :
  resolved self d → (currency_exposure self d').1.1 = (currency_exposure self d).1.1.
Proof.
  intros (_ & _ & _ & Hs).
  destruct (currency_exposure_cases self d) as [(col & Hc & Hne & E) | E].
  - rewrite E, (currency_exposure_eq self d' col Hc Hne). cbn [fst].
    by rewrite same_distribution by (apply fresh_column; auto).
  - destruct (currency_exposure_cases self d') as [(col & Hc & Hne & E') | E'].
    + rewrite E', (currency_exposure_eq self d col Hc Hne). cbn [fst].
      by rewrite same_distribution by (apply fresh_column; auto).
    + by rewrite E, E'.
Qed.

Lemma same_top_holdings (self : PortfolioAnalyzer) (n : Z) :
  resolved self d → (top_holdings self n d').1.1 = (top_holdings self n d).1.1.
Proof.
  intros (_ & _ & Hi & _). unfold top_holdings.
  destruct (issuer_col self) as [col|] eqn:E; [| done].
  destruct (Py.truthy (Some col)); [| done].
  rewrite !result_read, !result_lift.
  by rewrite same_groupby_sum by (apply fresh_column; auto).
Qed.

Lemma same_rating_distributions (self : PortfolioAnalyzer) :
  resolved self d →
  (rating_distributions self d').1.1 = (rating_distributions self d).1.1.
Proof.
  intros (Hr & _). unfold rating_distributions. rewrite !result_read, !result_lift.
  apply foldl_ext_in. intros acc col Hcol.
  by rewrite same_distribution by (apply fresh_column; auto).
Qed.

Lemma same_categorical_breakdowns (self : PortfolioAnalyzer) (top_n : Z) :
  (categorical_breakdowns self top_n d').1.1 = (categorical_breakdowns self top_n d).1.1.
Proof.
  unfold categorical_breakdowns. rewrite !result_read, !result_lift.
  destruct Hsame as (_ & _ & _ & -> & _).
  apply foldl_ext_in. intros acc col Hcol.
  by rewrite same_distribution by (by apply fresh_column, object_columns_columns).
Qed.

Lemma same_duration (self : PortfolioAnalyzer) :
  (duration self d').1.1 = (duration self d).1.1.
Proof.
  destruct Hsame as (_ & _ & Hfind & _).
  destruct (List.find (fun c => Py.contains "duration" (Py.lower c)) (pd.columns d))
    as [col|] eqn:E.
  - rewrite (duration_eq self d col E), (duration_eq self d' col) by (by rewrite Hfind).
    cbn [fst]. rewrite same_weighted_average; [done |].
    apply fresh_column. apply find_some in E as [E _]. by apply list_elem_of_In.
  - rewrite (duration_none self d E), (duration_none self d') by (by rewrite Hfind).
    done.
Qed.

Lemma same_krd_profile (self : PortfolioAnalyzer) :
  (krd_profile self d').1.1 = (krd_profile self d).1.1.
Proof.
  unfold krd_profile. rewrite !result_read.
  change (List.filter (Py.contains "KRD Contribution") (pd.columns d'))
    with (krd_columns d').
  change (List.filter (Py.contains "KRD Contribution") (pd.columns d))
    with (krd_columns d).
  destruct Hsame as (_ & -> & _).
  case_bool_decide; [done |]. rewrite !result_lift, same_market_value.
  destruct (market_value d) as [mv| |]; [| done | done]. cbn [obind].
  assert (∀ c, c ∈ krd_columns d → pd.getitem c d' = pd.getitem c d) as Hkrd.
  { intros c Hc. apply same_column. unfold krd_columns in Hc.
    apply list_elem_of_In, filter_In in Hc as [Hc _]. by apply list_elem_of_In. }
  match goal with
  | |- obind (pd.sequence (?f <$> _)) _ = obind (pd.sequence (?g <$> _)) _ =>
      assert (f <$> krd_columns d = g <$> krd_columns d) as ->; [| done]
  end.
  apply list_fmap_ext. intros i c Hc. simpl.
  rewrite Hkrd by (by eapply list_elem_of_lookup_2). done.
Qed.

Lemma same_maturity_buckets (self : PortfolioAnalyzer) (today : Z) :
  (maturity_buckets datetime_of self today d').1.1
  = (maturity_buckets datetime_of self today d).1.1.
Proof.
  pose proof (same_getitem "Maturity" ltac:(by_compute)) as Hm.
  destruct (pd.getitem "Maturity" d) as [m|] eqn:E.
  - rewrite (maturity_buckets_eq datetime_of self today d m E).
    rewrite (maturity_buckets_eq datetime_of self today d' m Hm).
    cbv zeta. cbn [fst]. unfold distribution, groupby_sum.
    rewrite !getitem_setitem_eq. rewrite !market_value_setitem by done.
    by rewrite same_market_value.
  - rewrite (maturity_buckets_none datetime_of self today d E).
    by rewrite (maturity_buckets_none datetime_of self today d' Hm).
Qed.

Lemma same_combined_rating (self : PortfolioAnalyzer) :
  (combined_rating self d').1.1 = (combined_rating self d).1.1.
Proof.
  destruct (decide (rating_cols self = [])) as [E | E].
  - by rewrite !combined_rating_none.
  - by rewrite !combined_rating_eq.
Qed.

Lemma same_exec (self : PortfolioAnalyzer) (q : query) :
  resolved self d →
  (exec datetime_of self q d').1.1 = (exec datetime_of self q d).1.1.
Proof.
  intros Hres. destruct q; simpl; rewrite !result_returning.
  - by rewrite same_summary.
  - by rewrite same_combined_rating.
  - by rewrite same_credit_distribution.
  - by rewrite same_rating_distributions.
  - by rewrite same_sector_exposure.
  - by rewrite same_krd_profile.
  - by rewrite same_top_holdings.
  - by rewrite same_duration.
  - by rewrite same_maturity_buckets.
  - by rewrite same_currency_exposure.
  - by rewrite same_categorical_breakdowns.
Qed.



End SameReading.

(** X18. [maturity_buckets] changes what no query returns.  On an
    engine whose dataframe has none of the three maturity columns yet,
    every query, [maturity_buckets] itself for whatever date included,
    returns after a call of [maturity_buckets] what it returns without
    it, or raises as it does without it. *)
Theorem maturity_buckets_changes_no_answer (self : PortfolioAnalyzer) (today : Z)
    (d : pd.DataFrame) (q : query) :
  resolved self d →
  (∀ n, n ∈ maturity_columns → n ∉ pd.columns d) →
  (exec datetime_of self q (maturity_buckets datetime_of self today d).1.2).1.1
  = (exec datetime_of self q d).1.1.
Proof.
  intros Hres Hfresh. apply same_exec; [| done | done].
  by apply maturity_buckets_same_reading.
Qed.

End AfterMaturityBuckets.

Lemma maturity_buckets_changes_no_answer_witness :
  (exec plain_datetime rated_self (q_categorical_breakdowns 10)
     (maturity_buckets plain_datetime rated_self 0 rated_df).1.2).1.1
  = (exec plain_datetime rated_self (q_categorical_breakdowns 10) rated_df).1.1.
Proof.
  apply (maturity_buckets_changes_no_answer plain_datetime rated_self 0 rated_df).
  - apply (init_resolved plain_numeric).
  - intros n Hn. unfold maturity_columns in Hn.
    repeat (apply elem_of_cons in Hn as [-> | Hn]; [by_compute |]).
    by apply elem_of_nil in Hn.
Defined.

(** ** The export's file names *)

Lemma append_cons (c : ascii) (a s : string) :
  String c a +:+ s = String c (a +:+ s).
Proof. done. Qed.

Lemma length_append (a s : string) :
  String.length (a +:+ s) = (String.length a + String.length s)%nat.
Proof.
  induction a as [|c a IH]; [done |]. rewrite append_cons. simpl. by rewrite IH.
Qed.

Lemma append_inj_r (a b s : string) : a +:+ s = b +:+ s → a = b.
Proof.
  revert b. induction a as [|c a IH]; intros [|c' b] H.
  - done.
  - apply (f_equal String.length) in H. rewrite !length_append in H. simpl in H. lia.
  - apply (f_equal String.length) in H. rewrite !length_append in H. simpl in H. lia.
  - rewrite !append_cons in H. injection H as -> H. f_equal. by apply IH.
Qed.

Lemma replace_spaces_again (s : string) :
  exportAnalysis.replace_spaces (exportAnalysis.replace_spaces s) = exportAnalysis.replace_spaces s.
Proof.
  induction s as [|c s IH]; [done |]. simpl. rewrite IH. f_equal.
  destruct (bool_decide (c = " "%char)) eqn:E; [by case_bool_decide | by rewrite E].
Qed.

Lemma replace_spaces_credit (s : string) :
  exportAnalysis.replace_spaces s = "credit" → s = "credit".
Proof.
  intros H.
  repeat (destruct s as [|? s]; [done |]; simpl in H;
          case_bool_decide; [done |]; injection H as <- H).
  by destruct s.
Qed.

(** X19. The export names the file of a rating column after its label
    with the spaces replaced by underscores.  So two columns get the same
    file exactly when their labels are equal up to that replacement (the
    later one overwrites the earlier), a label and its replacement do, and
    no column that matches a rating alias gets the file of the composite
    credit distribution. *)
Theorem export_file_names (output_prefix : string) :
  (∀ col col',
     exportAnalysis.distribution_file output_prefix col
     = exportAnalysis.distribution_file output_prefix col'
     ↔ exportAnalysis.replace_spaces col = exportAnalysis.replace_spaces col')
  ∧ (∀ col,
       exportAnalysis.distribution_file output_prefix (exportAnalysis.replace_spaces col)
       = exportAnalysis.distribution_file output_prefix col)
  ∧ (∀ col,
       matches (default [] (alias_map !! "rating")) col = true →
       exportAnalysis.distribution_file output_prefix col
       ≠ exportAnalysis.credit_distribution_file output_prefix).
Proof.
  split; [| split].
  - intros col col'. unfold exportAnalysis.distribution_file. split; [| by intros ->].
    intros H. apply (inj (append output_prefix)) in H.
    apply (inj (append "_")) in H. by apply append_inj_r in H.
  - intros col. unfold exportAnalysis.distribution_file. by rewrite replace_spaces_again.
  - intros col Hm H. unfold exportAnalysis.distribution_file, exportAnalysis.credit_distribution_file in H.
    apply (inj (append output_prefix)) in H.
    change "_credit_distribution.csv" with ("_" +:+ "credit" +:+ "_distribution.csv") in H.
    apply (inj (append "_")) in H. apply append_inj_r in H.
    apply replace_spaces_credit in H. subst col. by vm_compute in Hm.
Qed.

(** ** The average maturity *)

Lemma sum_days_bounds (ns : list Z) (lo hi : Z) :
  Forall (fun n => lo ≤ n ≤ hi)%Z ns →
  (lo * Z.of_nat (length ns) ≤ foldr Z.add 0 ns
   ∧ foldr Z.add 0 ns ≤ hi * Z.of_nat (length ns))%Z.
Proof.
  induction 1 as [|n ns [Hlo Hhi] _ [IH1 IH2]]; simpl; [lia |].
  rewrite Nat2Z.inj_succ. lia.
Qed.

Lemma Q2Qc_inject_Z (n : Z) : Q2Qc (inject_Z n) = Qc_of_Z n.
Proof. apply Qc_is_canon. simpl. apply Qred_correct. Qed.

Lemma mean_days_bounds (ds : list (option Z)) (lo hi : Z) :
  omap id ds ≠ [] → Forall (fun n => lo ≤ n ≤ hi)%Z (omap id ds) →
  ∃ a, pd.fdiv (mean_days ds) (pd.Fin (Q2Qc 365)) = pd.Fin a
       ∧ Q2Qc (inject_Z lo) / Q2Qc 365 <= a
       ∧ a <= Q2Qc (inject_Z hi) / Q2Qc 365.
Proof.
  intros Hne Hall. unfold mean_days. cbv zeta.
  set (present := omap id ds) in *.
  destruct (sum_days_bounds present lo hi Hall) as [H1 H2].
  assert (0 < Z.of_nat (length present))%Z as Hn by (destruct present; [done | simpl; lia]).
  rewrite !Q2Qc_inject_Z.
  assert (0 < Qc_of_Z (Z.of_nat (length present))) as HW.
  { rewrite <- Z2Qc_inj_0. by apply (proj1 (Z2Qc_inj_lt _ _)). }
  destruct (quotient_bounds (Qc_of_Z (foldr Z.add 0%Z present))
              (Qc_of_Z (Z.of_nat (length present))) (Qc_of_Z lo) (Qc_of_Z hi) HW)
    as [B1 B2].
  { rewrite <- Z2Qc_inj_mul. by apply (proj1 (Z2Qc_inj_le _ _)). }
  { rewrite <- Z2Qc_inj_mul. by apply (proj1 (Z2Qc_inj_le _ _)). }
  simpl. rewrite bool_decide_eq_false_2
    by (intros E; rewrite E in HW; by apply Qclt_not_eq in HW).
  simpl. eexists. split; [reflexivity |].
  assert (0 <= / Q2Qc 365) as H365 by done.
  unfold Qcdiv at 1 3 5. split; by apply Qcmult_le_mono_nonneg_r.
Qed.

Lemma summary_average_maturity (datetime_of : pd.pyobj → option Z)
    (self : PortfolioAnalyzer) (today : Z) (d : pd.DataFrame) (maturity : pd.column)
    (s : Summary) :
  pd.getitem "Maturity" d = Some maturity →
  (summary datetime_of self today d).1.1 = Ok s →
  Average_Maturity s
  = Some (pd.fdiv (mean_days (pd.days today <$> pd.to_datetime datetime_of maturity))
                  (pd.Fin (Q2Qc 365))).
Proof.
  intros Hm. unfold summary. rewrite result_read, result_bind_lift.
  destruct (market_value d) as [mv| |]; [| done | done].
  rewrite (bool_decide_eq_true_2 ("Maturity" ∈ pd.columns d))
    by (by eapply getitem_Some_elem).
  rewrite Hm.
  case_bool_decide as Ey.
  - rewrite result_bind_lift.
    match goal with |- context [match ?x with Ok _ => _ | _ => _ end] => destruct x end;
      [| done | done].
    rewrite result_bind_lift. cbn [fst]. by intros [= <-].
  - rewrite result_bind_ret, result_bind_lift. cbn [fst]. by intros [= <-].
Qed.

(** X20. The average maturity of [summary] is the plain mean of the whole
    days to maturity of the holdings that have a maturity date, over 365:
    market values play no part.  It lies between the smallest and the
    largest of those day counts over 365, and it is NaN when no holding has
    a maturity date. *)
Theorem average_maturity_is_unweighted (datetime_of : pd.pyobj → option Z)
    (self : PortfolioAnalyzer) (today : Z) (d : pd.DataFrame) (maturity : pd.column)
    (s : Summary) (lo hi : Z) :
  pd.getitem "Maturity" d = Some maturity →
  (summary datetime_of self today d).1.1 = Ok s →
  (days_to_maturity datetime_of today maturity = [] →
     Average_Maturity s = Some pd.NaN)
  ∧ (days_to_maturity datetime_of today maturity ≠ [] →
     Forall (fun n => lo ≤ n ≤ hi)%Z (days_to_maturity datetime_of today maturity) →
     ∃ a, Average_Maturity s = Some (pd.Fin a)
          ∧ Q2Qc (inject_Z lo) / Q2Qc 365 <= a
          ∧ a <= Q2Qc (inject_Z hi) / Q2Qc 365).
Proof.
  intros Hm Hs.
  rewrite (summary_average_maturity datetime_of self today d maturity s Hm Hs).
  unfold days_to_maturity. split.
  - intros E. unfold mean_days. cbv zeta. by rewrite E.
  - intros Hne Hall.
    destruct (mean_days_bounds _ lo hi Hne Hall) as (a & -> & Ha). by exists a.
Qed.

Lemma average_maturity_is_unweighted_witness :
  (summary plain_datetime rated_self 0 rated_df).1.1
  = Ok (mkSummary "Rated" (Q2Qc 450) None (Some (pd.Fin (Q2Qc (5459 # 1095)))))
  ∧ days_to_maturity plain_datetime 0
      (pd.Datetime64 [Some (1460 * pd.day_ns)%Z; Some (-5)%Z; Some (4000 * pd.day_ns)%Z])
    = [1460; -1; 4000]%Z
  ∧ ∃ a, Average_Maturity
           (mkSummary "Rated" (Q2Qc 450) None (Some (pd.Fin (Q2Qc (5459 # 1095)))))
         = Some (pd.Fin a)
         ∧ Q2Qc (inject_Z (-1)) / Q2Qc 365 <= a
         ∧ a <= Q2Qc (inject_Z 4000) / Q2Qc 365.
Proof.
  split; [by_compute |]. split; [by_compute |].
  apply (average_maturity_is_unweighted plain_datetime rated_self 0 rated_df
           (pd.Datetime64 [Some (1460 * pd.day_ns)%Z; Some (-5)%Z; Some (4000 * pd.day_ns)%Z])
           _ (-1) 4000); by_compute.
Defined.
